(** * QCoDeS instrument drivers: Rigol DS4000 waveform read-out and
      Keithley 3706A channel specifiers

    A shallow embedding of
    - [qcodes/instrument_drivers/rigol/Rigol_DS4000.py] (class [ScopeArray]) and
    - [qcodes/instrument_drivers/Keithley/Keithley_3706A.py] (class
      [Keithley3706A]),
    with the properties of their specification stated and proved over it.

    Conventions.  A Python [str] is a Rocq [string], one character per code
    point below 256; [bytes] and [bytearray] are [list byte].  A method that
    can raise returns an [outcome]; a method that talks to the instrument
    runs in a small state-and-exception monad whose state records every
    command sent, every reply received and every warning emitted. *)

From Stdlib Require Import List String Ascii ZArith NArith Lia Bool DecimalString.
From Stdlib Require Import Strings.Byte.
From Stdlib Require PrimFloat Uint63 FloatOps SpecFloat.
From Stdlib Require DecimalZ.
Import ListNotations.
Local Open Scope string_scope.
Local Open Scope list_scope.

(** ** Python exceptions and results *)

(** The exceptions the two drivers raise themselves or let through from the
    built-ins they call. *)
Inductive exn : Type :=
| ValueError (msg : string)
| UnicodeDecodeError
| TypeError (msg : string)
| AttributeError (msg : string)
| ConversionError (msg : string)
| StopIteration
| IndexError
| KeyError
| RigolDS4000TraceNotReady (msg : string)
| Keithley3706AInvalidValue (msg : string)
| Keithley3706AUnknownOrEmptySlot (msg : string).

(** [UnicodeDecodeError] is a subclass of [ValueError] in Python: an
    [except ValueError] clause catches both. *)
Definition is_ValueError (e : exn) : bool :=
  match e with
  | ValueError _ | UnicodeDecodeError => true
  | _ => false
  end.

Inductive outcome (A : Type) : Type :=
| Ok (a : A)
| Raise (e : exn).
Arguments Ok {A} a.
Arguments Raise {A} e.

(** ** The Python built-ins the drivers use *)

Module Py.

Definition bytes := list byte.

(** [x in l] for a list (or tuple) of strings. *)
Definition mem (x : string) (l : list string) : bool :=
  existsb (String.eqb x) l.

(** [s.split(sep)] for a one-character separator: every occurrence splits,
    and the empty string yields one empty field. *)
Fixpoint split (sep : ascii) (s : string) : list string :=
  match s with
  | EmptyString => [EmptyString]
  | String c s' =>
      if Ascii.eqb c sep then EmptyString :: split sep s'
      else match split sep s' with
           | [] => [String c EmptyString]
           | field :: fields => String c field :: fields
           end
  end.

(** [str(i)] for an integer. *)
Definition str (i : Z) : string := NilZero.string_of_int (Z.to_int i).

(** [range(1, n + 1)]. *)
Definition range1 (n : Z) : list Z := map Z.of_nat (seq 1 (Z.to_nat n)).

(** The characters of a string, each as a one-character string: what
    iterating over a [str] yields. *)
Fixpoint chars (s : string) : list string :=
  match s with
  | EmptyString => []
  | String c s' => String c EmptyString :: chars s'
  end.

Definition is_ascii_digit (c : ascii) : bool :=
  let n := N_of_ascii c in (48 <=? n)%N && (n <=? 57)%N.

Fixpoint string_forallb (p : ascii -> bool) (s : string) : bool :=
  match s with
  | EmptyString => true
  | String c s' => p c && string_forallb p s'
  end.

(** [int(s)] on a string of ASCII digits, most significant digit first. *)
Fixpoint int_of_digits_from (acc : Z) (s : string) : Z :=
  match s with
  | EmptyString => acc
  | String c s' =>
      int_of_digits_from (10 * acc + (Z.of_N (N_of_ascii c) - 48)) s'
  end.

Definition int_of_digits (s : string) : Z := int_of_digits_from 0 s.

(** [int(s)] for a [str]: the model covers an optional minus sign followed by
    ASCII digits, which is all the drivers pass to it. *)
Definition int_of_str (s : string) : outcome Z :=
  match NilZero.int_of_string s with
  | Some d => Ok (Z.of_int d)
  | None => Raise (ValueError "invalid literal for int() with base 10")
  end.

(** [c.isdigit()] for one character below 256: the ASCII digits and the
    superscripts two, three and one. *)
Definition is_digit_char (c : ascii) : bool :=
  let n := N_of_ascii c in
  is_ascii_digit c || (n =? 178)%N || (n =? 179)%N || (n =? 185)%N.

(** [s.isdigit()]: non-empty and every character a digit. *)
Definition isdigit (s : string) : bool :=
  match s with
  | EmptyString => false
  | _ => string_forallb is_digit_char s
  end.

(** [c.isspace()] for one character of a [str] below 256. *)
Definition is_space_char (c : ascii) : bool :=
  let n := N_of_ascii c in
  ((9 <=? n)%N && (n <=? 13)%N) || ((28 <=? n)%N && (n <=? 32)%N)
  || (n =? 133)%N || (n =? 160)%N.

Fixpoint str_lstrip (s : string) : string :=
  match s with
  | EmptyString => EmptyString
  | String c s' => if is_space_char c then str_lstrip s' else s
  end.

Fixpoint str_rev_onto (s acc : string) : string :=
  match s with
  | EmptyString => acc
  | String c s' => str_rev_onto s' (String c acc)
  end.

Definition str_rev (s : string) : string := str_rev_onto s EmptyString.

(** [s.strip()] for a [str]. *)
Definition str_strip (s : string) : string :=
  str_rev (str_lstrip (str_rev (str_lstrip s))).

(** The ASCII whitespace of [bytes.strip()]: space, tab, newline, carriage
    return, vertical tab and form feed. *)
Definition is_space_byte (b : byte) : bool :=
  match b with
  | x09 | x0a | x0b | x0c | x0d | x20 => true
  | _ => false
  end.

Fixpoint bytes_lstrip (bs : bytes) : bytes :=
  match bs with
  | [] => []
  | b :: bs' => if is_space_byte b then bytes_lstrip bs' else bs
  end.

Definition bytes_rstrip (bs : bytes) : bytes := rev (bytes_lstrip (rev bs)).

(** [bs.strip()] for [bytes]: whitespace goes from both ends. *)
Definition bytes_strip (bs : bytes) : bytes := bytes_rstrip (bytes_lstrip bs).

(** [bs.decode("ascii")]: fails on any byte above 127. *)
Definition decode_ascii (bs : bytes) : outcome string :=
  if forallb (fun b => (Byte.to_N b <? 128)%N) bs
  then Ok (string_of_list_byte bs)
  else Raise UnicodeDecodeError.

End Py.

(** ** Rigol DS4000: [ScopeArray] *)

Module Rigol.
Import Py.

(** *** Block framing: [ScopeArray._validate_strip_block] *)

(** [re.match(r"#9(\d{9})", header)]: the pattern is anchored at the start of
    [header]; the result is group 1, the nine digits.  [header] was decoded
    as ASCII, where [\d] matches the ten ASCII digits only. *)
Definition match_header (header : string) : option string :=
  match header with
  | String "#" (String "9" rest) =>
      let group := substring 0 9 rest in
      if (String.length group =? 9)%nat && string_forallb is_ascii_digit group
      then Some group
      else None
  | _ => None
  end.

Definition _validate_strip_block (block : bytes) : outcome bytes :=
  match decode_ascii (firstn 11 block) with
  | Raise e => Raise e
  | Ok header =>
      match match_header header with
      | Some digits =>
          let size := int_of_digits digits in
          let block_nh := skipn 11 block in
          let block_nh := bytes_strip block_nh in
          if (size =? Z.of_nat (List.length block_nh))%Z
          then Ok block_nh
          else Raise (ValueError "Malformed data")
      | None => Raise (ValueError "Malformed data")
      end
  end.

(** The block the instrument sends for a payload: header, payload, and the
    terminator bytes that follow it. *)
Definition frame (digits payload trailing : bytes) : bytes :=
  x23 :: x39 :: digits ++ payload ++ trailing.

Definition is_digit_byte (b : byte) : bool :=
  let n := Byte.to_N b in (48 <=? n)%N && (n <=? 57)%N.

(** A body that [bytes.strip()] leaves alone: empty, or with a first and a
    last byte that are not whitespace. *)
Definition strip_stable (payload : bytes) : bool :=
  match payload with
  | [] => true
  | b :: _ => negb (is_space_byte b) && negb (is_space_byte (last payload b))
  end.

(** *** The instrument and the driver's state *)

Inductive event : Type :=
| EvWrite (cmd : string)
| EvAsk (cmd reply : string)
| EvReadRaw (data : bytes)
| EvSleep.

Definition is_status_query (e : event) : bool :=
  match e with
  | EvAsk cmd _ => String.eqb cmd ":WAVeform:STATus?"
  | _ => false
  end.

Section Driver.

(** Floating-point numbers (Python [float], numpy [float64]) and the library
    functions over them are parameters of the model. *)
Variable F : Type.
Variables fadd fsub fmul : F -> F -> F.
(** Promotion of an [int] to [float]. *)
Variable float_of_Z : Z -> F.
(** [int(x)] for a float: fails on nan and on the infinities. *)
Variable float_to_int : F -> option Z.
(** [float(s)]: fails with [ValueError] on a string that is not a number. *)
Variable float_of_str : string -> option F.
(** [np.linspace(start, stop, num)]: fails on a negative [num]. *)
Variable linspace : F -> F -> Z -> option (list F).

(** The instrument behind the VISA session: a state machine that consumes
    commands, answers queries and hands out raw blocks. *)
Variable Dev : Type.
Variable dev_write : string -> Dev -> Dev.
Variable dev_ask : string -> Dev -> string * Dev.
Variable dev_read_raw : Dev -> bytes * Dev.

(** A Python number: [conv] returns an [int] or a [float]. *)
Inductive num : Type :=
| PyInt (z : Z)
| PyFloat (f : F).

Definition to_float (x : num) : F :=
  match x with
  | PyInt z => float_of_Z z
  | PyFloat f => f
  end.

Definition num_add (x y : num) : num :=
  match x, y with
  | PyInt a, PyInt b => PyInt (a + b)
  | _, _ => PyFloat (fadd (to_float x) (to_float y))
  end.

Definition num_mul (x y : num) : num :=
  match x, y with
  | PyInt a, PyInt b => PyInt (a * b)
  | _, _ => PyFloat (fmul (to_float x) (to_float y))
  end.

(** [int(x)]. *)
Definition int_of_num (x : num) : outcome Z :=
  match x with
  | PyInt z => Ok z
  | PyFloat f =>
      match float_to_int f with
      | Some z => Ok z
      | None => Raise (ConversionError "cannot convert float to integer")
      end
  end.

Definition np_linspace (start stop : num) (n : Z) : outcome (list F) :=
  match linspace (to_float start) (to_float stop) n with
  | Some xs => Ok xs
  | None => Raise (ValueError "Number of samples must be non-negative")
  end.

(** [PreambleNT], the named tuple of [get_preamble]. *)
Record PreambleNT : Type := {
  format : num;
  mode : num;
  points : num;
  count : num;
  xincrement : num;
  xorigin : num;
  xreference : num;
  yincrement : num;
  yorigin : num;
  yreference : num
}.

(** [PreambleNT] applied to the unpacked list [preamble_num]: exactly ten
    positional arguments. *)
Definition make_preamble (l : list num) : outcome PreambleNT :=
  match l with
  | [a; b; c; d; e; f; g; h; i; j] =>
      Ok {| format := a; mode := b; points := c; count := d; xincrement := e;
            xorigin := f; xreference := g; yincrement := h; yorigin := i;
            yreference := j |}
  | _ => Raise (TypeError "PreambleNT.__new__() takes 10 positional arguments")
  end.

(** [conv] of [get_preamble]: [int(x) if x.isdigit() else float(x)]. *)
Definition conv (x : string) : outcome num :=
  if isdigit x then
    if string_forallb is_ascii_digit x then Ok (PyInt (int_of_digits x))
    else Raise (ValueError "invalid literal for int() with base 10")
  else
    match float_of_str x with
    | Some f => Ok (PyFloat f)
    | None => Raise (ValueError "could not convert string to float")
    end.

(** A list comprehension whose body can raise: left to right, the first
    exception ends it. *)
Fixpoint map_outcome {A B : Type} (f : A -> outcome B) (l : list A)
  : outcome (list B) :=
  match l with
  | [] => Ok []
  | a :: l' =>
      match f a with
      | Raise e => Raise e
      | Ok b =>
          match map_outcome f l' with
          | Raise e => Raise e
          | Ok bs => Ok (b :: bs)
          end
      end
  end.

(** The attributes of a [ScopeArray] that the modelled methods read or
    write.  [shape] is [self.shape[0]]; [preamble] is unset until
    [get_preamble] has run. *)
Record ScopeArray : Type := {
  channel : Z;
  raw : bool;
  max_read_step : Z;
  trace_ready : bool;
  shape : Z;
  setpoints : option (list F);
  preamble : option PreambleNT
}.

(** [ScopeArray.__init__]. *)
Definition init (channel : Z) (raw : bool) : ScopeArray :=
  {| channel := channel; raw := raw; max_read_step := 50;
     trace_ready := false; shape := 1400; setpoints := None;
     preamble := None |}.

Definition set_trace_ready (b : bool) (s : ScopeArray) : ScopeArray :=
  {| channel := channel s; raw := raw s; max_read_step := max_read_step s;
     trace_ready := b; shape := shape s; setpoints := setpoints s;
     preamble := preamble s |}.

Definition set_shape (n : Z) (s : ScopeArray) : ScopeArray :=
  {| channel := channel s; raw := raw s; max_read_step := max_read_step s;
     trace_ready := trace_ready s; shape := n; setpoints := setpoints s;
     preamble := preamble s |}.

Definition set_setpoints (xs : list F) (s : ScopeArray) : ScopeArray :=
  {| channel := channel s; raw := raw s; max_read_step := max_read_step s;
     trace_ready := trace_ready s; shape := shape s; setpoints := Some xs;
     preamble := preamble s |}.

Definition set_preamble (p : PreambleNT) (s : ScopeArray) : ScopeArray :=
  {| channel := channel s; raw := raw s; max_read_step := max_read_step s;
     trace_ready := trace_ready s; shape := shape s; setpoints := setpoints s;
     preamble := Some p |}.

(** The state a method runs in: the parameter object, the instrument, and
    the log of everything that crossed the VISA session. *)
Record state : Type := {
  self : ScopeArray;
  dev : Dev;
  trace : list event
}.

Definition M (A : Type) : Type := state -> outcome A * state.

Definition ret {A : Type} (a : A) : M A := fun st => (Ok a, st).

Definition raise {A : Type} (e : exn) : M A := fun st => (Raise e, st).

Definition bind {A B : Type} (m : M A) (k : A -> M B) : M B :=
  fun st =>
    match m st with
    | (Ok a, st') => k a st'
    | (Raise e, st') => (Raise e, st')
    end.

Definition lift {A : Type} (o : outcome A) : M A := fun st => (o, st).

Notation "x <- m ;; k" := (bind m (fun x => k))
  (at level 61, m at next level, right associativity).
Notation "m ;; k" := (bind m (fun _ => k))
  (at level 61, right associativity).

Definition get_self : M ScopeArray := fun st => (Ok (self st), st).

Definition modify_self (f : ScopeArray -> ScopeArray) : M unit :=
  fun st => (Ok tt, {| self := f (self st); dev := dev st; trace := trace st |}).

(** [self.instrument.write(cmd)]. *)
Definition write (cmd : string) : M unit :=
  fun st =>
    (Ok tt, {| self := self st; dev := dev_write cmd (dev st);
               trace := trace st ++ [EvWrite cmd] |}).

(** [self.instrument.ask(cmd)]. *)
Definition ask (cmd : string) : M string :=
  fun st =>
    let (reply, d) := dev_ask cmd (dev st) in
    (Ok reply, {| self := self st; dev := d;
                  trace := trace st ++ [EvAsk cmd reply] |}).

(** [self.root_instrument.visa_handle.read_raw()]. *)
Definition read_raw : M bytes :=
  fun st =>
    let (data, d) := dev_read_raw (dev st) in
    (Ok data, {| self := self st; dev := d;
                 trace := trace st ++ [EvReadRaw data] |}).

(** [time.sleep(0.3)]: only the fact that the driver paused is recorded. *)
Definition sleep : M unit :=
  fun st =>
    (Ok tt, {| self := self st; dev := dev st; trace := trace st ++ [EvSleep] |}).

(** [p = self.preamble]. *)
Definition read_preamble : M PreambleNT :=
  s <- get_self ;;
  match preamble s with
  | Some p => ret p
  | None =>
      raise (AttributeError "'ScopeArray' object has no attribute 'preamble'")
  end.

(** *** [ScopeArray.get_preamble] *)

Definition get_preamble : M unit :=
  preamble_raw <- ask ":WAVeform:PREamble?" ;;
  preamble_num <- lift (map_outcome conv (split "," (str_strip preamble_raw))) ;;
  p <- lift (make_preamble preamble_num) ;;
  modify_self (set_preamble p).

(** *** [ScopeArray.prepare_curvedata] *)

Definition prepare_curvedata : M unit :=
  s <- get_self ;;
  (if raw s
   then write ":STOP" ;; write ":WAVeform:MODE RAW"
   else write ":WAVeform:MODE NORM") ;;
  get_preamble ;;
  p <- read_preamble ;;
  n <- lift (int_of_num (points p)) ;;
  xdata <- lift (np_linspace (xorigin p)
                   (num_add (xorigin p) (num_mul (xincrement p) (points p)))
                   n) ;;
  modify_self (set_setpoints xdata) ;;
  n <- lift (int_of_num (points p)) ;;
  modify_self (set_shape n) ;;
  modify_self (set_trace_ready true).

(** *** [ScopeArray.get_raw] *)

(** The [for i in range(self.max_read_step)] loop with its [else] branch;
    [steps] is the number of iterations left. *)
Fixpoint read_chunks (steps : nat) (data_bin : bytes) : M bytes :=
  match steps with
  | O => raise (ValueError "Communication error")
  | S steps' =>
      reply <- ask ":WAVeform:STATus?" ;;
      let status := hd EmptyString (split "," reply) in
      write ":WAVeform:DATA?" ;;
      data_chunk <- read_raw ;;
      data_chuck <- lift (_validate_strip_block data_chunk) ;;
      let data_bin := data_bin ++ data_chuck in
      if String.eqb status "IDLE"
      then write ":WAVeform:END" ;; ret data_bin
      else sleep ;; read_chunks steps' data_bin
  end.

(** The part of [get_raw] that fills [data_bin]. *)
Definition read_waveform : M bytes :=
  s <- get_self ;;
  write ":WAVeform:FORMat BYTE" ;;
  write (":WAVeform:SOURce CHAN" ++ str (channel s)) ;;
  if raw s then
    write (":WAVeform:POINts " ++ str (shape s)) ;;
    write ":WAVeform:RESet" ;;
    write ":WAVeform:BEGin" ;;
    read_chunks (Z.to_nat (max_read_step s)) []
  else
    write ":WAVeform:DATA?" ;;
    data_chunk <- read_raw ;;
    block <- lift (_validate_strip_block data_chunk) ;;
    ret ([] ++ block).

(** [np.frombuffer(data_bin, dtype=np.uint8)]: one unsigned sample per byte. *)
Definition frombuffer_uint8 (data_bin : bytes) : list Z :=
  map (fun b => Z.of_N (Byte.to_N b)) data_bin.

(** [a.astype(float)]. *)
Definition astype_float (a : list Z) : list F := map float_of_Z a.

(** [a - x] and [a * x] for an array and a Python scalar. *)
Definition array_sub (a : list F) (x : num) : list F :=
  map (fun v => fsub v (to_float x)) a.

Definition array_mul (a : list F) (x : num) : list F :=
  map (fun v => fmul v (to_float x)) a.

Definition get_raw : M (list F) :=
  s <- get_self ;;
  if negb (trace_ready s) then
    raise (RigolDS4000TraceNotReady
             "Please run prepare_curvedata to prepare the scope for giving a trace.")
  else
    modify_self (set_trace_ready false) ;;
    data_bin <- read_waveform ;;
    let data_raw := astype_float (frombuffer_uint8 data_bin) in
    p <- read_preamble ;;
    let data :=
      array_mul (array_sub (array_sub data_raw (yreference p)) (yorigin p))
                (yincrement p) in
    ret data.

(** *** Vocabulary of the specification *)

(** The voltage of one raw sample, as the specification writes it:
    [(raw - yreference - yorigin) * yincrement] on the unsigned value of the
    byte promoted to a float. *)
Definition volt (p : PreambleNT) (b : byte) : F :=
  fmul (fsub (fsub (float_of_Z (Z.of_N (Byte.to_N b))) (to_float (yreference p)))
             (to_float (yorigin p)))
       (to_float (yincrement p)).

(** What the instrument answers to the first [n] rounds of polling, were
    the driver to poll that often: the status field and the raw block of
    each round. *)
Fixpoint poll_seq (n : nat) (d : Dev) : list (string * bytes) :=
  match n with
  | O => []
  | S n' =>
      let (reply, d1) := dev_ask ":WAVeform:STATus?" d in
      let d2 := dev_write ":WAVeform:DATA?" d1 in
      let (chunk, d3) := dev_read_raw d2 in
      (hd EmptyString (split "," reply), chunk) :: poll_seq n' d3
  end.

Definition not_idle (status : string) : bool := negb (String.eqb status "IDLE").

(** The instrument once [get_raw] has sent the commands that start a raw
    read-out. *)
Definition armed (s : ScopeArray) (d : Dev) : Dev :=
  dev_write ":WAVeform:BEGin"
    (dev_write ":WAVeform:RESet"
       (dev_write (":WAVeform:POINts " ++ str (shape s))
          (dev_write (":WAVeform:SOURce CHAN" ++ str (channel s))
             (dev_write ":WAVeform:FORMat BYTE" d)))).

Definition count_status (t : list event) : nat :=
  List.length (filter is_status_query t).

Definition is_read (e : event) : bool :=
  match e with
  | EvReadRaw _ => true
  | _ => false
  end.

Definition count_reads (t : list event) : nat := List.length (filter is_read t).

(** The commands [prepare_curvedata] sends before it asks for the preamble. *)
Definition mode_commands (raw : bool) : list string :=
  if raw then [":STOP"; ":WAVeform:MODE RAW"] else [":WAVeform:MODE NORM"].

Definition not_ready : exn :=
  RigolDS4000TraceNotReady
    "Please run prepare_curvedata to prepare the scope for giving a trace.".

(** The state once [get_raw] has cleared the ready flag. *)
Definition consume (st : state) : state :=
  {| self := set_trace_ready false (self st); dev := dev st; trace := trace st |}.

(** The instrument after the mode commands of [prepare_curvedata]. *)
Definition mode_set (raw : bool) (d : Dev) : Dev :=
  fold_left (fun d cmd => dev_write cmd d) (mode_commands raw) d.


(** A field of the preamble that reads as a number: a digit string that
    [int] accepts, or any other text that [float] accepts. *)
Definition numeric (x : string) : bool :=
  if isdigit x then string_forallb is_ascii_digit x
  else match float_of_str x with
       | Some _ => true
       | None => false
       end.
(** *** Properties of the block framing *)

Lemma digit_byte_ascii (b : byte) :
  is_digit_byte b = true ->
  (Byte.to_N b <? 128)%N = true /\ is_ascii_digit (ascii_of_byte b) = true.
Proof. destruct b; cbv; intros H; try discriminate H; split; reflexivity. Qed.

Lemma bytes_lstrip_spaces (ws rest : bytes) :
  forallb is_space_byte ws = true ->
  bytes_lstrip (ws ++ rest) = bytes_lstrip rest.
Proof.
  induction ws as [|b ws IH]; simpl; intros H; [reflexivity|].
  apply andb_true_iff in H as [Hb Hws]. rewrite Hb. auto.
Qed.

Lemma forallb_rev {A : Type} (p : A -> bool) (l : list A) :
  forallb p (rev l) = forallb p l.
Proof.
  induction l as [|a l IH]; simpl; [reflexivity|].
  rewrite forallb_app, IH. simpl. rewrite andb_true_r. apply andb_comm.
Qed.

Lemma bytes_lstrip_id (b : byte) (bs : bytes) :
  is_space_byte b = false -> bytes_lstrip (b :: bs) = b :: bs.
Proof. intros H; simpl; rewrite H; reflexivity. Qed.

Lemma bytes_rstrip_id (bs : bytes) (d : byte) :
  bs <> [] -> is_space_byte (last bs d) = false -> bytes_rstrip bs = bs.
Proof.
  intros Hne Hl. destruct (exists_last Hne) as [front [b ->]].
  rewrite last_last in Hl. unfold bytes_rstrip.
  rewrite rev_unit, bytes_lstrip_id by exact Hl.
  rewrite <- rev_unit. apply rev_involutive.
Qed.

Lemma bytes_rstrip_spaces (bs ws : bytes) :
  forallb is_space_byte ws = true ->
  bytes_rstrip (bs ++ ws) = bytes_rstrip bs.
Proof.
  intros Hws. unfold bytes_rstrip.
  rewrite rev_app_distr, bytes_lstrip_spaces; [reflexivity|].
  rewrite forallb_rev. exact Hws.
Qed.

Lemma bytes_strip_stable (payload trailing : bytes) :
  strip_stable payload = true ->
  forallb is_space_byte trailing = true ->
  bytes_strip (payload ++ trailing) = payload.
Proof.
  intros Hp Hws. unfold bytes_strip.
  destruct payload as [|b t].
  - simpl. rewrite <- (app_nil_r trailing), bytes_lstrip_spaces by exact Hws.
    reflexivity.
  - unfold strip_stable in Hp. apply andb_true_iff in Hp as [Hb Hl].
    apply negb_true_iff in Hb, Hl.
    rewrite <- app_comm_cons, bytes_lstrip_id by exact Hb.
    rewrite app_comm_cons, bytes_rstrip_spaces by exact Hws.
    apply (bytes_rstrip_id (b :: t) b); [discriminate|exact Hl].
Qed.

(** Every exception of [_validate_strip_block] is a [ValueError]. *)
Lemma validate_strip_block_raises (block : bytes) (e : exn) :
  _validate_strip_block block = Raise e -> is_ValueError e = true.
Proof.
  unfold _validate_strip_block, decode_ascii.
  destruct (forallb _ (firstn 11 block)).
  - destruct (match_header _); [|intros [= <-]; reflexivity].
    destruct (_ =? _)%Z; [discriminate|intros [= <-]; reflexivity].
  - intros [= <-]; reflexivity.
Qed.

(** A block whose header is well formed and whose declared size differs
    from the length of the stripped body is rejected as malformed. *)
Lemma validate_strip_block_mismatch (block : bytes) (header digits : string) :
  decode_ascii (firstn 11 block) = Ok header ->
  match_header header = Some digits ->
  int_of_digits digits <> Z.of_nat (List.length (bytes_strip (skipn 11 block))) ->
  _validate_strip_block block = Raise (ValueError "Malformed data").
Proof.
  intros Hd Hm Hneq. unfold _validate_strip_block. rewrite Hd, Hm.
  apply Z.eqb_neq in Hneq. rewrite Hneq. reflexivity.
Qed.

(** X1.  The round trip on the bodies that stripping leaves alone: a block
    made of [#9], nine ASCII digits that give the length of the payload, a
    payload that neither begins nor ends with whitespace, and any run of
    whitespace after it, is answered with the payload, unchanged. *)
Lemma validate_strip_block_frame (digits payload trailing : bytes) :
  List.length digits = 9%nat ->
  forallb is_digit_byte digits = true ->
  int_of_digits (string_of_list_byte digits) = Z.of_nat (List.length payload) ->
  strip_stable payload = true ->
  forallb is_space_byte trailing = true ->
  _validate_strip_block (frame digits payload trailing) = Ok payload.
Proof.
  intros Hlen Hdig Hsize Hp Hws.
  do 9 (destruct digits as [|? digits]; [discriminate Hlen|]).
  destruct digits; [clear Hlen|discriminate Hlen].
  cbn [forallb] in Hdig.
  repeat match type of Hdig with
         | (_ && _) = true => apply andb_true_iff in Hdig as [?H Hdig]
         end.
  repeat match goal with
         | H : is_digit_byte _ = true |- _ => apply digit_byte_ascii in H as [? ?]
         end.
  unfold _validate_strip_block, frame, decode_ascii.
  cbn [app firstn skipn forallb].
  repeat match goal with
         | H : (Byte.to_N _ <? 128)%N = true |- _ => rewrite H; clear H
         end.
  cbn [andb Byte.to_N N.ltb N.compare Pos.compare Pos.compare_cont].
  cbn [string_of_list_byte list_ascii_of_string string_of_list_ascii map
       ascii_of_byte match_header substring String.length Nat.eqb
       string_forallb].
  change (ascii_of_byte x23) with "#"%char.
  change (ascii_of_byte x39) with "9"%char.
  cbn [match_header substring String.length Nat.eqb string_forallb andb].
  repeat match goal with
         | H : is_ascii_digit _ = true |- _ => rewrite H; clear H
         end.
  cbn [andb].
  rewrite bytes_strip_stable by assumption.
  cbn [string_of_list_byte string_of_list_ascii map] in Hsize.
  rewrite Hsize, Z.eqb_refl. reflexivity.
Qed.

(** *** Reasoning about runs of the driver *)

Lemma count_status_app (t u : list event) :
  count_status (t ++ u) = (count_status t + count_status u)%nat.
Proof. unfold count_status. rewrite filter_app, length_app. reflexivity. Qed.

Lemma count_reads_app (t u : list event) :
  count_reads (t ++ u) = (count_reads t + count_reads u)%nat.
Proof. unfold count_reads. rewrite filter_app, length_app. reflexivity. Qed.

(** One round of the polling loop, as the instrument sees it. *)
Lemma read_chunks_step (n : nat) (data_bin : bytes) (st : state) :
  read_chunks (S n) data_bin st =
  let (reply, d1) := dev_ask ":WAVeform:STATus?" (dev st) in
  let (chunk, d3) := dev_read_raw (dev_write ":WAVeform:DATA?" d1) in
  let round := [EvAsk ":WAVeform:STATus?" reply; EvWrite ":WAVeform:DATA?";
                EvReadRaw chunk] in
  match _validate_strip_block chunk with
  | Raise e => (Raise e, {| self := self st; dev := d3;
                            trace := trace st ++ round |})
  | Ok block =>
      if String.eqb (hd EmptyString (split "," reply)) "IDLE"
      then (Ok (data_bin ++ block),
            {| self := self st; dev := dev_write ":WAVeform:END" d3;
               trace := trace st ++ round ++ [EvWrite ":WAVeform:END"] |})
      else read_chunks n (data_bin ++ block)
             {| self := self st; dev := d3;
                trace := trace st ++ round ++ [EvSleep] |}
  end.
Proof.
  cbn [read_chunks]. unfold bind at 1. unfold ask.
  destruct (dev_ask _ (dev st)) as [reply d1].
  unfold bind at 1. unfold write at 1. cbn [self dev trace].
  unfold bind at 1. unfold read_raw. cbn [self dev trace].
  destruct (dev_read_raw _) as [chunk d3].
  unfold bind at 1. unfold lift.
  rewrite <- !app_assoc. cbn [app].
  destruct (_validate_strip_block chunk) as [block|e]; [|reflexivity].
  destruct (String.eqb _ "IDLE").
  - unfold bind, write, ret. cbn [self dev trace].
    rewrite <- !app_assoc. reflexivity.
  - unfold bind at 1. unfold sleep. cbn [self dev trace].
    rewrite <- !app_assoc. reflexivity.
Qed.

Lemma read_chunks_frame (n : nat) :
  forall (data_bin : bytes) (st st' : state) (r : outcome bytes),
  read_chunks n data_bin st = (r, st') ->
  self st' = self st /\
  exists k : nat,
    (k <= n)%nat /\
    count_status (trace st') = (count_status (trace st) + k)%nat /\
    count_reads (trace st') = (count_reads (trace st) + k)%nat.
Proof.
  induction n as [|n IH]; intros data_bin st st' r H.
  - inversion H; subst. split; [reflexivity|].
    exists 0%nat. rewrite !Nat.add_0_r. auto.
  - rewrite read_chunks_step in H.
    destruct (dev_ask _ (dev st)) as [reply d1].
    destruct (dev_read_raw _) as [chunk d3]. cbv zeta in H.
    destruct (_validate_strip_block chunk) as [block|e].
    + destruct (String.eqb _ "IDLE").
      * inversion H; subst. cbn [self trace]. split; [reflexivity|].
        exists 1%nat. rewrite count_status_app, count_reads_app.
        split; [lia|]. split; reflexivity.
      * apply IH in H as [Hs [k [Hk [Hc Hr]]]]. cbn [self trace] in *.
        split; [exact Hs|]. exists (S k).
        rewrite count_status_app in Hc. rewrite count_reads_app in Hr.
        change (count_status (_ ++ [EvSleep])) with 1%nat in Hc.
        change (count_reads (_ ++ [EvSleep])) with 1%nat in Hr.
        lia.
    + inversion H; subst. cbn [self trace]. split; [reflexivity|].
      exists 1%nat. rewrite count_status_app, count_reads_app.
      split; [lia|]. split; reflexivity.
Qed.

Lemma poll_seq_step (n : nat) (d : Dev) :
  poll_seq (S n) d =
  let (reply, d1) := dev_ask ":WAVeform:STATus?" d in
  let (chunk, d3) := dev_read_raw (dev_write ":WAVeform:DATA?" d1) in
  (hd EmptyString (split "," reply), chunk) :: poll_seq n d3.
Proof. reflexivity. Qed.

(** The loop leaves as soon as a round reports [IDLE], provided every
    block read up to and including that round is well framed. *)
Lemma read_chunks_idle (k : nat) :
  forall (n : nat) (data_bin : bytes) (st : state) (statuses : list string)
         (blocks : list bytes),
  (S k <= n)%nat ->
  map fst (poll_seq (S k) (dev st)) = statuses ++ ["IDLE"] ->
  forallb not_idle statuses = true ->
  map_outcome _validate_strip_block (map snd (poll_seq (S k) (dev st)))
    = Ok blocks ->
  exists st' t,
    read_chunks n data_bin st = (Ok (data_bin ++ List.concat blocks), st') /\
    self st' = self st /\
    trace st' = t ++ [EvWrite ":WAVeform:END"] /\
    count_status (trace st') = (count_status (trace st) + S k)%nat /\
    count_reads (trace st') = (count_reads (trace st) + S k)%nat.
Proof.
  induction k as [|k IH]; intros n data_bin st statuses blocks Hn Hst Hni Hbl;
    (destruct n as [|n]; [lia|]);
    rewrite poll_seq_step in Hst, Hbl; rewrite read_chunks_step;
    destruct (dev_ask _ (dev st)) as [reply d1];
    destruct (dev_read_raw _) as [chunk d3]; cbv zeta;
    cbn [map fst snd map_outcome] in Hst, Hbl;
    destruct (_validate_strip_block chunk) as [block|e]; try discriminate Hbl.
  - destruct statuses as [|s statuses]; cbn [app] in Hst.
    + injection Hst as Hs. rewrite Hs. cbn [String.eqb Ascii.eqb Bool.eqb].
      cbn [poll_seq map map_outcome] in Hbl. injection Hbl as <-.
      eexists. exists (trace st ++ [EvAsk ":WAVeform:STATus?" reply;
                                    EvWrite ":WAVeform:DATA?"; EvReadRaw chunk]).
      cbn [self trace List.concat]. rewrite app_nil_r.
      repeat split; try reflexivity; cbn [trace].
      * rewrite app_assoc. reflexivity.
      * rewrite count_status_app. reflexivity.
      * rewrite count_reads_app. reflexivity.
    + injection Hst as _ Hnil. symmetry in Hnil.
      apply app_eq_nil in Hnil as [_ Hnil]. discriminate Hnil.
  - destruct statuses as [|s statuses]; cbn [app] in Hst.
    + injection Hst as _ Hnil.
      destruct (dev_ask _ d3) as [? ?]. destruct (dev_read_raw _) as [? ?].
      discriminate Hnil.
    + injection Hst as Hs Hrest. subst s.
      cbn [forallb] in Hni. apply andb_true_iff in Hni as [Hs Hni].
      unfold not_idle in Hs. apply negb_true_iff in Hs. rewrite Hs.
      destruct (map_outcome _ (map snd (poll_seq (S k) d3))) as [rest|?] eqn:Hrestb;
        [|discriminate Hbl].
      injection Hbl as <-.
      destruct (IH n (data_bin ++ block)
                  {| self := self st; dev := d3;
                     trace := trace st ++
                       [EvAsk ":WAVeform:STATus?" reply;
                        EvWrite ":WAVeform:DATA?"; EvReadRaw chunk] ++ [EvSleep] |}
                  statuses rest)
        as [st' [t [Hrun [Hself [Hend [Hc Hr]]]]]];
        [lia|exact Hrest|exact Hni|exact Hrestb|].
      exists st', t. cbn [self trace List.concat] in *.
      rewrite Hrun, <- app_assoc.
      repeat split; try assumption; try reflexivity.
      * rewrite Hc, count_status_app. cbn. lia.
      * rewrite Hr, count_reads_app. cbn. lia.
Qed.

(** When no round within the bound reports [IDLE] the loop ends in a
    [ValueError]; with well-framed blocks throughout it is the communication
    error of the [else] branch, after exactly [n] rounds. *)
Lemma read_chunks_exhausted (n : nat) :
  forall (data_bin : bytes) (st : state),
  forallb not_idle (map fst (poll_seq n (dev st))) = true ->
  exists e st',
    read_chunks n data_bin st = (Raise e, st') /\
    is_ValueError e = true /\
    (forall blocks,
       map_outcome _validate_strip_block (map snd (poll_seq n (dev st)))
         = Ok blocks ->
       e = ValueError "Communication error" /\
       count_status (trace st') = (count_status (trace st) + n)%nat).
Proof.
  induction n as [|n IH]; intros data_bin st Hni.
  - exists (ValueError "Communication error"), st.
    repeat split; try reflexivity. lia.
  - rewrite poll_seq_step in Hni. rewrite read_chunks_step.
    rewrite poll_seq_step.
    destruct (dev_ask _ (dev st)) as [reply d1].
    destruct (dev_read_raw _) as [chunk d3]. cbv zeta.
    cbn [map fst snd forallb map_outcome] in *.
    apply andb_true_iff in Hni as [Hs Hni].
    unfold not_idle in Hs. apply negb_true_iff in Hs.
    destruct (_validate_strip_block chunk) as [block|e] eqn:Hv.
    + rewrite Hs.
      destruct (IH (data_bin ++ block)
                  {| self := self st; dev := d3;
                     trace := trace st ++
                       [EvAsk ":WAVeform:STATus?" reply;
                        EvWrite ":WAVeform:DATA?"; EvReadRaw chunk] ++ [EvSleep] |}
                  Hni) as [e [st' [Hrun [He Hall]]]].
      exists e, st'. split; [exact Hrun|]. split; [exact He|].
      intros blocks Hbl. cbn [dev trace] in Hall.
      destruct (map_outcome _ (map snd (poll_seq n d3))) as [rest|?];
        [|discriminate Hbl].
      destruct (Hall rest eq_refl) as [-> Hc]. split; [reflexivity|].
      rewrite Hc, count_status_app. cbn. lia.
    + eexists. eexists. split; [reflexivity|].
      split; [exact (validate_strip_block_raises _ _ Hv)|].
      intros blocks Hbl. discriminate Hbl.
Qed.

(** *** [get_raw] and [prepare_curvedata], unfolded *)

Lemma array_volts (p : PreambleNT) (data_bin : bytes) :
  array_mul
    (array_sub (array_sub (astype_float (frombuffer_uint8 data_bin))
                          (yreference p)) (yorigin p))
    (yincrement p)
  = map (volt p) data_bin.
Proof.
  unfold array_mul, array_sub, astype_float, frombuffer_uint8.
  rewrite !map_map. reflexivity.
Qed.

Lemma get_raw_not_ready (st : state) :
  trace_ready (self st) = false -> get_raw st = (Raise not_ready, st).
Proof. intros H. unfold get_raw, bind, get_self. rewrite H. reflexivity. Qed.

Lemma get_raw_ready (st : state) :
  trace_ready (self st) = true ->
  get_raw st =
  match read_waveform (consume st) with
  | (Ok data_bin, st1) =>
      match preamble (self st1) with
      | Some p => (Ok (map (volt p) data_bin), st1)
      | None =>
          (Raise (AttributeError
                    "'ScopeArray' object has no attribute 'preamble'"), st1)
      end
  | (Raise e, st1) => (Raise e, st1)
  end.
Proof.
  intros H. unfold get_raw. unfold bind at 1. unfold get_self at 1.
  rewrite H. cbn [negb]. unfold bind at 1. unfold modify_self.
  fold (consume st). unfold bind at 1.
  destruct (read_waveform (consume st)) as [[data_bin|e] st1]; [|reflexivity].
  unfold read_preamble, bind, get_self.
  destruct (preamble (self st1)) as [p|]; [|reflexivity].
  unfold ret. rewrite array_volts. reflexivity.
Qed.

Lemma read_waveform_raw (st : state) :
  raw (self st) = true ->
  read_waveform st =
  read_chunks (Z.to_nat (max_read_step (self st))) []
    {| self := self st; dev := armed (self st) (dev st);
       trace := trace st ++
         [EvWrite ":WAVeform:FORMat BYTE";
          EvWrite (":WAVeform:SOURce CHAN" ++ str (channel (self st)));
          EvWrite (":WAVeform:POINts " ++ str (shape (self st)));
          EvWrite ":WAVeform:RESet"; EvWrite ":WAVeform:BEGin"] |}.
Proof.
  intros H. unfold read_waveform. unfold bind at 1. unfold get_self.
  unfold bind at 1. unfold write at 1. cbn [self dev trace].
  unfold bind at 1. unfold write at 1. cbn [self dev trace].
  rewrite H.
  unfold bind at 1. unfold write at 1. cbn [self dev trace].
  unfold bind at 1. unfold write at 1. cbn [self dev trace].
  unfold bind at 1. unfold write at 1. cbn [self dev trace].
  rewrite <- !app_assoc. reflexivity.
Qed.

Lemma read_waveform_display (st : state) :
  raw (self st) = false ->
  read_waveform st =
  let d := dev_write ":WAVeform:DATA?"
             (dev_write (":WAVeform:SOURce CHAN" ++ str (channel (self st)))
                (dev_write ":WAVeform:FORMat BYTE" (dev st))) in
  let (chunk, d') := dev_read_raw d in
  (_validate_strip_block chunk,
   {| self := self st; dev := d';
      trace := trace st ++
        [EvWrite ":WAVeform:FORMat BYTE";
         EvWrite (":WAVeform:SOURce CHAN" ++ str (channel (self st)));
         EvWrite ":WAVeform:DATA?"; EvReadRaw chunk] |}).
Proof.
  intros H. unfold read_waveform. unfold bind at 1. unfold get_self.
  unfold bind at 1. unfold write at 1. cbn [self dev trace].
  unfold bind at 1. unfold write at 1. cbn [self dev trace].
  rewrite H.
  unfold bind at 1. unfold write at 1. cbn [self dev trace].
  unfold bind at 1. unfold read_raw. cbn [self dev trace]. cbv zeta.
  destruct (dev_read_raw _) as [chunk d'].
  unfold bind, lift, ret. rewrite <- !app_assoc. cbn [app].
  destruct (_validate_strip_block chunk); reflexivity.
Qed.

Lemma read_waveform_frame (st st' : state) (r : outcome bytes) :
  read_waveform st = (r, st') ->
  self st' = self st /\
  (count_status (trace st') <=
   count_status (trace st) + Z.to_nat (max_read_step (self st)))%nat /\
  (raw (self st) = true ->
   (count_reads (trace st') - count_reads (trace st) =
    count_status (trace st') - count_status (trace st))%nat).
Proof.
  destruct (raw (self st)) eqn:Hraw; intros H.
  - rewrite (read_waveform_raw _ Hraw) in H.
    apply read_chunks_frame in H as [Hs [k [Hk [Hc Hr]]]].
    cbn [self trace] in *. rewrite count_status_app in Hc.
    rewrite count_reads_app in Hr.
    change (count_reads [_; _; _; _; _]) with 0%nat in Hr.
    change (count_status [_; _; _; _; _]) with 0%nat in Hc.
    split; [exact Hs|]. split; [lia|]. intros _. lia.
  - rewrite (read_waveform_display _ Hraw) in H. cbv zeta in H.
    destruct (dev_read_raw _) as [chunk d']. inversion H; subst.
    cbn [self trace]. rewrite count_status_app.
    change (count_status [_; _; _; _]) with 0%nat.
    split; [reflexivity|]. split; [lia|]. intros Hf; discriminate Hf.
Qed.

Lemma get_raw_consumes (st st' : state) (r : outcome (list F)) :
  get_raw st = (r, st') ->
  trace_ready (self st') = false /\
  max_read_step (self st') = max_read_step (self st) /\
  preamble (self st') = preamble (self st).
Proof.
  destruct (trace_ready (self st)) eqn:Hready; intros H.
  - rewrite (get_raw_ready _ Hready) in H.
    destruct (read_waveform (consume st)) as [[data_bin|e] st1] eqn:Hrun;
      apply read_waveform_frame in Hrun as [Hself _].
    + destruct (preamble (self st1)); inversion H; subst;
        rewrite Hself; repeat split; reflexivity.
    + inversion H; subst. rewrite Hself. repeat split; reflexivity.
  - rewrite (get_raw_not_ready _ Hready) in H. inversion H; subst.
    repeat split; try reflexivity. exact Hready.
Qed.

Lemma prepare_curvedata_run (st : state) :
  prepare_curvedata st =
  let (reply, d1) :=
    dev_ask ":WAVeform:PREamble?" (mode_set (raw (self st)) (dev st)) in
  let t := trace st ++ map EvWrite (mode_commands (raw (self st)))
                    ++ [EvAsk ":WAVeform:PREamble?" reply] in
  let stop {A : Type} (r : outcome A) (s : ScopeArray) :=
    (r, {| self := s; dev := d1; trace := t |}) in
  match map_outcome conv (split "," (str_strip reply)) with
  | Raise e => stop (Raise e) (self st)
  | Ok fields =>
      match make_preamble fields with
      | Raise e => stop (Raise e) (self st)
      | Ok p =>
          let s1 := set_preamble p (self st) in
          match int_of_num (points p) with
          | Raise e => stop (Raise e) s1
          | Ok n =>
              match np_linspace (xorigin p)
                      (num_add (xorigin p) (num_mul (xincrement p) (points p)))
                      n with
              | Raise e => stop (Raise e) s1
              | Ok xs =>
                  stop (Ok tt)
                       (set_trace_ready true (set_shape n (set_setpoints xs s1)))
              end
          end
      end
  end.
Proof.
  unfold prepare_curvedata. unfold bind at 1. unfold get_self at 1.
  unfold bind at 1.
  assert (Hmode :
    (if raw (self st)
     then write ":STOP";; write ":WAVeform:MODE RAW"
     else write ":WAVeform:MODE NORM") st
    = (Ok tt, {| self := self st; dev := mode_set (raw (self st)) (dev st);
                 trace := trace st ++ map EvWrite (mode_commands (raw (self st))) |})).
  { destruct (raw (self st)); unfold bind, write, mode_set; cbn;
      rewrite <- ?app_assoc; reflexivity. }
  rewrite Hmode. clear Hmode.
  unfold bind at 1. unfold get_preamble. unfold bind at 1.
  unfold ask. cbn [self dev trace].
  destruct (dev_ask _ _) as [reply d1]. cbv zeta.
  rewrite <- app_assoc.
  unfold bind at 1. unfold lift at 1.
  destruct (map_outcome conv _) as [fields|e]; [|reflexivity].
  unfold bind at 1. unfold lift at 1.
  destruct (make_preamble fields) as [p|e]; [|reflexivity].
  unfold modify_self at 1. cbn [self dev trace].
  unfold bind at 1. unfold read_preamble, bind at 1, get_self, ret.
  cbn [self dev trace preamble set_preamble].
  unfold bind at 1. unfold lift at 1.
  destruct (int_of_num (points p)) as [n|e]; [|reflexivity].
  unfold bind at 1. unfold lift at 1.
  destruct (np_linspace _ _ n) as [xs|e]; [|reflexivity].
  unfold bind, modify_self, lift. cbn [self dev trace]. reflexivity.
Qed.

(** *** The claims about [ScopeArray] *)

(** C2.  [get_raw] on a parameter whose trace is not ready raises
    [RigolDS4000TraceNotReady] and leaves the state as it found it: no
    command is sent, nothing is read.  A parameter fresh from [__init__] is
    in that situation.  Every [get_raw], whatever its result, leaves the flag
    cleared, so after [prepare_curvedata; get_raw] a second [get_raw] raises
    the same error, again without touching the instrument. *)
Theorem get_raw_needs_preparation :
  (forall st : state,
     trace_ready (self st) = false -> get_raw st = (Raise not_ready, st)) /\
  (forall (channel : Z) (raw : bool) (d : Dev) (t : list event),
     get_raw {| self := init channel raw; dev := d; trace := t |}
     = (Raise not_ready, {| self := init channel raw; dev := d; trace := t |})) /\
  (forall (st st' : state) (r : outcome (list F)),
     get_raw st = (r, st') -> trace_ready (self st') = false) /\
  (forall (st0 st1 st2 : state) (r0 : outcome unit) (r1 : outcome (list F)),
     prepare_curvedata st0 = (r0, st1) ->
     get_raw st1 = (r1, st2) ->
     get_raw st2 = (Raise not_ready, st2)).
Proof.
  split; [exact get_raw_not_ready|].
  split; [intros; apply get_raw_not_ready; reflexivity|].
  split.
  - intros st st' r H. apply (get_raw_consumes _ _ _ H).
  - intros st0 st1 st2 r0 r1 _ H. apply get_raw_not_ready.
    apply (get_raw_consumes _ _ _ H).
Qed.

(** C3.  In raw mode a prepared [get_raw] polls at most [max_read_step]
    times (50 after [__init__], and neither method changes it), with one
    status query and one block read per round.  If the first [IDLE] status
    comes in round [k + 1] within the bound and the blocks read so far are
    well framed, the loop stops there: [:WAVeform:END] is the last command
    sent and the result is the conversion of the [k + 1] stripped blocks in
    order.  If no round within the bound reports [IDLE], [get_raw] raises a
    [ValueError] and returns no data; with well-framed blocks it is
    "Communication error" after exactly [max_read_step] rounds. *)
Theorem raw_polling_is_bounded (st : state) :
  raw (self st) = true ->
  trace_ready (self st) = true ->
  let n := Z.to_nat (max_read_step (self st)) in
  let d0 := armed (self st) (dev st) in
  (forall (channel : Z) (raw : bool), max_read_step (init channel raw) = 50%Z) /\
  (forall (r : outcome (list F)) (st' : state),
     get_raw st = (r, st') ->
     max_read_step (self st') = max_read_step (self st) /\
     (count_status (trace st') - count_status (trace st) <= n)%nat /\
     (count_reads (trace st') - count_reads (trace st) =
      count_status (trace st') - count_status (trace st))%nat) /\
  (forall (k : nat) (statuses : list string) (blocks : list bytes)
          (p : PreambleNT),
     (S k <= n)%nat ->
     map fst (poll_seq (S k) d0) = statuses ++ ["IDLE"] ->
     forallb not_idle statuses = true ->
     map_outcome _validate_strip_block (map snd (poll_seq (S k) d0))
       = Ok blocks ->
     preamble (self st) = Some p ->
     exists (st' : state) (t : list event),
       get_raw st = (Ok (map (volt p) (List.concat blocks)), st') /\
       trace st' = t ++ [EvWrite ":WAVeform:END"] /\
       count_status (trace st') = (count_status (trace st) + S k)%nat) /\
  (forallb not_idle (map fst (poll_seq n d0)) = true ->
   exists (e : exn) (st' : state),
     get_raw st = (Raise e, st') /\
     is_ValueError e = true /\
     (forall blocks : list bytes,
        map_outcome _validate_strip_block (map snd (poll_seq n d0)) = Ok blocks ->
        e = ValueError "Communication error" /\
        count_status (trace st') = (count_status (trace st) + n)%nat)).
Proof.
  intros Hraw Hready n d0.
  split; [reflexivity|]. split; [|split].
  - intros r st' H. destruct (get_raw_consumes _ _ _ H) as [_ [Hmax _]].
    split; [exact Hmax|].
    rewrite (get_raw_ready _ Hready) in H.
    destruct (read_waveform (consume st)) as [[data_bin|e] st1] eqn:Hrun;
      apply read_waveform_frame in Hrun as [_ [Hc Hr]];
      specialize (Hr Hraw); cbn [consume self trace max_read_step
                                   set_trace_ready] in Hc, Hr.
    + assert (st' = st1) as -> by (destruct (preamble (self st1)); congruence).
      fold n in Hc. split; [lia|exact Hr].
    + assert (st' = st1) as -> by congruence.
      fold n in Hc. split; [lia|exact Hr].
  - intros k statuses blocks p Hk Hst Hni Hbl Hp.
    rewrite (get_raw_ready _ Hready).
    rewrite (read_waveform_raw (consume st) Hraw).
    edestruct (read_chunks_idle k n []) as [st' [t [Hrun [Hself [Hend [Hc _]]]]]];
      [exact Hk| | exact Hni | |].
    3: { cbn [consume self dev trace max_read_step set_trace_ready].
         fold n. rewrite Hrun. rewrite Hself. cbn [self preamble set_trace_ready].
         rewrite Hp. exists st', t. cbn [app].
         split; [reflexivity|]. split; [exact Hend|].
         rewrite Hc. cbn [trace]. rewrite count_status_app.
         change (count_status [_; _; _; _; _]) with 0%nat. lia. }
    + exact Hst.
    + exact Hbl.
  - intros Hni.
    rewrite (get_raw_ready _ Hready).
    rewrite (read_waveform_raw (consume st) Hraw).
    edestruct (read_chunks_exhausted n []) as [e [st' [Hrun [He Hall]]]].
    2: { cbn [consume self dev trace max_read_step set_trace_ready].
         fold n. rewrite Hrun. exists e, st'.
         split; [reflexivity|]. split; [exact He|].
         intros blocks Hbl. destruct (Hall blocks Hbl) as [-> Hc].
         split; [reflexivity|]. rewrite Hc. cbn [trace].
         rewrite count_status_app.
         change (count_status [_; _; _; _; _]) with 0%nat. lia. }
    exact Hni.
Qed.

Lemma get_raw_ok_inv (st st' : state) (data : list F) :
  get_raw st = (Ok data, st') ->
  exists (data_bin : bytes) (p : PreambleNT),
    fst (read_waveform (consume st)) = Ok data_bin /\
    preamble (self st) = Some p /\ data = map (volt p) data_bin.
Proof.
  intros H.
  destruct (trace_ready (self st)) eqn:Hready;
    [|rewrite (get_raw_not_ready _ Hready) in H; discriminate H].
  rewrite (get_raw_ready _ Hready) in H.
  destruct (read_waveform (consume st)) as [[data_bin|e] st1] eqn:Hw;
    [|discriminate H].
  apply read_waveform_frame in Hw as [Hself _].
  rewrite Hself in H. cbn [consume self preamble set_trace_ready] in H.
  destruct (preamble (self st)) as [p|]; [|discriminate H].
  exists data_bin, p. repeat split. congruence.
Qed.

(** C4.  A successful [get_raw] returns, for the byte buffer [data_bin] it
    accumulated and the preamble [p] of the parameter, one float per byte, in
    order: the unsigned value of the byte (0 to 255) promoted to a float,
    minus [yreference], minus [yorigin], times [yincrement].  The result is a
    function of the buffer and of these three constants alone: two runs, on
    whatever instruments, that accumulate the same bytes under the same
    constants return the same array. *)
Theorem get_raw_converts_linearly :
  (forall (st st' : state) (data : list F),
     get_raw st = (Ok data, st') ->
     exists (data_bin : bytes) (p : PreambleNT),
       fst (read_waveform (consume st)) = Ok data_bin /\
       preamble (self st) = Some p /\
       data = map (volt p) data_bin /\
       List.length data = List.length data_bin /\
       (forall (i : nat) (b : byte),
          nth_error data_bin i = Some b ->
          (0 <= Z.of_N (Byte.to_N b) < 256)%Z /\
          nth_error data i =
          Some (fmul (fsub (fsub (float_of_Z (Z.of_N (Byte.to_N b)))
                                 (to_float (yreference p)))
                           (to_float (yorigin p)))
                     (to_float (yincrement p))))) /\
  (forall (st1 st1' st2 st2' : state) (data1 data2 : list F)
          (p1 p2 : PreambleNT),
     get_raw st1 = (Ok data1, st1') ->
     get_raw st2 = (Ok data2, st2') ->
     fst (read_waveform (consume st1)) = fst (read_waveform (consume st2)) ->
     preamble (self st1) = Some p1 ->
     preamble (self st2) = Some p2 ->
     yreference p1 = yreference p2 ->
     yorigin p1 = yorigin p2 ->
     yincrement p1 = yincrement p2 ->
     data1 = data2).
Proof.
  split.
  - intros st st' data H.
    destruct (get_raw_ok_inv _ _ _ H) as [data_bin [p [Hw [Hp ->]]]].
    exists data_bin, p. repeat split; try assumption.
    + apply length_map.
    + lia.
    + pose proof (Byte.to_N_bounded b). lia.
    + rewrite nth_error_map, H0. reflexivity.
  - intros st1 st1' st2 st2' data1 data2 p1 p2 H1 H2 Hbuf Hp1 Hp2 Hr Ho Hi.
    destruct (get_raw_ok_inv _ _ _ H1) as [bin1 [q1 [Hw1 [Hq1 ->]]]].
    destruct (get_raw_ok_inv _ _ _ H2) as [bin2 [q2 [Hw2 [Hq2 ->]]]].
    assert (q1 = p1) as -> by congruence.
    assert (q2 = p2) as -> by congruence.
    assert (bin1 = bin2) as -> by congruence.
    apply map_ext. intros b. unfold volt. rewrite Hr, Ho, Hi. reflexivity.
Qed.

(** C9.  A successful [prepare_curvedata] sends its mode commands, asks the
    instrument for the preamble exactly once, and stores what that reply
    parses to: the preamble, the shape [int(points)] and the time axis of
    the state it leaves are all computed from the reply of this call,
    whatever preamble the parameter held before, and the trace is marked
    ready.  A call that fails leaves the ready flag as it was.  The
    [get_raw] that follows converts with the preamble of this call. *)
Theorem prepare_fetches_fresh_preamble (st : state) :
  let reply :=
    fst (dev_ask ":WAVeform:PREamble?" (mode_set (raw (self st)) (dev st))) in
  (forall st' : state,
     prepare_curvedata st = (Ok tt, st') ->
     trace st' = trace st ++ map EvWrite (mode_commands (raw (self st)))
                          ++ [EvAsk ":WAVeform:PREamble?" reply] /\
     exists (fields : list num) (p : PreambleNT) (n : Z) (xs : list F),
       map_outcome conv (split "," (str_strip reply)) = Ok fields /\
       make_preamble fields = Ok p /\
       int_of_num (points p) = Ok n /\
       np_linspace (xorigin p)
         (num_add (xorigin p) (num_mul (xincrement p) (points p))) n = Ok xs /\
       preamble (self st') = Some p /\
       shape (self st') = n /\
       setpoints (self st') = Some xs /\
       trace_ready (self st') = true /\
       (forall (data : list F) (st'' : state),
          get_raw st' = (Ok data, st'') ->
          exists data_bin : bytes,
            fst (read_waveform (consume st')) = Ok data_bin /\
            data = map (volt p) data_bin)) /\
  (forall (e : exn) (st' : state),
     prepare_curvedata st = (Raise e, st') ->
     trace_ready (self st') = trace_ready (self st)).
Proof.
  intros reply. subst reply. rewrite prepare_curvedata_run.
  destruct (dev_ask _ _) as [reply d1]. cbv zeta. cbn [fst].
  destruct (map_outcome conv _) as [fields|e0] eqn:Hfields.
  2: { split; intros; [discriminate|]. inversion H; subst. reflexivity. }
  destruct (make_preamble fields) as [p|e0] eqn:Hp.
  2: { split; intros; [discriminate|]. inversion H; subst. reflexivity. }
  destruct (int_of_num (points p)) as [n|e0] eqn:Hn.
  2: { split; intros; [discriminate|]. inversion H; subst. reflexivity. }
  destruct (np_linspace _ _ n) as [xs|e0] eqn:Hxs.
  2: { split; intros; [discriminate|]. inversion H; subst. reflexivity. }
  split; [|intros; discriminate].
  intros st' H. inversion H; subst. cbn [self trace].
  split; [reflexivity|].
  exists fields, p, n, xs.
  split; [reflexivity|]. split; [exact Hp|]. split; [exact Hn|].
  split; [exact Hxs|]. do 4 (split; [reflexivity|]).
  intros data st'' Hget.
  destruct (get_raw_ok_inv _ _ _ Hget) as [data_bin [q [Hw [Hq ->]]]].
  cbn [self preamble set_trace_ready set_shape set_setpoints set_preamble] in Hq.
  injection Hq as <-. exists data_bin. split; [exact Hw|reflexivity].
Qed.

(** C1.  The round trip fails on a well-formed block whose payload begins
    or ends with a whitespace byte: [strip()] removes payload bytes, the
    length check then fails, and the block is rejected as malformed.  Here
    the two-byte payload [0x0a 0x64] is framed with length 2 and followed by
    the newline terminator; likewise for the payload [0x64 0x20]. *)
Theorem validate_strip_block_drops_payload_whitespace :
  _validate_strip_block
    (frame [x30; x30; x30; x30; x30; x30; x30; x30; x32] [x0a; x64] [x0a])
  = Raise (ValueError "Malformed data") /\
  _validate_strip_block
    (frame [x30; x30; x30; x30; x30; x30; x30; x30; x32] [x64; x20] [x0a])
  = Raise (ValueError "Malformed data").
Proof. split; reflexivity. Qed.

(** *** Further properties of the block framing *)

Lemma ascii_digit_byte (b : byte) :
  is_ascii_digit (ascii_of_byte b) = true -> is_digit_byte b = true.
Proof. destruct b; cbv; intros H; try discriminate H; reflexivity. Qed.

Lemma bytes_lstrip_head (l : bytes) (b : byte) (t : bytes) :
  bytes_lstrip l = b :: t -> is_space_byte b = false.
Proof.
  induction l as [|a l IH]; cbn [bytes_lstrip]; intros H; [discriminate H|].
  destruct (is_space_byte a) eqn:Ha; [exact (IH H)|].
  injection H as <- _. exact Ha.
Qed.

Lemma bytes_lstrip_split (l : bytes) :
  exists ws : bytes,
    l = ws ++ bytes_lstrip l /\ forallb is_space_byte ws = true.
Proof.
  induction l as [|a l [ws [Hl Hws]]]; [exists []; split; reflexivity|].
  cbn [bytes_lstrip]. destruct (is_space_byte a) eqn:Ha.
  - exists (a :: ws). cbn [app forallb]. rewrite Ha, Hws, <- Hl.
    split; reflexivity.
  - exists []. split; reflexivity.
Qed.

Lemma bytes_rstrip_split (l : bytes) :
  exists ws : bytes,
    l = bytes_rstrip l ++ ws /\ forallb is_space_byte ws = true.
Proof.
  destruct (bytes_lstrip_split (rev l)) as [ws [Hl Hws]].
  exists (rev ws). unfold bytes_rstrip. split.
  - rewrite <- rev_app_distr, <- Hl, rev_involutive. reflexivity.
  - rewrite forallb_rev. exact Hws.
Qed.

Lemma bytes_rstrip_last (l : bytes) (d : byte) :
  bytes_rstrip l <> [] -> is_space_byte (last (bytes_rstrip l) d) = false.
Proof.
  unfold bytes_rstrip. destruct (bytes_lstrip (rev l)) as [|b t] eqn:H.
  - intros Hne. contradiction Hne. reflexivity.
  - intros _. cbn [rev]. rewrite last_last.
    exact (bytes_lstrip_head _ _ _ H).
Qed.

Lemma bytes_strip_is_stable (l : bytes) : strip_stable (bytes_strip l) = true.
Proof.
  unfold bytes_strip.
  destruct (bytes_rstrip (bytes_lstrip l)) as [|b t] eqn:H; [reflexivity|].
  unfold strip_stable. apply andb_true_iff. split; apply negb_true_iff.
  - destruct (bytes_rstrip_split (bytes_lstrip l)) as [ws [Hl _]].
    rewrite H in Hl. cbn [app] in Hl.
    exact (bytes_lstrip_head _ _ _ Hl).
  - rewrite <- H. apply bytes_rstrip_last. rewrite H. discriminate.
Qed.

Lemma bytes_strip_split (l : bytes) :
  exists lead trail : bytes,
    l = lead ++ bytes_strip l ++ trail /\
    forallb is_space_byte lead = true /\ forallb is_space_byte trail = true.
Proof.
  destruct (bytes_lstrip_split l) as [lead [Hl Hlead]].
  destruct (bytes_rstrip_split (bytes_lstrip l)) as [trail [Hr Htrail]].
  exists lead, trail. unfold bytes_strip. rewrite <- Hr, <- Hl. auto.
Qed.

(** X2.  What [_validate_strip_block] returns is always the stripped rest
    of a block of at least eleven bytes that opens with [#9] and nine ASCII
    digits; it has exactly the number of bytes the digits declare and
    neither begins nor ends with whitespace, and the rest of the block is
    this body between two runs of whitespace. *)
Theorem validate_strip_block_returns_declared (block body : bytes) :
  _validate_strip_block block = Ok body ->
  (11 <= List.length block)%nat /\
  exists digits lead trail : bytes,
    firstn 11 block = x23 :: x39 :: digits /\
    List.length digits = 9%nat /\
    forallb is_digit_byte digits = true /\
    int_of_digits (string_of_list_byte digits) = Z.of_nat (List.length body) /\
    skipn 11 block = lead ++ body ++ trail /\
    forallb is_space_byte lead = true /\
    forallb is_space_byte trail = true /\
    strip_stable body = true.
Proof.
  unfold _validate_strip_block, decode_ascii. intros H.
  destruct (forallb _ (firstn 11 block)); [|discriminate H].
  destruct (match_header _) as [g|] eqn:Hm; [|discriminate H].
  destruct (_ =? _)%Z eqn:Hsize; [|discriminate H].
  injection H as <-. apply Z.eqb_eq in Hsize.
  assert (Hlen : (List.length (firstn 11 block) <= 11)%nat)
    by apply firstn_le_length.
  destruct (firstn 11 block) as [|b1 rest] eqn:Hfirst; [discriminate Hm|].
  cbn [string_of_list_byte list_ascii_of_string string_of_list_ascii map]
    in Hm.
  unfold match_header in Hm.
  destruct (ascii_of_byte b1) as [[] [] [] [] [] [] [] []] eqn:Hb1;
    try discriminate Hm.
  destruct rest as [|b2 digits]; [discriminate Hm|].
  cbn [string_of_list_byte list_ascii_of_string string_of_list_ascii map]
    in Hm.
  destruct (ascii_of_byte b2) as [[] [] [] [] [] [] [] []] eqn:Hb2;
    try discriminate Hm.
  assert (b1 = x23) as ->
    by (rewrite <- (byte_of_ascii_of_byte b1), Hb1; reflexivity).
  assert (b2 = x39) as ->
    by (rewrite <- (byte_of_ascii_of_byte b2), Hb2; reflexivity).
  cbn [List.length] in Hlen.
  destruct (String.length (substring 0 9 _) =? 9)%nat eqn:Hg9;
    [|discriminate Hm].
  cbn [andb] in Hm.
  destruct (string_forallb is_ascii_digit _) eqn:Hdig; [|discriminate Hm].
  injection Hm as <-.
  do 9 (destruct digits as [|? digits]; [cbn in Hg9; discriminate Hg9|]).
  destruct digits; [|cbn in Hlen; lia].
  cbn [string_of_list_byte list_ascii_of_string string_of_list_ascii map
       substring string_forallb] in *.
  repeat match type of Hdig with
         | (_ && _) = true => apply andb_true_iff in Hdig as [?H Hdig]
         end.
  repeat match goal with
         | H : is_ascii_digit (ascii_of_byte _) = true |- _ =>
             apply ascii_digit_byte in H
         end.
  split.
  - assert (Hl : List.length (firstn 11 block) = 11%nat)
      by (rewrite Hfirst; reflexivity).
    rewrite length_firstn in Hl. lia.
  - destruct (bytes_strip_split (skipn 11 block)) as [lead [trail [Hs [Hl Ht]]]].
    eexists. exists lead, trail.
    split; [reflexivity|]. split; [reflexivity|].
    split.
    { cbn [forallb].
      repeat match goal with
             | H : is_digit_byte _ = true |- _ => rewrite H; clear H
             end.
      reflexivity. }
    split; [exact Hsize|]. split; [exact Hs|]. split; [exact Hl|].
    split; [exact Ht|apply bytes_strip_is_stable].
Qed.

Lemma frame_header (digits payload trailing : bytes) :
  List.length digits = 9%nat ->
  forallb is_digit_byte digits = true ->
  decode_ascii (firstn 11 (frame digits payload trailing))
  = Ok (string_of_list_byte (x23 :: x39 :: digits)) /\
  match_header (string_of_list_byte (x23 :: x39 :: digits))
  = Some (string_of_list_byte digits) /\
  skipn 11 (frame digits payload trailing) = payload ++ trailing.
Proof.
  intros Hlen Hdig.
  do 9 (destruct digits as [|? digits]; [discriminate Hlen|]).
  destruct digits; [clear Hlen|discriminate Hlen].
  cbn [forallb] in Hdig.
  repeat match type of Hdig with
         | (_ && _) = true => apply andb_true_iff in Hdig as [?H Hdig]
         end.
  repeat match goal with
         | H : is_digit_byte _ = true |- _ => apply digit_byte_ascii in H as [? ?]
         end.
  unfold frame, decode_ascii. cbn [app firstn skipn forallb].
  repeat match goal with
         | H : (Byte.to_N _ <? 128)%N = true |- _ => rewrite H; clear H
         end.
  cbn [andb Byte.to_N N.ltb N.compare Pos.compare Pos.compare_cont].
  split; [reflexivity|]. split; [|reflexivity].
  cbn [string_of_list_byte list_ascii_of_string string_of_list_ascii map].
  change (ascii_of_byte x23) with "#"%char.
  change (ascii_of_byte x39) with "9"%char.
  cbn [match_header substring String.length Nat.eqb string_forallb andb].
  repeat match goal with
         | H : is_ascii_digit _ = true |- _ => rewrite H; clear H
         end.
  reflexivity.
Qed.

(** X3.  A block with a well-formed header -- [#9] and nine ASCII digits --
    is rejected with [ValueError("Malformed data")] whenever the number the
    digits declare is not the length of what is left of the rest of the
    block once the whitespace at both ends is stripped; no other length is
    tried. *)
Theorem validate_strip_block_rejects_wrong_size (digits payload trailing : bytes) :
  List.length digits = 9%nat ->
  forallb is_digit_byte digits = true ->
  int_of_digits (string_of_list_byte digits)
  <> Z.of_nat (List.length (bytes_strip (payload ++ trailing))) ->
  _validate_strip_block (frame digits payload trailing)
  = Raise (ValueError "Malformed data").
Proof.
  intros Hlen Hdig Hsize.
  destruct (frame_header digits payload trailing Hlen Hdig) as [Hd [Hm Hs]].
  apply (validate_strip_block_mismatch _ _ _ Hd Hm). rewrite Hs. exact Hsize.
Qed.

(** *** Further properties of the read-out *)

(** X4.  In display mode a prepared [get_raw] is one request and one read:
    it sends the format, source and data commands, reads one block, and
    never queries the status, sleeps or ends a memory read.  Its result is
    the conversion of that block when the block is well framed, and the
    exception of the framing otherwise. *)
Theorem get_raw_display_reads_once (st : state) (p : PreambleNT) :
  raw (self st) = false ->
  trace_ready (self st) = true ->
  preamble (self st) = Some p ->
  let source := (":WAVeform:SOURce CHAN" ++ str (channel (self st)))%string in
  let d := dev_write ":WAVeform:DATA?"
             (dev_write source (dev_write ":WAVeform:FORMat BYTE" (dev st))) in
  let chunk := fst (dev_read_raw d) in
  forall (r : outcome (list F)) (st' : state),
    get_raw st = (r, st') ->
    trace st'
    = trace st ++ [EvWrite ":WAVeform:FORMat BYTE"; EvWrite source;
                   EvWrite ":WAVeform:DATA?"; EvReadRaw chunk] /\
    dev st' = snd (dev_read_raw d) /\
    count_status (trace st') = count_status (trace st) /\
    r = match _validate_strip_block chunk with
        | Ok body => Ok (map (volt p) body)
        | Raise e => Raise e
        end.
Proof.
  intros Hraw Hready Hp source d chunk r st' H.
  rewrite (get_raw_ready _ Hready) in H.
  rewrite (read_waveform_display (consume st) Hraw) in H.
  cbn [consume self dev trace channel set_trace_ready] in H.
  fold source in H. fold d in H. subst chunk.
  destruct (dev_read_raw d) as [chunk d']. cbn [fst snd].
  destruct (_validate_strip_block chunk) as [body|e].
  - cbn [self preamble set_trace_ready] in H. rewrite Hp in H.
    injection H as <- <-. cbn [trace dev]. rewrite count_status_app.
    repeat split; try reflexivity. cbn. lia.
  - injection H as <- <-. cbn [trace dev]. rewrite count_status_app.
    repeat split; try reflexivity. cbn. lia.
Qed.

Lemma map_outcome_length {A B : Type} (f : A -> outcome B) (l : list A) :
  forall bs : list B,
  map_outcome f l = Ok bs -> List.length bs = List.length l.
Proof.
  induction l as [|a l IH]; intros bs H; cbn [map_outcome] in H.
  - injection H as <-. reflexivity.
  - destruct (f a); [|discriminate H].
    destruct (map_outcome f l) as [bs'|]; [|discriminate H].
    injection H as <-. cbn. rewrite (IH bs' eq_refl). reflexivity.
Qed.

Lemma make_preamble_ten (l : list num) :
  match make_preamble l with
  | Ok _ => List.length l = 10%nat
  | Raise e => List.length l <> 10%nat /\ exists msg : string, e = TypeError msg
  end.
Proof.
  do 10 (destruct l as [|? l];
         [cbn; split; [discriminate|eexists; reflexivity]|]).
  destruct l; cbn; [reflexivity|].
  split; [discriminate|eexists; reflexivity].
Qed.

Lemma conv_numeric (x : string) :
  match conv x with
  | Ok _ => numeric x = true
  | Raise e => numeric x = false /\ exists msg : string, e = ValueError msg
  end.
Proof.
  unfold conv, numeric. destruct (isdigit x).
  - destruct (string_forallb is_ascii_digit x); [reflexivity|].
    split; [reflexivity|eexists; reflexivity].
  - destruct (float_of_str x); [reflexivity|].
    split; [reflexivity|eexists; reflexivity].
Qed.

Lemma map_conv_cases (l : list string) :
  match map_outcome conv l with
  | Ok _ => forallb numeric l = true
  | Raise e =>
      exists (good : list string) (x : string) (rest : list string),
        l = good ++ x :: rest /\ forallb numeric good = true /\
        numeric x = false /\ conv x = Raise e /\
        exists msg : string, e = ValueError msg
  end.
Proof.
  induction l as [|x l IH]; [reflexivity|].
  cbn [map_outcome forallb]. pose proof (conv_numeric x) as Hx.
  destruct (conv x) as [n|e] eqn:Hc.
  - destruct (map_outcome conv l) as [nums|e].
    + rewrite Hx, IH. reflexivity.
    + destruct IH as [good [y [rest [-> [Hgood [Hy [Hcy Hmsg]]]]]]].
      exists (x :: good), y, rest. cbn [forallb app]. rewrite Hx, Hgood.
      auto.
  - destruct Hx as [Hx Hmsg]. exists [], x, l. auto.
Qed.

(** X5.  [get_preamble] asks [:WAVeform:PREamble?] once and sends nothing
    else.  It succeeds exactly when the stripped reply has ten
    comma-separated fields and each of them reads as a number; it then
    replaces the stored preamble and touches no other attribute.  On any
    other reply it leaves the parameter as it was: when some field is no
    number it raises the [ValueError] of the conversion of the first such
    field, and when all fields are numbers but they are not ten it raises
    [TypeError]. *)
Theorem get_preamble_stores_reply (st st' : state) (r : outcome unit) :
  get_preamble st = (r, st') ->
  let reply := fst (dev_ask ":WAVeform:PREamble?" (dev st)) in
  let fields := split "," (str_strip reply) in
  dev st' = snd (dev_ask ":WAVeform:PREamble?" (dev st)) /\
  trace st' = trace st ++ [EvAsk ":WAVeform:PREamble?" reply] /\
  (r = Ok tt <->
   forallb numeric fields = true /\ List.length fields = 10%nat) /\
  match r with
  | Ok _ =>
      List.length fields = 10%nat /\
      exists (nums : list num) (p : PreambleNT),
        map_outcome conv fields = Ok nums /\ make_preamble nums = Ok p /\
        self st' = set_preamble p (self st)
  | Raise e =>
      self st' = self st /\
      ((exists (good : list string) (x : string) (rest : list string)
               (msg : string),
          fields = good ++ x :: rest /\ forallb numeric good = true /\
          numeric x = false /\ conv x = Raise e /\ e = ValueError msg) \/
       (forallb numeric fields = true /\ List.length fields <> 10%nat /\
        exists msg : string, e = TypeError msg))
  end.
Proof.
  unfold get_preamble. unfold bind at 1. unfold ask.
  destruct (dev_ask _ (dev st)) as [reply d1]. cbn [fst snd].
  unfold bind at 1. unfold lift at 1.
  pose proof (map_conv_cases (split "," (str_strip reply))) as Hfields.
  destruct (map_outcome conv _) as [nums|e] eqn:Hnums.
  - unfold bind, lift, modify_self.
    pose proof (make_preamble_ten nums) as Hten.
    pose proof (map_outcome_length _ _ _ Hnums) as Hlen.
    destruct (make_preamble nums) as [p|e] eqn:Hp; intros [= <- <-];
      cbn [dev trace self].
    + split; [reflexivity|]. split; [reflexivity|].
      split; [split; [intros _; split; [exact Hfields|congruence]
                     |reflexivity]|].
      split; [congruence|]. exists nums, p. auto.
    + destruct Hten as [Hne Hmsg].
      split; [reflexivity|]. split; [reflexivity|].
      split; [split; [discriminate|intros [_ Hl]; congruence]|].
      split; [reflexivity|]. right.
      split; [exact Hfields|]. split; [congruence|exact Hmsg].
  - intros [= <- <-]. cbn [dev trace self].
    destruct Hfields as [good [x [rest [Hsplit [Hgood [Hx [Hc [msg Hmsg]]]]]]]].
    split; [reflexivity|]. split; [reflexivity|].
    split.
    { split; [discriminate|]. intros [Hall _]. exfalso.
      rewrite Hsplit, forallb_app in Hall. cbn [forallb] in Hall.
      rewrite Hgood, Hx in Hall. discriminate Hall. }
    split; [reflexivity|]. left. exists good, x, rest, msg. auto.
Qed.

(** X6.  A [prepare_curvedata] that fails has not prepared anything: the
    shape, the time axis and the ready flag are what they were, and so are
    the channel, the mode and the loop bound.  Only the stored preamble can
    have changed, and then it is the one parsed from the reply of this
    call, whose point count or time axis could not be computed. *)
Theorem prepare_failure_keeps_shape (st st' : state) (e : exn) :
  prepare_curvedata st = (Raise e, st') ->
  shape (self st') = shape (self st) /\
  setpoints (self st') = setpoints (self st) /\
  trace_ready (self st') = trace_ready (self st) /\
  channel (self st') = channel (self st) /\
  raw (self st') = raw (self st) /\
  max_read_step (self st') = max_read_step (self st) /\
  (preamble (self st') = preamble (self st) \/
   exists (nums : list num) (p : PreambleNT),
     map_outcome conv
       (split "," (str_strip
                     (fst (dev_ask ":WAVeform:PREamble?"
                             (mode_set (raw (self st)) (dev st))))))
     = Ok nums /\
     make_preamble nums = Ok p /\
     preamble (self st') = Some p /\
     (int_of_num (points p) = Raise e \/
      exists n : Z,
        int_of_num (points p) = Ok n /\
        np_linspace (xorigin p)
          (num_add (xorigin p) (num_mul (xincrement p) (points p))) n
        = Raise e)).
Proof.
  rewrite prepare_curvedata_run.
  destruct (dev_ask _ _) as [reply d1]. cbv zeta. cbn [fst].
  destruct (map_outcome conv _) as [nums|e0] eqn:Hnums.
  2: { intros [= <- <-]. cbn [self]. repeat split; try reflexivity.
       left. reflexivity. }
  destruct (make_preamble nums) as [p|e0] eqn:Hp.
  2: { intros [= <- <-]. cbn [self]. repeat split; try reflexivity.
       left. reflexivity. }
  destruct (int_of_num (points p)) as [n|e0] eqn:Hn.
  2: { intros [= <- <-]. cbn [self]. do 6 (split; [reflexivity|]).
       right. exists nums, p. split; [reflexivity|]. split; [exact Hp|].
       split; [reflexivity|]. left. exact Hn. }
  destruct (np_linspace _ _ n) as [xs|e0] eqn:Hxs; [discriminate|].
  intros [= <- <-]. cbn [self]. do 6 (split; [reflexivity|]).
  right. exists nums, p. split; [reflexivity|]. split; [exact Hp|].
  split; [reflexivity|]. right. exists n. split; [exact Hn|exact Hxs].
Qed.

Lemma read_chunks_extends (n : nat) :
  forall (data_bin : bytes) (st st' : state) (r : outcome bytes),
  read_chunks n data_bin st = (r, st') ->
  exists evs : list event, trace st' = trace st ++ evs.
Proof.
  induction n as [|n IH]; intros data_bin st st' r H.
  - inversion H; subst. exists []. rewrite app_nil_r. reflexivity.
  - rewrite read_chunks_step in H.
    destruct (dev_ask _ (dev st)) as [reply d1].
    destruct (dev_read_raw _) as [chunk d3]. cbv zeta in H.
    destruct (_validate_strip_block chunk) as [block|e].
    + destruct (String.eqb _ "IDLE").
      * inversion H; subst. cbn [trace]. eexists. reflexivity.
      * apply IH in H as [evs Hevs]. cbn [trace] in Hevs.
        rewrite Hevs, <- app_assoc. eexists. reflexivity.
    + inversion H; subst. cbn [trace]. eexists. reflexivity.
Qed.

(** X7.  After a successful [prepare_curvedata] in raw mode, whatever the
    instrument does next, [get_raw] opens the read-out with the same five
    commands in the same order: byte format, the source channel of the
    parameter, the point count of the preamble just fetched, reset and
    begin; everything else it sends or reads comes after them. *)
Theorem prepared_raw_read_opens_with_points (st0 st1 st2 : state)
  (r : outcome (list F)) :
  raw (self st0) = true ->
  prepare_curvedata st0 = (Ok tt, st1) ->
  get_raw st1 = (r, st2) ->
  exists (p : PreambleNT) (n : Z) (rest : list event),
    preamble (self st1) = Some p /\
    int_of_num (points p) = Ok n /\
    trace st2
    = trace st1
      ++ [EvWrite ":WAVeform:FORMat BYTE";
          EvWrite (":WAVeform:SOURce CHAN" ++ str (channel (self st0)));
          EvWrite (":WAVeform:POINts " ++ str n);
          EvWrite ":WAVeform:RESet"; EvWrite ":WAVeform:BEGin"]
      ++ rest.
Proof.
  intros Hraw Hprep Hget. rewrite prepare_curvedata_run in Hprep.
  destruct (dev_ask _ _) as [reply d1]. cbv zeta in Hprep.
  destruct (map_outcome conv _) as [nums|]; [|discriminate Hprep].
  destruct (make_preamble nums) as [p|]; [|discriminate Hprep].
  destruct (int_of_num (points p)) as [n|] eqn:Hn; [|discriminate Hprep].
  destruct (np_linspace _ _ n) as [xs|]; [|discriminate Hprep].
  injection Hprep as <-.
  rewrite get_raw_ready in Hget by reflexivity.
  rewrite read_waveform_raw in Hget by exact Hraw.
  cbn [consume self dev trace channel shape max_read_step raw
       set_trace_ready set_shape set_setpoints set_preamble] in Hget.
  exists p, n.
  destruct (read_chunks _ _ _) as [[data_bin|e] st'] eqn:Hrun;
    apply read_chunks_extends in Hrun as [evs Hevs]; cbn [trace] in Hevs.
  - exists evs. split; [reflexivity|]. split; [exact Hn|].
    destruct (preamble (self st')); injection Hget as _ <-;
      cbn [trace]; rewrite Hevs, <- app_assoc; reflexivity.
  - exists evs. split; [reflexivity|]. split; [exact Hn|].
    injection Hget as _ <-. cbn [trace]. rewrite Hevs, <- app_assoc.
    reflexivity.
Qed.

End Driver.

(** *** A simulated oscilloscope

    The parameters of the model instantiated with binary64 floats and with a
    scripted instrument: it reports [READ] for [busy] rounds of polling and
    [IDLE] from then on, answers every block read with the same three
    samples, and sends a fixed preamble. *)

Module Sim.

Definition float_of_Z (z : Z) : PrimFloat.float :=
  if (z <? 0)%Z
  then PrimFloat.opp (PrimFloat.of_uint63 (Uint63.of_Z (- z)))
  else PrimFloat.of_uint63 (Uint63.of_Z z).

(** Truncation towards zero; nan and the infinities have no integer value. *)
Definition float_to_int (f : PrimFloat.float) : option Z :=
  match FloatOps.Prim2SF f with
  | SpecFloat.S754_zero _ => Some 0%Z
  | SpecFloat.S754_finite sign m e =>
      let magnitude :=
        if (0 <=? e)%Z then (Zpos m * 2 ^ e)%Z else (Zpos m / 2 ^ (- e))%Z in
      Some (if sign then (- magnitude)%Z else magnitude)
  | _ => None
  end.

(** [float(s)] on plain decimal literals: an optional minus sign, digits,
    and an optional fractional part. *)
Definition float_of_str (s : string) : option PrimFloat.float :=
  let (negative, body) :=
    match s with
    | String "-" rest => (true, rest)
    | _ => (false, s)
    end in
  let signed (f : PrimFloat.float) :=
    if negative then PrimFloat.opp f else f in
  match split "." body with
  | [whole] =>
      if isdigit whole && string_forallb is_ascii_digit whole
      then Some (signed (float_of_Z (int_of_digits whole)))
      else None
  | [whole; frac] =>
      if isdigit (whole ++ frac) && string_forallb is_ascii_digit (whole ++ frac)
      then Some (signed (PrimFloat.div
                           (float_of_Z (int_of_digits (whole ++ frac)))
                           (float_of_Z (10 ^ Z.of_nat (String.length frac)))))
      else None
  | _ => None
  end.

(** Evenly spaced samples from [start] towards [stop]. *)
Definition linspace (start stop : PrimFloat.float) (n : Z)
  : option (list PrimFloat.float) :=
  if (n <? 0)%Z then None
  else
    let step := PrimFloat.div (PrimFloat.sub stop start) (float_of_Z (n - 1)) in
    Some (map (fun i => PrimFloat.add start
                          (PrimFloat.mul (float_of_Z (Z.of_nat i)) step))
              (seq 0 (Z.to_nat n))).

Record Scope : Type := { busy : nat }.

Definition newline : string := String "010"%char EmptyString.

Definition preamble_reply : string :=
  "0,2,4,1,0.5,-2.5,0,0.25,-50,127" ++ newline.

(** [#9000000003], the samples 100, 127 and 128, and a newline. *)
Definition block : bytes :=
  frame [x30; x30; x30; x30; x30; x30; x30; x30; x33] [x64; x7f; x80] [x0a].

Definition dev_write (cmd : string) (d : Scope) : Scope := d.

Definition dev_ask (cmd : string) (d : Scope) : string * Scope :=
  if String.eqb cmd ":WAVeform:STATus?" then
    match busy d with
    | O => ("IDLE,0", d)
    | S n => ("READ,1400", {| busy := n |})
    end
  else if String.eqb cmd ":WAVeform:PREamble?" then (preamble_reply, d)
  else (EmptyString, d).

Definition dev_read_raw (d : Scope) : bytes * Scope := (block, d).

Definition num : Type := Rigol.num PrimFloat.float.
Definition state : Type := Rigol.state PrimFloat.float Scope.

Definition prepare_curvedata : state -> outcome unit * state :=
  Rigol.prepare_curvedata PrimFloat.float PrimFloat.add PrimFloat.mul
    float_of_Z float_to_int float_of_str linspace Scope dev_write dev_ask.

Definition get_raw : state -> outcome (list PrimFloat.float) * state :=
  Rigol.get_raw PrimFloat.float PrimFloat.sub PrimFloat.mul float_of_Z
    Scope dev_write dev_ask dev_read_raw.

(** A raw-mode parameter on channel 1, fresh from [__init__], in front of an
    instrument that is busy for two rounds. *)
Definition fresh : state :=
  {| self := init PrimFloat.float 1 true; dev := {| busy := 2 |}; trace := [] |}.

Definition prepared : state := snd (prepare_curvedata fresh).

(** A prepared parameter in front of an instrument that stays busy. *)
Definition stuck : state :=
  {| self := self _ _ prepared; dev := {| busy := 60 |}; trace := [] |}.

Definition quarter : PrimFloat.float :=
  PrimFloat.div (float_of_Z 1) (float_of_Z 4).

Definition sent_preamble : PreambleNT PrimFloat.float :=
  {| format := PyInt _ 0; mode := PyInt _ 2; points := PyInt _ 4;
     count := PyInt _ 1;
     xincrement := PyFloat _ (PrimFloat.div (float_of_Z 1) (float_of_Z 2));
     xorigin := PyFloat _ (PrimFloat.opp (PrimFloat.div (float_of_Z 25) (float_of_Z 10)));
     xreference := PyInt _ 0;
     yincrement := PyFloat _ quarter;
     yorigin := PyFloat _ (float_of_Z (-50));
     yreference := PyInt _ 127 |}.

(** The sample 100 under this preamble: (100 - 127 + 50) * 0.25 = 5.75. *)
Example volt_100 :
  volt _ PrimFloat.sub PrimFloat.mul float_of_Z sent_preamble x64
  = PrimFloat.div (float_of_Z 23) (float_of_Z 4).
Proof. vm_compute. reflexivity. Qed.

Example prepared_ok :
  fst (prepare_curvedata fresh) = Ok tt /\
  preamble _ (self _ _ prepared) = Some sent_preamble /\
  shape _ (self _ _ prepared) = 4%Z /\
  trace_ready _ (self _ _ prepared) = true.
Proof. vm_compute. repeat split; reflexivity. Qed.

Example get_raw_three_rounds :
  fst (get_raw prepared)
  = Ok (map (volt _ PrimFloat.sub PrimFloat.mul float_of_Z sent_preamble)
            [x64; x7f; x80; x64; x7f; x80; x64; x7f; x80]).
Proof. vm_compute. reflexivity. Qed.

Example get_raw_stuck :
  fst (get_raw stuck) = Raise (ValueError "Communication error") /\
  count_status (trace _ _ (snd (get_raw stuck))) = 50%nat.
Proof. vm_compute. split; reflexivity. Qed.

(** The claims at the simulated instrument. *)

Lemma get_raw_needs_preparation_witness :
  get_raw fresh = (Raise not_ready, fresh) /\
  get_raw (snd (get_raw prepared)) = (Raise not_ready, snd (get_raw prepared)).
Proof.
  pose proof (get_raw_needs_preparation PrimFloat.float PrimFloat.add
                PrimFloat.sub PrimFloat.mul float_of_Z float_to_int
                float_of_str linspace Scope dev_write dev_ask dev_read_raw)
    as [Hnot [_ [_ Htwice]]].
  split.
  - apply Hnot. reflexivity.
  - apply (Htwice fresh prepared (snd (get_raw prepared))
             (fst (prepare_curvedata fresh)) (fst (get_raw prepared))).
    + vm_compute. reflexivity.
    + vm_compute. reflexivity.
Defined.

Lemma raw_polling_is_bounded_witness :
  (exists (st' : state) (t : list event),
     get_raw prepared
     = (Ok (map (volt _ PrimFloat.sub PrimFloat.mul float_of_Z sent_preamble)
                (List.concat [[x64; x7f; x80]; [x64; x7f; x80]; [x64; x7f; x80]])),
        st') /\
     trace _ _ st' = t ++ [EvWrite ":WAVeform:END"] /\
     count_status (trace _ _ st') = (count_status (trace _ _ prepared) + 3)%nat) /\
  (exists (e : exn) (st' : state),
     get_raw stuck = (Raise e, st') /\ is_ValueError e = true /\
     (forall blocks : list bytes,
        map_outcome _validate_strip_block
          (map snd (poll_seq Scope dev_write dev_ask dev_read_raw
                      (Z.to_nat (max_read_step _ (self _ _ stuck)))
                      (armed _ Scope dev_write (self _ _ stuck) (dev _ _ stuck))))
        = Ok blocks ->
        e = ValueError "Communication error" /\
        count_status (trace _ _ st')
        = (count_status (trace _ _ stuck)
           + Z.to_nat (max_read_step _ (self _ _ stuck)))%nat)).
Proof.
  split.
  - assert (Hraw : raw _ (self _ _ prepared) = true) by (vm_compute; reflexivity).
    assert (Hready : trace_ready _ (self _ _ prepared) = true)
      by (vm_compute; reflexivity).
    destruct (raw_polling_is_bounded PrimFloat.float PrimFloat.sub PrimFloat.mul
                float_of_Z Scope dev_write dev_ask dev_read_raw prepared
                Hraw Hready) as [_ [_ [Hidle _]]].
    apply (Hidle 2%nat ["READ"; "READ"]).
    + vm_compute. lia.
    + vm_compute. reflexivity.
    + vm_compute. reflexivity.
    + vm_compute. reflexivity.
    + vm_compute. reflexivity.
  - assert (Hraw : raw _ (self _ _ stuck) = true) by (vm_compute; reflexivity).
    assert (Hready : trace_ready _ (self _ _ stuck) = true)
      by (vm_compute; reflexivity).
    destruct (raw_polling_is_bounded PrimFloat.float PrimFloat.sub PrimFloat.mul
                float_of_Z Scope dev_write dev_ask dev_read_raw stuck
                Hraw Hready) as [_ [_ [_ Hstuck]]].
    apply Hstuck. vm_compute. reflexivity.
Defined.

Lemma get_raw_converts_linearly_witness :
  exists (data_bin : bytes) (p : PreambleNT PrimFloat.float),
    fst (read_waveform _ Scope dev_write dev_ask dev_read_raw
           (consume _ _ prepared)) = Ok data_bin /\
    preamble _ (self _ _ prepared) = Some p /\
    fst (get_raw prepared)
    = Ok (map (volt _ PrimFloat.sub PrimFloat.mul float_of_Z p) data_bin).
Proof.
  destruct (proj1 (get_raw_converts_linearly PrimFloat.float PrimFloat.sub
                     PrimFloat.mul float_of_Z Scope dev_write dev_ask
                     dev_read_raw)
              prepared (snd (get_raw prepared))
              (map (volt _ PrimFloat.sub PrimFloat.mul float_of_Z sent_preamble)
                   [x64; x7f; x80; x64; x7f; x80; x64; x7f; x80]))
    as [data_bin [p [Hbin [Hp [Hdata _]]]]].
  - vm_compute. reflexivity.
  - exists data_bin, p. split; [exact Hbin|]. split; [exact Hp|].
    rewrite <- Hdata. vm_compute. reflexivity.
Defined.

Lemma prepare_fetches_fresh_preamble_witness :
  trace _ _ prepared
  = [EvWrite ":STOP"; EvWrite ":WAVeform:MODE RAW";
     EvAsk ":WAVeform:PREamble?" preamble_reply] /\
  preamble _ (self _ _ prepared) = Some sent_preamble /\
  trace_ready _ (self _ _ prepared) = true.
Proof.
  destruct (proj1 (prepare_fetches_fresh_preamble PrimFloat.float PrimFloat.add
                     PrimFloat.sub PrimFloat.mul float_of_Z float_to_int
                     float_of_str linspace Scope dev_write dev_ask dev_read_raw
                     fresh)
              prepared)
    as [Htrace [fields [p [n [xs [_ [_ [_ [_ [Hp [_ [_ [Hready _]]]]]]]]]]]]].
  - vm_compute. reflexivity.
  - split; [rewrite Htrace; vm_compute; reflexivity|].
    split; [vm_compute; reflexivity|exact Hready].
Defined.

(** The further properties at the simulated instrument. *)

(** A block that declares three bytes and carries two. *)
Definition short_block : bytes :=
  frame [x30; x30; x30; x30; x30; x30; x30; x30; x33] [x64; x7f] [x0a].

(** A display-mode parameter on channel 2, prepared. *)
Definition display : state :=
  snd (prepare_curvedata
         {| self := init PrimFloat.float 2 false; dev := {| busy := 0 |};
            trace := [] |}).

(** An instrument that answers every query with nine fields. *)
Definition nine_fields (cmd : string) (d : Scope) : string * Scope :=
  ("0,2,4,1,0.5,-2.5,0,0.25,-50", d).

(** An instrument whose preamble announces a negative number of points. *)
Definition negative_points (cmd : string) (d : Scope) : string * Scope :=
  ("0,2,-4.0,1,0.5,-2.5,0,0.25,-50,127", d).

Lemma validate_strip_block_frame_witness :
  _validate_strip_block block = Ok [x64; x7f; x80].
Proof.
  apply (validate_strip_block_frame
           [x30; x30; x30; x30; x30; x30; x30; x30; x33] [x64; x7f; x80] [x0a]);
    reflexivity.
Defined.

Lemma validate_strip_block_returns_declared_witness :
  (11 <= List.length block)%nat /\
  exists digits lead trail : bytes,
    firstn 11 block = x23 :: x39 :: digits /\
    List.length digits = 9%nat /\
    forallb is_digit_byte digits = true /\
    int_of_digits (string_of_list_byte digits) = 3%Z /\
    skipn 11 block = lead ++ [x64; x7f; x80] ++ trail /\
    forallb is_space_byte lead = true /\
    forallb is_space_byte trail = true /\
    strip_stable [x64; x7f; x80] = true.
Proof.
  apply (validate_strip_block_returns_declared block [x64; x7f; x80]).
  reflexivity.
Defined.

Lemma validate_strip_block_rejects_wrong_size_witness :
  _validate_strip_block short_block = Raise (ValueError "Malformed data").
Proof.
  apply (validate_strip_block_rejects_wrong_size
           [x30; x30; x30; x30; x30; x30; x30; x30; x33] [x64; x7f] [x0a]).
  - reflexivity.
  - reflexivity.
  - vm_compute. discriminate.
Defined.

Lemma get_raw_display_reads_once_witness :
  trace _ _ (snd (get_raw display))
  = trace _ _ display
    ++ [EvWrite ":WAVeform:FORMat BYTE"; EvWrite ":WAVeform:SOURce CHAN2";
        EvWrite ":WAVeform:DATA?"; EvReadRaw block] /\
  fst (get_raw display)
  = Ok (map (volt _ PrimFloat.sub PrimFloat.mul float_of_Z sent_preamble)
            [x64; x7f; x80]).
Proof.
  destruct (get_raw_display_reads_once PrimFloat.float PrimFloat.sub
              PrimFloat.mul float_of_Z Scope dev_write dev_ask dev_read_raw
              display sent_preamble)
    with (r := fst (get_raw display)) (st' := snd (get_raw display))
    as [Htrace [_ [_ Hr]]].
  - vm_compute. reflexivity.
  - vm_compute. reflexivity.
  - vm_compute. reflexivity.
  - vm_compute. reflexivity.
  - split; [exact Htrace|exact Hr].
Defined.

(** An instrument whose fourth preamble field is no number. *)
Definition garbled_field (cmd : string) (d : Scope) : string * Scope :=
  ("0,2,4,one,0.5,-2.5,0,0.25,-50,127", d).

Lemma get_preamble_stores_reply_witness :
  (let run := get_preamble PrimFloat.float float_of_str Scope dev_ask fresh in
   fst run = Ok tt /\
   trace _ _ (snd run) = [EvAsk ":WAVeform:PREamble?" preamble_reply] /\
   exists (nums : list num) (p : PreambleNT PrimFloat.float),
     make_preamble _ nums = Ok p /\
     self _ _ (snd run) = set_preamble _ p (self _ _ fresh)) /\
  (let run := get_preamble PrimFloat.float float_of_str Scope nine_fields fresh in
   self _ _ (snd run) = self _ _ fresh /\
   exists msg : string, fst run = Raise (TypeError msg)) /\
  (let run := get_preamble PrimFloat.float float_of_str Scope garbled_field
                fresh in
   self _ _ (snd run) = self _ _ fresh /\
   exists msg : string,
     fst run = Raise (ValueError msg) /\
     conv _ float_of_str "one" = Raise (ValueError msg)).
Proof.
  split; [|split].
  - cbv zeta.
    pose proof (get_preamble_stores_reply PrimFloat.float float_of_str Scope
                  dev_ask fresh
                  (snd (get_preamble PrimFloat.float float_of_str Scope dev_ask
                          fresh))
                  (fst (get_preamble PrimFloat.float float_of_str Scope dev_ask
                          fresh))) as H.
    destruct H as [_ [Htrace [[_ Hok] H]]].
    + vm_compute. reflexivity.
    + assert (Hr : fst (get_preamble PrimFloat.float float_of_str Scope dev_ask
                          fresh) = Ok tt)
        by (apply Hok; vm_compute; split; reflexivity).
      rewrite Hr in H. destruct H as [_ [nums [p [_ [Hp Hself]]]]].
      split; [exact Hr|]. split; [exact Htrace|].
      exists nums, p. split; [exact Hp|exact Hself].
  - cbv zeta.
    pose proof (get_preamble_stores_reply PrimFloat.float float_of_str Scope
                  nine_fields fresh
                  (snd (get_preamble PrimFloat.float float_of_str Scope
                          nine_fields fresh))
                  (fst (get_preamble PrimFloat.float float_of_str Scope
                          nine_fields fresh))) as H.
    destruct H as [_ [_ [_ H]]].
    + vm_compute. reflexivity.
    + destruct (fst (get_preamble PrimFloat.float float_of_str Scope
                       nine_fields fresh)) as [u|e] eqn:Hr.
      * vm_compute in Hr. discriminate Hr.
      * destruct H as [Hself [[good [x [rest [msg [_ [_ [_ [_ He]]]]]]]]
                              |[_ [_ [msg He]]]]].
        -- vm_compute in Hr. rewrite He in Hr. discriminate Hr.
        -- split; [exact Hself|]. exists msg. rewrite He. reflexivity.
  - cbv zeta.
    pose proof (get_preamble_stores_reply PrimFloat.float float_of_str Scope
                  garbled_field fresh
                  (snd (get_preamble PrimFloat.float float_of_str Scope
                          garbled_field fresh))
                  (fst (get_preamble PrimFloat.float float_of_str Scope
                          garbled_field fresh))) as H.
    destruct H as [_ [_ [_ H]]].
    + vm_compute. reflexivity.
    + destruct (fst (get_preamble PrimFloat.float float_of_str Scope
                       garbled_field fresh)) as [u|e] eqn:Hr.
      * vm_compute in Hr. discriminate Hr.
      * destruct H as [Hself [[good [x [rest [msg [Hsplit [Hgood [Hx [Hc He]]]]]]]]
                              |[Hall _]]].
        -- split; [exact Hself|]. exists msg. rewrite He. split; [reflexivity|].
           vm_compute in Hr. injection Hr as Hr. rewrite He in Hr.
           injection Hr as <-. vm_compute. reflexivity.
        -- vm_compute in Hall. discriminate Hall.
Defined.

Lemma prepare_failure_keeps_shape_witness :
  let run :=
    Rigol.prepare_curvedata PrimFloat.float PrimFloat.add PrimFloat.mul
      float_of_Z float_to_int float_of_str linspace Scope dev_write
      negative_points prepared in
  fst run = Raise (ValueError "Number of samples must be non-negative") /\
  shape _ (self _ _ (snd run)) = 4%Z /\
  setpoints _ (self _ _ (snd run)) = setpoints _ (self _ _ prepared) /\
  trace_ready _ (self _ _ (snd run)) = true.
Proof.
  cbv zeta.
  destruct (prepare_failure_keeps_shape PrimFloat.float PrimFloat.add
              PrimFloat.mul float_of_Z float_to_int float_of_str linspace
              Scope dev_write negative_points prepared
              (snd (Rigol.prepare_curvedata PrimFloat.float PrimFloat.add
                      PrimFloat.mul float_of_Z float_to_int float_of_str
                      linspace Scope dev_write negative_points prepared))
              (ValueError "Number of samples must be non-negative"))
    as [Hshape [Hset [Hready _]]].
  - vm_compute. reflexivity.
  - split; [vm_compute; reflexivity|].
    split; [rewrite Hshape; vm_compute; reflexivity|].
    split; [exact Hset|rewrite Hready; vm_compute; reflexivity].
Defined.

Lemma prepared_raw_read_opens_with_points_witness :
  exists rest : list event,
    trace _ _ (snd (get_raw prepared))
    = trace _ _ prepared
      ++ [EvWrite ":WAVeform:FORMat BYTE"; EvWrite ":WAVeform:SOURce CHAN1";
          EvWrite ":WAVeform:POINts 4";
          EvWrite ":WAVeform:RESet"; EvWrite ":WAVeform:BEGin"]
      ++ rest.
Proof.
  destruct (prepared_raw_read_opens_with_points PrimFloat.float PrimFloat.add
              PrimFloat.sub PrimFloat.mul float_of_Z float_to_int float_of_str
              linspace Scope dev_write dev_ask dev_read_raw
              fresh prepared (snd (get_raw prepared)) (fst (get_raw prepared)))
    as [p [n [rest [Hp [Hn Htrace]]]]].
  - reflexivity.
  - vm_compute. reflexivity.
  - vm_compute. reflexivity.
  - exists rest. rewrite Htrace.
    assert (Hp' : p = sent_preamble).
    { assert (Hs : preamble _ (self _ _ prepared) = Some sent_preamble)
        by (vm_compute; reflexivity).
      congruence. }
    subst p.
    assert (n = 4%Z) as -> by (vm_compute in Hn; congruence).
    reflexivity.
Defined.

End Sim.

End Rigol.

(** ** Keithley 3706A: channel specifiers *)

Module Keithley.
Import Py.

Definition dquote : string := String "034"%char EmptyString.

(** [s[i]]. *)
Definition item (i : nat) (s : string) : outcome string :=
  match String.get i s with
  | Some c => Ok (String c EmptyString)
  | None => Raise IndexError
  end.

(** [sep.join(element)]. *)
Definition join (sep : string) (element : list string) : string :=
  String.concat sep element.

(** [itertools.product(xs, ys, zs)]: the rightmost position moves fastest. *)
Definition product (xs ys zs : list string) : list (list string) :=
  flat_map (fun x => flat_map (fun y => map (fun z => [x; y; z]) zs) ys) xs.

(** [itertools.combinations(l, 2)]: pairs in the order of [l]. *)
Fixpoint combinations (l : list string) : list (list string) :=
  match l with
  | [] => []
  | a :: rest => map (fun b => [a; b]) rest ++ combinations rest
  end.

(** A column number as the driver writes it: two digits below ten. *)
Definition column_name (i : Z) : string :=
  if (i <? 10)%Z then ("0" ++ str i)%string else str i.

(** The entries of [get_switch_cards] and of [get_interlock_state]. *)
Record Card : Type := {
  slot_no : string;
  model : string;
  mtype : string;
  firmware : string;
  serial : string
}.

Record Interlock : Type := {
  interlock_slot_no : string;
  state : string
}.

Definition disengaged : string := "Interlocks 1 and 2 are disengaged on the card".

(** The dictionary [interlock_status] of [get_interlock_state], indexed by
    [None] or a number. *)
Definition interlock_status (key : option Z) : outcome string :=
  match key with
  | None =>
      Ok "No card is installed or the installed card does not support interlocks"
  | Some 0%Z => Ok disengaged
  | Some 1%Z =>
      Ok "Interlock 1 is engaged, interlock 2 (if it exists) is disengaged"
  | Some 2%Z => Ok "Interlock 2 in engaged, interlock 1 is disengaged"
  | Some 3%Z => Ok "Both interlock 1 and 2 are engaged"
  | Some _ => Raise KeyError
  end.

(** [model, mtype, firmware, serial = fields]. *)
Definition unpack4 (fields : list string)
  : outcome (string * string * string * string) :=
  match fields with
  | [a; b; c; d] => Ok (a, b, c, d)
  | _ => Raise (ValueError "wrong number of values to unpack (expected 4)")
  end.

(** What crosses the VISA session. *)
Inductive event : Type :=
| EvWrite (cmd : string)
| EvAsk (cmd reply : string).

Definition is_write (e : event) : bool :=
  match e with
  | EvWrite _ => true
  | EvAsk _ _ => false
  end.

Definition writes (t : list event) : list event := filter is_write t.

(** The messages of the driver's exceptions and warnings. *)
Definition any_specifier_msg (val : string) : string :=
  val ++ " is not a valid specifier. The specifier should be channels, channel "
      ++ "ranges, slots, backplane relays or " ++ dquote ++ "allslots" ++ dquote
      ++ ".".

Definition closable_specifier_msg (val : string) : string :=
  val ++ " is not a valid specifier. The specifier should be channels or channel "
      ++ "ranges and associated backplane relays.".

Definition delay_specifier_msg (val : string) : string :=
  val ++ " is not a valid specifier. The specifier should be channels, channel "
      ++ "ranges, slots, or " ++ dquote ++ "allslots" ++ dquote ++ ".".

Definition forbidden_warning : string :=
  "You are attempting to close channels that are forbidden to close.".

Definition interlock_warning (slot channel : string) : string :=
  "The hardware interlocks in Slot " ++ slot ++ " are disengaged. "
  ++ "The analog backplane relay " ++ channel ++ " cannot be energized.".

Definition slot_interlock_warning (slot : string) : string :=
  "The hardware interlocks in Slot " ++ slot ++ " are disengaged. "
  ++ "The corresponding analog backplane relays cannot be energized.".

Definition unknown_slot_msg (slot_id : list string) : string :=
  "Please provide a valid slot identifier. Available slots are ["
  ++ join ", " (map (fun s => ("'" ++ s ++ "'")%string) slot_id) ++ "].".

Definition no_delay_msg : string :=
  "Additional delay times cannot be set for analog backplane relays.".

(** [_is_backplane_channel]. *)
Definition _is_backplane_channel (channel_id : string) : outcome bool :=
  if negb (String.length channel_id =? 4)%nat then
    Raise (Keithley3706AInvalidValue (channel_id ++ " is not a valid channel id"))
  else
    match item 1 channel_id with
    | Raise e => Raise e
    | Ok c => if String.eqb c "9" then Ok true else Ok false
    end.

(** The loop of [_validator]: [False] at the first element that is not
    listed, [True] when the elements run out. *)
Fixpoint all_listed (legal specifier : list string) : bool :=
  match specifier with
  | [] => true
  | element :: rest =>
      if negb (mem element legal) then false else all_listed legal rest
  end.

(** [next(state for state in states if state["slot_no"] == slot)]. *)
Fixpoint next_state (slot : string) (states : list Interlock)
  : outcome Interlock :=
  match states with
  | [] => Raise StopIteration
  | st :: rest =>
      if String.eqb (interlock_slot_no st) slot then Ok st
      else next_state slot rest
  end.

Section Driver.

(** The instrument: commands change its state, queries observe it. *)
Variable Dev : Type.
Variable dev_write : string -> Dev -> Dev.
Variable dev_ask : string -> Dev -> string.
(** [int(float(s))]: fails on text that is not a number, on nan and on the
    infinities. *)
Variable int_of_float_str : string -> option Z.
(** [float(s)], for the delay times of [get_delay]. *)
Variable F : Type.
Variable float_of_str : string -> option F.

(** *** Queries

    A query reads the instrument and logs the commands it asked with their
    replies; it sends no other command. *)

Definition Q (A : Type) : Type := Dev -> outcome A * list (string * string).

Definition qret {A : Type} (a : A) : Q A := fun _ => (Ok a, []).

Definition qraise {A : Type} (e : exn) : Q A := fun _ => (Raise e, []).

Definition qlift {A : Type} (o : outcome A) : Q A := fun _ => (o, []).

Definition qbind {A B : Type} (q : Q A) (k : A -> Q B) : Q B :=
  fun d =>
    match q d with
    | (Ok a, log1) => let (r, log2) := k a d in (r, log1 ++ log2)
    | (Raise e, log1) => (Raise e, log1)
    end.

Declare Scope query_scope.
Delimit Scope query_scope with query.
Notation "x <- q ;; k" := (qbind q (fun x => k))
  (at level 61, q at next level, right associativity) : query_scope.
Notation "' pat <- q ;; k" := (qbind q (fun x => match x with pat => k end))
  (at level 61, pat pattern, q at next level, right associativity) : query_scope.

(** The result of a query, and the commands it asks. *)
Definition value {A : Type} (q : Q A) (d : Dev) : outcome A := fst (q d).
Definition asked {A : Type} (q : Q A) (d : Dev) : list (string * string) :=
  snd (q d).

(** [Keithley3706A.ask]: the query is wrapped in [print()]. *)
Definition ask (cmd : string) : Q string :=
  fun d =>
    let wrapped := ("print(" ++ cmd ++ ")")%string in
    let reply := dev_ask wrapped d in
    (Ok reply, [(wrapped, reply)]).

(** A list comprehension over a query. *)
Fixpoint qmap {A B : Type} (f : A -> Q B) (l : list A) : Q (list B) :=
  (match l with
   | [] => qret []
   | a :: rest => b <- f a ;; bs <- qmap f rest ;; qret (b :: bs)
   end)%query.

Definition int_float (s : string) : Q Z :=
  match int_of_float_str s with
  | Some z => qret z
  | None => qraise (ConversionError "could not convert string to float")
  end.

(** [get_switch_cards]: the loop over slots 1 to 6. *)
Fixpoint scan_slots (slots : list Z) : Q (list Card) :=
  (match slots with
   | [] => qret []
   | i :: rest =>
       scard <- ask ("slot[" ++ str i ++ "].idn") ;;
       if negb (String.eqb scard "Empty Slot") then
         ' (model, mtype, firmware, serial) <-
             qlift (unpack4 (map str_strip (split "," scard))) ;;
         let sdict := {| slot_no := str i; model := model; mtype := mtype;
                         firmware := firmware; serial := serial |} in
         switch_cards <- scan_slots rest ;;
         qret (sdict :: switch_cards)
       else scan_slots rest
   end)%query.

Definition get_switch_cards : Q (list Card) := scan_slots [1; 2; 3; 4; 5; 6]%Z.

Definition _get_slot_ids : Q (list string) :=
  (cards <- get_switch_cards ;;
   qret (map slot_no cards))%query.

Definition _get_slot_names : Q (list string) :=
  (slot_id <- _get_slot_ids ;;
   qret (map (fun x => ("slot" ++ x)%string) slot_id))%query.

Definition _get_number_of_rows : Q (list Z) :=
  (slot_id <- _get_slot_ids ;;
   qmap (fun i => reply <- ask ("slot[" ++ i ++ "].rows.matrix") ;;
                  int_float reply) slot_id)%query.

Definition _get_number_of_columns : Q (list Z) :=
  (slot_id <- _get_slot_ids ;;
   qmap (fun i => reply <- ask ("slot[" ++ i ++ "].columns.matrix") ;;
                  int_float reply) slot_id)%query.

Definition _get_rows : Q (list (list string)) :=
  (total_number_of_rows <- _get_number_of_rows ;;
   qret (map (fun item => map str (range1 item)) total_number_of_rows))%query.

Definition _get_columns : Q (list (list string)) :=
  (total_number_of_columns <- _get_number_of_columns ;;
   qret (map (fun item => map column_name (range1 item))
             total_number_of_columns))%query.

(** [l[i]] on a list. *)
Definition list_item {A : Type} (l : list A) (i : nat) : Q A :=
  match nth_error l i with
  | Some a => qret a
  | None => qraise IndexError
  end.

(** The loop of [get_channels] over [enumerate(slot_id)], from index [i]. *)
Fixpoint channels_from (i : nat) (slot_id : list string)
  (row_list column_list : list (list string)) : Q (list string) :=
  (match slot_id with
   | [] => qret []
   | slot :: rest =>
       rows <- list_item row_list i ;;
       columns <- list_item column_list i ;;
       let here := map (join EmptyString) (product (chars slot) rows columns) in
       later <- channels_from (S i) rest row_list column_list ;;
       qret (here ++ later)
   end)%query.

Definition get_channels : Q (list string) :=
  (slot_id <- _get_slot_ids ;;
   row_list <- _get_rows ;;
   column_list <- _get_columns ;;
   channels_from 0 slot_id row_list column_list)%query.

Definition get_channels_by_slot (slot_no : Z) : Q (list string) :=
  (slot_id <- _get_slot_ids ;;
   if negb (mem (str slot_no) slot_id) then
     qraise (Keithley3706AUnknownOrEmptySlot (unknown_slot_msg slot_id))
   else
     row_list <- _get_rows ;;
     column_list <- _get_columns ;;
     rows <- list_item row_list 0 ;;
     columns <- list_item column_list 0 ;;
     qret (map (join EmptyString) (product (chars (str slot_no)) rows columns)))%query.

Definition _get_channel_ranges : Q (list string) :=
  (slot_id <- _get_slot_ids ;;
   per_slot <- qmap (fun i => slot_no <- qlift (int_of_str i) ;;
                              channel <- get_channels_by_slot slot_no ;;
                              qret (map (join ":") (combinations channel)))
                    slot_id ;;
   qret (List.concat per_slot))%query.

Definition get_analog_backplane_specifiers : Q (list string) :=
  (let backplane_common_number := "9" in
   let backplane_relay_common_numbers := ["11"; "12"; "13"; "14"; "15"; "16"] in
   slot_id <- _get_slot_ids ;;
   qret (map (join EmptyString)
             (product slot_id (chars backplane_common_number)
                      backplane_relay_common_numbers)))%query.

Definition _validator (val : string) : Q bool :=
  (ch <- get_channels ;;
   ch_range <- _get_channel_ranges ;;
   names <- _get_slot_names ;;
   let slots := "allslots" :: names in
   backplanes <- get_analog_backplane_specifiers ;;
   let specifier := split "," val in
   qret (all_listed (ch ++ ch_range ++ slots ++ backplanes) specifier))%query.

Definition get_interlock_state_by_slot (slot : string) : Q (option Z) :=
  (n <- qlift (int_of_str slot) ;;
   state <- ask ("slot[" ++ str n ++ "].interlock.state") ;;
   if String.eqb state "nil" then qret None
   else z <- int_float state ;; qret (Some z))%query.

Definition get_interlock_state : Q (list Interlock) :=
  (slot_id <- _get_slot_ids ;;
   qmap (fun i => state <- get_interlock_state_by_slot i ;;
                  text <- qlift (interlock_status state) ;;
                  qret {| interlock_slot_no := i; state := text |})
        slot_id)%query.

Definition get_forbidden_channels (val : string) : Q string :=
  (ok <- _validator val ;;
   if negb ok then qraise (Keithley3706AInvalidValue (any_specifier_msg val))
   else ask ("channel.getforbidden('" ++ val ++ "')"))%query.

(** A [for] loop whose body can raise, inside a query. *)
Fixpoint qfor {A : Type} (l : list A) (body : A -> Q unit) : Q unit :=
  (match l with
   | [] => qret tt
   | a :: rest => _ <- body a ;; qfor rest body
   end)%query.

Definition get_closed_channels (val : string) : Q (option (list string)) :=
  (if String.eqb val EmptyString then
     qraise (Keithley3706AInvalidValue "Argument cannot be an empty string.")
   else
     ok <- _validator val ;;
     if negb ok then qraise (Keithley3706AInvalidValue (any_specifier_msg val))
     else
       data <- ask ("channel.getclose('" ++ val ++ "')") ;;
       if String.eqb data "nil" then qret None
       else qret (Some (split ";" data)))%query.

Definition get_delay (val : string) : Q (list F) :=
  (backplanes <- get_analog_backplane_specifiers ;;
   let specifiers := split "," val in
   _ <- qfor specifiers (fun element =>
          if mem element backplanes
          then qraise (Keithley3706AInvalidValue no_delay_msg)
          else qret tt) ;;
   ok <- _validator val ;;
   if negb ok then qraise (Keithley3706AInvalidValue (delay_specifier_msg val))
   else
     reply <- ask ("channel.getdelay('" ++ val ++ "')") ;;
     qmap (fun x => match float_of_str x with
                    | Some f => qret f
                    | None =>
                        qraise (ValueError "could not convert string to float")
                    end)
          (split "," reply))%query.

Definition get_backplane (val : string) : Q string :=
  (backplanes <- get_analog_backplane_specifiers ;;
   let specifiers := split "," val in
   _ <- qfor specifiers (fun element =>
          if mem element backplanes
          then qraise (Keithley3706AInvalidValue
                         (val ++ " cannot be a analog backplane relay."))
          else qret tt) ;;
   ok <- _validator val ;;
   if negb ok then qraise (Keithley3706AInvalidValue (delay_specifier_msg val))
   else ask ("channel.getbackplane('" ++ val ++ "')"))%query.

(** *** Operations

    An operation runs against the instrument, the log of the session and the
    warnings emitted so far. *)

Record World : Type := {
  dev : Dev;
  trace : list event;
  warned : list string
}.

Definition M (A : Type) : Type := World -> outcome A * World.

Definition ret {A : Type} (a : A) : M A := fun w => (Ok a, w).

Definition raise {A : Type} (e : exn) : M A := fun w => (Raise e, w).

Definition lift {A : Type} (o : outcome A) : M A := fun w => (o, w).

Definition bind {A B : Type} (m : M A) (k : A -> M B) : M B :=
  fun w =>
    match m w with
    | (Ok a, w') => k a w'
    | (Raise e, w') => (Raise e, w')
    end.

Notation "x <- m ;; k" := (bind m (fun x => k))
  (at level 61, m at next level, right associativity).
Notation "m ;; k" := (bind m (fun _ => k))
  (at level 61, right associativity).

Definition ask_event (cr : string * string) : event := EvAsk (fst cr) (snd cr).

(** Running a query: its commands and replies enter the log as [EvAsk]. *)
Definition query {A : Type} (q : Q A) : M A :=
  fun w =>
    let (r, log) := q (dev w) in
    (r, {| dev := dev w;
           trace := trace w ++ map ask_event log;
           warned := warned w |}).

(** [self.write(cmd)]. *)
Definition write (cmd : string) : M unit :=
  fun w =>
    (Ok tt, {| dev := dev_write cmd (dev w); trace := trace w ++ [EvWrite cmd];
               warned := warned w |}).

(** [warnings.warn(msg, UserWarning, 2)]: the warning is recorded and the
    method goes on. *)
Definition warn (msg : string) : M unit :=
  fun w =>
    (Ok tt, {| dev := dev w; trace := trace w; warned := warned w ++ [msg] |}).

Fixpoint for_ {A : Type} (l : list A) (body : A -> M unit) : M unit :=
  match l with
  | [] => ret tt
  | a :: rest => body a ;; for_ rest body
  end.

Definition reset_channel (val : string) : M unit :=
  ok <- query (_validator val) ;;
  if negb ok then raise (Keithley3706AInvalidValue (any_specifier_msg val))
  else write ("channel.reset('" ++ val ++ "')").

Definition open_channel (val : string) : M unit :=
  ok <- query (_validator val) ;;
  if negb ok then raise (Keithley3706AInvalidValue (any_specifier_msg val))
  else write ("channel.open('" ++ val ++ "')").

(** The body of the loop of [_warn_on_disengaged_interlocks]. *)
Definition check_interlock (states : list Interlock) (channel : string)
  : M unit :=
  is_backplane <- lift (_is_backplane_channel channel) ;;
  if is_backplane : bool then
    slot <- lift (item 0 channel) ;;
    interlock_state <- lift (next_state slot states) ;;
    if String.eqb (state interlock_state) disengaged
    then warn (interlock_warning (interlock_slot_no interlock_state) channel)
    else ret tt
  else ret tt.

Definition _warn_on_disengaged_interlocks (val : string) : M unit :=
  states <- query get_interlock_state ;;
  let val_specifiers := split "," val in
  for_ val_specifiers (check_interlock states).

Definition close_channel (val : string) : M unit :=
  names <- query _get_slot_names ;;
  let slots := "allslots" :: names in
  forbidden_channels <- query (get_forbidden_channels "allslots") ;;
  if mem val slots then
    raise (Keithley3706AInvalidValue "Slots cannot be closed all together.")
  else
    ok <- query (_validator val) ;;
    if negb ok then
      raise (Keithley3706AInvalidValue (closable_specifier_msg val))
    else
      (if mem val (split "," forbidden_channels)
       then warn forbidden_warning
       else ret tt) ;;
      _warn_on_disengaged_interlocks val ;;
      write ("channel.close('" ++ val ++ "')").

Definition exclusive_close (val : string) : M unit :=
  names <- query _get_slot_names ;;
  let slots := "allslots" :: names in
  if mem val slots then
    raise (Keithley3706AInvalidValue "Slots cannot be exclusively closed.")
  else if String.eqb val EmptyString then
    raise (Keithley3706AInvalidValue
             ("An empty string may cause all channels and "
              ++ "associated backplane relays to open. Use "
              ++ dquote ++ "open_channel" ++ dquote ++ " parameter instead."))
  else
    ok <- query (_validator val) ;;
    if negb ok then
      raise (Keithley3706AInvalidValue (closable_specifier_msg val))
    else write ("channel.exclusiveclose('" ++ val ++ "')").

Definition exclusive_slot_close (val : string) : M unit :=
  names <- query _get_slot_names ;;
  let slots := "allslots" :: names in
  if mem val slots then
    raise (Keithley3706AInvalidValue "Slots cannot be exclusively closed.")
  else if String.eqb val EmptyString then
    raise (Keithley3706AInvalidValue "Argument cannot be an empty string.")
  else
    ok <- query (_validator val) ;;
    if negb ok then
      raise (Keithley3706AInvalidValue (closable_specifier_msg val))
    else write ("channel.exclusiveslotclose('" ++ val ++ "')").

Definition set_forbidden_channels (val : string) : M unit :=
  ok <- query (_validator val) ;;
  if negb ok then raise (Keithley3706AInvalidValue (any_specifier_msg val))
  else write ("channel.setforbidden('" ++ val ++ "')").

Definition clear_forbidden_channels (val : string) : M unit :=
  ok <- query (_validator val) ;;
  if negb ok then raise (Keithley3706AInvalidValue (any_specifier_msg val))
  else write ("channel.clearforbidden('" ++ val ++ "')").

(** [delay_time] is the text Python formats the number to. *)
Definition set_delay (val delay_time : string) : M unit :=
  backplanes <- query get_analog_backplane_specifiers ;;
  let specifiers := split "," val in
  for_ specifiers (fun element =>
    if mem element backplanes
    then raise (Keithley3706AInvalidValue no_delay_msg)
    else ret tt) ;;
  ok <- query (_validator val) ;;
  if negb ok then raise (Keithley3706AInvalidValue (delay_specifier_msg val))
  else write ("channel.setdelay('" ++ val ++ "', " ++ delay_time ++ ")").

Definition set_backplane (val backplane : string) : M unit :=
  states <- query get_interlock_state ;;
  backplanes <- query get_analog_backplane_specifiers ;;
  let plane_specifiers := split "," backplane in
  let val_specifiers := split "," val in
  for_ states (fun element =>
    if String.eqb (state element) disengaged
    then warn (slot_interlock_warning (interlock_slot_no element))
    else ret tt) ;;
  for_ val_specifiers (fun elem =>
    if mem elem backplanes
    then raise (Keithley3706AInvalidValue
                  (val ++ " is not a valid specifier. "
                   ++ "The specifier cannot be analog backplane relay."))
    else ret tt) ;;
  ok <- query (_validator val) ;;
  if negb ok then raise (Keithley3706AInvalidValue (delay_specifier_msg val))
  else
    for_ plane_specifiers (fun plane =>
      if negb (mem plane backplanes)
      then raise (Keithley3706AInvalidValue
                    (backplane ++ " is not a valid specifier. "
                     ++ "The specifier should be analog backplane relay."))
      else ret tt) ;;
    write ("channel.setbackplane('" ++ val ++ "', '" ++ backplane ++ "')").

(** The operations that take a specifier or a slot number. *)
Inductive call : Type :=
| Call_reset_channel (val : string)
| Call_open_channel (val : string)
| Call_close_channel (val : string)
| Call_exclusive_close (val : string)
| Call_exclusive_slot_close (val : string)
| Call_get_closed_channels (val : string)
| Call_set_forbidden_channels (val : string)
| Call_get_forbidden_channels (val : string)
| Call_clear_forbidden_channels (val : string)
| Call_set_delay (val delay_time : string)
| Call_get_delay (val : string)
| Call_set_backplane (val backplane : string)
| Call_get_backplane (val : string)
| Call_get_channels_by_slot (slot_no : Z).

(** Running a call for its effect on the session; the value a query
    returns is dropped. *)
Definition run (c : call) : M unit :=
  match c with
  | Call_reset_channel val => reset_channel val
  | Call_open_channel val => open_channel val
  | Call_close_channel val => close_channel val
  | Call_exclusive_close val => exclusive_close val
  | Call_exclusive_slot_close val => exclusive_slot_close val
  | Call_get_closed_channels val => query (get_closed_channels val) ;; ret tt
  | Call_set_forbidden_channels val => set_forbidden_channels val
  | Call_get_forbidden_channels val => query (get_forbidden_channels val) ;; ret tt
  | Call_clear_forbidden_channels val => clear_forbidden_channels val
  | Call_set_delay val delay_time => set_delay val delay_time
  | Call_get_delay val => query (get_delay val) ;; ret tt
  | Call_set_backplane val backplane => set_backplane val backplane
  | Call_get_backplane val => query (get_backplane val) ;; ret tt
  | Call_get_channels_by_slot slot_no =>
      query (get_channels_by_slot slot_no) ;; ret tt
  end.

(** The row and column helpers: one [open_channel] or [close_channel] per
    channel formed. *)
Definition action_msg : string :=
  "The action should be identified as either 'connect' or 'disconnect'.".

Definition _connect_or_disconnect_row_to_columns (action : string)
  (slot_id row_id : Z) (columns : list Z) : M (list string) :=
  if negb (mem action ["connect"; "disconnect"]) then
    raise (ValueError action_msg)
  else
    slots <- query _get_slot_ids ;;
    let slot := str slot_id in
    if negb (mem slot slots) then
      raise (Keithley3706AUnknownOrEmptySlot (unknown_slot_msg slots))
    else
      let row := str row_id in
      let columns_list := map column_name columns in
      let channels_to_connect_or_disconnect :=
        map (join EmptyString) (product (chars slot) (chars row) columns_list) in
      for_ channels_to_connect_or_disconnect (fun channel =>
        if String.eqb action "connect" then open_channel channel
        else close_channel channel) ;;
      ret channels_to_connect_or_disconnect.

Definition _connect_or_disconnect_column_to_rows (action : string)
  (slot_id column_id : Z) (rows : list Z) : M (list string) :=
  if negb (mem action ["connect"; "disconnect"]) then
    raise (ValueError action_msg)
  else
    slots <- query _get_slot_ids ;;
    let slot := str slot_id in
    if negb (mem slot slots) then
      raise (Keithley3706AUnknownOrEmptySlot (unknown_slot_msg slots))
    else
      let column := [column_name column_id] in
      let rows_list := map str rows in
      let channels_to_connect_or_disconnect :=
        map (join EmptyString) (product (chars slot) rows_list column) in
      for_ channels_to_connect_or_disconnect (fun channel =>
        if String.eqb action "connect" then open_channel channel
        else close_channel channel) ;;
      ret channels_to_connect_or_disconnect.

Definition connect_row_to_columns (slot_id row_id : Z) (columns : list Z)
  : M (list string) :=
  _connect_or_disconnect_row_to_columns "connect" slot_id row_id columns.

Definition disconnect_row_from_columns (slot_id row_id : Z) (columns : list Z)
  : M (list string) :=
  _connect_or_disconnect_row_to_columns "disconnect" slot_id row_id columns.

Definition connect_column_to_rows (slot_id column_id : Z) (rows : list Z)
  : M (list string) :=
  _connect_or_disconnect_column_to_rows "connect" slot_id column_id rows.

Definition disconnect_column_from_rows (slot_id column_id : Z) (rows : list Z)
  : M (list string) :=
  _connect_or_disconnect_column_to_rows "disconnect" slot_id column_id rows.

Inductive batch : Type :=
| Batch_connect_row_to_columns (slot_id row_id : Z) (columns : list Z)
| Batch_disconnect_row_from_columns (slot_id row_id : Z) (columns : list Z)
| Batch_connect_column_to_rows (slot_id column_id : Z) (rows : list Z)
| Batch_disconnect_column_from_rows (slot_id column_id : Z) (rows : list Z).

Definition run_batch (b : batch) : M (list string) :=
  match b with
  | Batch_connect_row_to_columns slot_id row_id columns =>
      connect_row_to_columns slot_id row_id columns
  | Batch_disconnect_row_from_columns slot_id row_id columns =>
      disconnect_row_from_columns slot_id row_id columns
  | Batch_connect_column_to_rows slot_id column_id rows =>
      connect_column_to_rows slot_id column_id rows
  | Batch_disconnect_column_from_rows slot_id column_id rows =>
      disconnect_column_from_rows slot_id column_id rows
  end.

(** The slot a batch addresses, the channels it forms, and the command it
    sends for each. *)
Definition batch_slot (b : batch) : string :=
  match b with
  | Batch_connect_row_to_columns slot_id _ _
  | Batch_disconnect_row_from_columns slot_id _ _
  | Batch_connect_column_to_rows slot_id _ _
  | Batch_disconnect_column_from_rows slot_id _ _ => str slot_id
  end.

Definition batch_channels (b : batch) : list string :=
  match b with
  | Batch_connect_row_to_columns slot_id row_id columns
  | Batch_disconnect_row_from_columns slot_id row_id columns =>
      map (join EmptyString)
          (product (chars (str slot_id)) (chars (str row_id))
                   (map column_name columns))
  | Batch_connect_column_to_rows slot_id column_id rows
  | Batch_disconnect_column_from_rows slot_id column_id rows =>
      map (join EmptyString)
          (product (chars (str slot_id)) (map str rows)
                   [column_name column_id])
  end.

Definition open_command (val : string) : string :=
  "channel.open('" ++ val ++ "')".

Definition close_command (val : string) : string :=
  "channel.close('" ++ val ++ "')".

Definition batch_command (b : batch) (channel : string) : string :=
  match b with
  | Batch_connect_row_to_columns _ _ _ | Batch_connect_column_to_rows _ _ _ =>
      open_command channel
  | Batch_disconnect_row_from_columns _ _ _
  | Batch_disconnect_column_from_rows _ _ _ => close_command channel
  end.

(** The exceptions with which the driver rejects an argument. *)
Definition is_rejection (e : exn) : bool :=
  match e with
  | Keithley3706AInvalidValue _ | Keithley3706AUnknownOrEmptySlot _ => true
  | _ => false
  end.

(** *** Vocabulary of the specification *)

(** The enumerated legal tokens for an inventory: the slot ids with the row
    and column counts of their cards. *)

(** Matrix channels of one slot: slot, row, zero-padded column. *)
Definition slot_channels (slot : string) (rows columns : Z) : list string :=
  map (join EmptyString)
      (product (chars slot) (map str (range1 rows))
               (map column_name (range1 columns))).

Fixpoint channel_names (slot_id : list string) (rows columns : list Z)
  : list string :=
  match slot_id, rows, columns with
  | slot :: slot_id', r :: rows', c :: columns' =>
      slot_channels slot r c ++ channel_names slot_id' rows' columns'
  | _, _, _ => []
  end.

(** Channel ranges: for every slot, the pairs of channel names the driver
    builds for it -- with the row and column counts of the first card. *)
Definition range_names (slot_id : list string) (rows columns : list Z)
  : list string :=
  match rows, columns with
  | r :: _, c :: _ =>
      flat_map (fun slot => map (join ":") (combinations (slot_channels slot r c)))
               slot_id
  | _, _ => []
  end.

Definition slot_names (slot_id : list string) : list string :=
  "allslots" :: map (fun x => ("slot" ++ x)%string) slot_id.

Definition backplane_names (slot_id : list string) : list string :=
  map (join EmptyString)
      (product slot_id ["9"] ["11"; "12"; "13"; "14"; "15"; "16"]).

Definition legal_tokens (slot_id : list string) (rows columns : list Z)
  : list string :=
  channel_names slot_id rows columns ++ range_names slot_id rows columns
  ++ slot_names slot_id ++ backplane_names slot_id.

(** The interlock warnings [close_channel] owes for a specifier: one for
    each element that reads as a backplane relay and whose slot reports both
    interlocks disengaged. *)
Definition reads_as_backplane (channel : string) : bool :=
  match String.get 1 channel with
  | Some c => Ascii.eqb c "9"
  | None => false
  end.

Definition slot_of (channel : string) : string := substring 0 1 channel.

Definition slot_disengaged (states : list Interlock) (slot : string) : bool :=
  match next_state slot states with
  | Ok st => String.eqb (state st) disengaged
  | Raise _ => false
  end.

Definition interlock_warnings (states : list Interlock)
  (val_specifiers : list string) : list string :=
  flat_map (fun channel =>
              if reads_as_backplane channel
                 && slot_disengaged states (slot_of channel)
              then [interlock_warning (slot_of channel) channel]
              else [])
           val_specifiers.

(** The slot ids [get_switch_cards] can produce. *)
Definition slot_digits : list string := ["1"; "2"; "3"; "4"; "5"; "6"].

(** A session that differs from [w] by queries and warnings: the
    instrument is in the state it was in and every new entry of the log is a
    query. *)
Definition no_write (w w' : World) : Prop :=
  dev w' = dev w /\
  exists log : list (string * string), trace w' = trace w ++ map ask_event log.

(** A computation that sends no command, and one that can fail only before
    it sends one. *)
Definition writes_nothing {A : Type} (m : M A) : Prop :=
  forall (w w' : World) (r : outcome A), m w = (r, w') -> no_write w w'.

Definition fails_before_writing {A : Type} (m : M A) : Prop :=
  forall (w w' : World) (e : exn), m w = (Raise e, w') -> no_write w w'.

(** The forbidden list as the instrument reports it for all slots. *)
Definition forbidden_list (d : Dev) : string :=
  dev_ask "print(channel.getforbidden('allslots'))" d.

(** The session after a query, and after warnings. *)
Definition after_asks (w : World) (log : list (string * string)) : World :=
  {| dev := dev w; trace := trace w ++ map ask_event log; warned := warned w |}.

Definition add_warnings (w : World) (msgs : list string) : World :=
  {| dev := dev w; trace := trace w; warned := warned w ++ msgs |}.

(** An element of four characters whose first character names a slot with
    an interlock entry. *)
Definition four_installed (states : list Interlock) (channel : string) : Prop :=
  String.length channel = 4%nat /\
  In (slot_of channel) (map interlock_slot_no states).

(** Row and column numbers whose names cannot be part of ["1971"]. *)
Definition row_not_9 (y : Z) : bool :=
  match str y with
  | String c _ => negb (Ascii.eqb c "9")
  | EmptyString => false
  end.

Definition column_not_71 (z : Z) : bool :=
  (String.length (column_name z) =? 2)%nat
  && negb (String.eqb (column_name z) "71").

(** The precondition violations of a call, for an inventory: an invalid
    specifier, a slot name or an empty string where none is accepted, a
    backplane relay where only channels are accepted (or the reverse), a slot
    that is not installed. *)
Definition valid (ids : list string) (rs cs : list Z) (val : string) : bool :=
  all_listed (legal_tokens ids rs cs) (split "," val).

Definition names_backplane (ids : list string) (val : string) : bool :=
  existsb (fun element => mem element (backplane_names ids)) (split "," val).

Definition violates (ids : list string) (rs cs : list Z) (c : call) : bool :=
  match c with
  | Call_reset_channel val | Call_open_channel val
  | Call_set_forbidden_channels val | Call_get_forbidden_channels val
  | Call_clear_forbidden_channels val =>
      negb (valid ids rs cs val)
  | Call_close_channel val =>
      mem val (slot_names ids) || negb (valid ids rs cs val)
  | Call_exclusive_close val | Call_exclusive_slot_close val =>
      mem val (slot_names ids) || String.eqb val EmptyString
      || negb (valid ids rs cs val)
  | Call_get_closed_channels val =>
      String.eqb val EmptyString || negb (valid ids rs cs val)
  | Call_set_delay val _ | Call_get_delay val | Call_get_backplane val =>
      names_backplane ids val || negb (valid ids rs cs val)
  | Call_set_backplane val backplane =>
      names_backplane ids val || negb (valid ids rs cs val)
      || existsb (fun plane => negb (mem plane (backplane_names ids)))
                 (split "," backplane)
  | Call_get_channels_by_slot slot_no => negb (mem (str slot_no) ids)
  end.

(** The session when [close_channel val] reaches its interlock loop. *)
Definition at_interlock_loop (w : World) (val : string) : World :=
  after_asks
    (add_warnings
       (after_asks
          (after_asks (after_asks w (asked _get_slot_names (dev w)))
                      (asked (get_forbidden_channels "allslots") (dev w)))
          (asked (_validator val) (dev w)))
       (if mem val (split "," (forbidden_list (dev w)))
        then [forbidden_warning] else []))
    (asked get_interlock_state (dev w)).

(** A computation that, when it returns, has sent [cmd] and nothing else. *)
Definition sends (cmd : string) (m : M unit) : Prop :=
  forall w w' : World,
    m w = (Ok tt, w') -> writes (trace w') = writes (trace w) ++ [EvWrite cmd].

(** The outcome of a call that ends in an exception of the driver. *)
Definition rejected (w : World) (m : M unit) : Prop :=
  exists (e : exn) (w' : World), m w = (Raise e, w') /\ is_rejection e = true.


(** The reply of a slot to the identification query, whether it holds a
    card, and the entry [get_switch_cards] makes of the reply. *)
Definition idn_query (i : Z) : string :=
  ("print(" ++ ("slot[" ++ str i ++ "].idn") ++ ")")%string.

Definition idn_reply (d : Dev) (i : Z) : string := dev_ask (idn_query i) d.

Definition filled (d : Dev) (i : Z) : bool :=
  negb (String.eqb (idn_reply d i) "Empty Slot").

Definition card_of (d : Dev) (i : Z) : outcome Card :=
  match map str_strip (split "," (idn_reply d i)) with
  | [model; mtype; firmware; serial] =>
      Ok {| slot_no := str i; model := model; mtype := mtype;
            firmware := firmware; serial := serial |}
  | _ => Raise (ValueError "wrong number of values to unpack (expected 4)")
  end.

(** The command a call ends with, for the calls that send one. *)
Definition command (c : call) : option string :=
  match c with
  | Call_reset_channel val => Some ("channel.reset('" ++ val ++ "')")%string
  | Call_open_channel val => Some ("channel.open('" ++ val ++ "')")%string
  | Call_close_channel val => Some ("channel.close('" ++ val ++ "')")%string
  | Call_exclusive_close val =>
      Some ("channel.exclusiveclose('" ++ val ++ "')")%string
  | Call_exclusive_slot_close val =>
      Some ("channel.exclusiveslotclose('" ++ val ++ "')")%string
  | Call_set_forbidden_channels val =>
      Some ("channel.setforbidden('" ++ val ++ "')")%string
  | Call_clear_forbidden_channels val =>
      Some ("channel.clearforbidden('" ++ val ++ "')")%string
  | Call_set_delay val delay_time =>
      Some ("channel.setdelay('" ++ val ++ "', " ++ delay_time ++ ")")%string
  | Call_set_backplane val backplane =>
      Some ("channel.setbackplane('" ++ val ++ "', '" ++ backplane ++ "')")%string
  | Call_get_closed_channels _ | Call_get_forbidden_channels _
  | Call_get_delay _ | Call_get_backplane _ | Call_get_channels_by_slot _ =>
      None
  end.

(** A computation that, when it returns, has sent [cmd] last, after
    queries only. *)
Definition ends_with (cmd : string) (m : M unit) : Prop :=
  forall w w' : World,
    m w = (Ok tt, w') ->
    dev w' = dev_write cmd (dev w) /\
    exists log : list (string * string),
      trace w' = trace w ++ map ask_event log ++ [EvWrite cmd].

(** The slots whose interlocks are both disengaged. *)
Definition is_disengaged (st : Interlock) : bool :=
  String.eqb (state st) disengaged.

(** The number of matrix channels of a card. *)
Definition card_size (rc : Z * Z) : nat :=
  (Z.to_nat (fst rc) * Z.to_nat (snd rc))%nat.

(** The reply of a slot to the interlock query. *)
Definition interlock_reply (d : Dev) (slot : string) : string :=
  dev_ask ("print(" ++ ("slot[" ++ slot ++ "].interlock.state") ++ ")") d.

(** A computation that warns only with messages that satisfy [P]. *)
Definition warns_only (P : string -> Prop) {A : Type} (m : M A) : Prop :=
  forall (w w' : World) (r : outcome A),
    m w = (r, w') ->
    exists msgs : list string, warned w' = warned w ++ msgs /\ Forall P msgs.

(** The characters of a string. *)
Definition has_comma (val : string) : Prop :=
  In ","%char (list_ascii_of_string val).

(** A query as the instrument must receive it: wrapped in [print()]; and a
    session in which every query is wrapped and every command is a
    [channel.] command sent as it is. *)
Definition wrapped (cmd : string) : Prop :=
  exists inner : string, cmd = ("print(" ++ inner ++ ")")%string.

Definition asks_wrapped {A : Type} (q : Q A) : Prop :=
  forall d : Dev, Forall (fun cr => wrapped (fst cr)) (asked q d).

Definition well_sent (e : event) : Prop :=
  match e with
  | EvAsk cmd _ => wrapped cmd
  | EvWrite cmd => prefix "channel." cmd = true
  end.

Definition polite {A : Type} (m : M A) : Prop :=
  forall (w w' : World) (r : outcome A),
    m w = (r, w') ->
    exists sent : list event, trace w' = trace w ++ sent /\ Forall well_sent sent.
(** *** Reasoning about queries *)

Lemma value_bind {A B : Type} (q : Q A) (k : A -> Q B) (d : Dev) :
  value (qbind q k) d =
  match value q d with
  | Ok a => value (k a) d
  | Raise e => Raise e
  end.
Proof.
  unfold value, qbind. destruct (q d) as [[a|e] log1]; [|reflexivity].
  cbn [fst]. destruct (k a d). reflexivity.
Qed.

Lemma value_ret {A : Type} (a : A) (d : Dev) : value (qret a) d = Ok a.
Proof. reflexivity. Qed.

Lemma value_ask (cmd : string) (d : Dev) :
  value (ask cmd) d = Ok (dev_ask ("print(" ++ cmd ++ ")") d).
Proof. reflexivity. Qed.

Lemma mem_In (x : string) (l : list string) : mem x l = true <-> In x l.
Proof.
  unfold mem. rewrite existsb_exists. split.
  - intros [y [Hy Heq]]. apply String.eqb_eq in Heq. subst. exact Hy.
  - intros H. exists x. split; [exact H|apply String.eqb_refl].
Qed.

Lemma mem_not_In (x : string) (l : list string) : mem x l = false <-> ~ In x l.
Proof.
  rewrite <- mem_In. destruct (mem x l); split; intros H; try reflexivity;
    try discriminate; try (intros H'; discriminate H').
  exfalso. apply H. reflexivity.
Qed.

Lemma all_listed_true (legal specifier : list string) :
  all_listed legal specifier = true <->
  Forall (fun element => In element legal) specifier.
Proof.
  induction specifier as [|e rest IH]; cbn [all_listed].
  - split; [constructor|reflexivity].
  - destruct (mem e legal) eqn:He; cbn [negb].
    + rewrite IH. split.
      * intros H. constructor; [apply mem_In; exact He|exact H].
      * intros H. inversion H; assumption.
    + split; [discriminate|].
      intros H. inversion H; subst. apply mem_not_In in He. contradiction.
Qed.

Lemma all_listed_false (legal specifier : list string) :
  all_listed legal specifier = false <->
  Exists (fun element => ~ In element legal) specifier.
Proof.
  induction specifier as [|e rest IH]; cbn [all_listed].
  - split; [discriminate|]. intros H. inversion H.
  - destruct (mem e legal) eqn:He; cbn [negb].
    + rewrite IH. split.
      * intros H. apply Exists_cons_tl. exact H.
      * intros H. inversion H; subst; [|assumption].
        apply mem_In in He. contradiction.
    + split; [|reflexivity]. intros _. apply Exists_cons_hd.
      apply mem_not_In. exact He.
Qed.

(** The slot ids are decimal numbers between 1 and 6. *)
Lemma scan_slots_ids (d : Dev) (slots : list Z) :
  forall cards : list Card,
  value (scan_slots slots) d = Ok cards ->
  forall c : Card, In c cards -> In (slot_no c) (map str slots).
Proof.
  induction slots as [|i rest IH]; intros cards H c Hc.
  - cbn in H. injection H as <-. destruct Hc.
  - cbn [scan_slots] in H. rewrite value_bind, value_ask in H.
    destruct (negb _).
    + rewrite value_bind in H. unfold qlift, value at 1 in H. cbn [fst] in H.
      destruct (unpack4 _) as [[[[m1 m2] m3] m4]|e]; [|discriminate H].
      rewrite value_bind in H.
      destruct (value (scan_slots rest) d) as [cards'|e] eqn:Hrest;
        [|discriminate H].
      rewrite value_ret in H. injection H as <-.
      destruct Hc as [<-|Hc]; [left; reflexivity|].
      right. exact (IH cards' eq_refl c Hc).
    + right. exact (IH cards H c Hc).
Qed.

Lemma slot_ids_digits (d : Dev) (ids : list string) :
  value _get_slot_ids d = Ok ids ->
  forall id : string, In id ids -> In id slot_digits.
Proof.
  unfold _get_slot_ids. rewrite value_bind.
  destruct (value get_switch_cards d) as [cards|e] eqn:Hcards; [|discriminate].
  rewrite value_ret. intros [= <-] id Hid.
  apply in_map_iff in Hid as [c [<- Hc]].
  exact (scan_slots_ids d _ cards Hcards c Hc).
Qed.

Lemma slot_digit_facts (id : string) :
  In id slot_digits ->
  chars id = [id] /\ String.length id = 1%nat /\
  exists n : Z, int_of_str id = Ok n /\ str n = id.
Proof.
  intros H. repeat destruct H as [<-|H]; try destruct H;
    (split; [reflexivity|split; [reflexivity|]]).
  - exists 1%Z. split; reflexivity.
  - exists 2%Z. split; reflexivity.
  - exists 3%Z. split; reflexivity.
  - exists 4%Z. split; reflexivity.
  - exists 5%Z. split; reflexivity.
  - exists 6%Z. split; reflexivity.
Qed.

(** Fields of a split hold no separator. *)
Lemma split_no_separator (sep : ascii) (s : string) :
  forall field : string,
  In field (split sep s) -> ~ In sep (list_ascii_of_string field).
Proof.
  induction s as [|c s IH]; intros field H.
  - destruct H as [<-|[]]. intros [].
  - cbn [split] in H. destruct (Ascii.eqb c sep) eqn:Hc.
    + destruct H as [<-|H]; [intros []|exact (IH field H)].
    + apply Ascii.eqb_neq in Hc.
      destruct (split sep s) as [|f fs].
      * destruct H as [<-|[]]. intros [H|[]]. contradiction.
      * destruct H as [<-|H].
        -- intros [H|H]; [contradiction|].
           exact (IH f (or_introl eq_refl) H).
        -- exact (IH field (or_intror H)).
Qed.

Lemma comma_not_listed (val list_text : string) :
  has_comma val -> mem val (split "," list_text) = false.
Proof.
  intros Hc. apply mem_not_In. intros Hin.
  exact (split_no_separator "," list_text val Hin Hc).
Qed.

Lemma split_whole (s : string) : ~ has_comma s -> split "," s = [s].
Proof.
  unfold has_comma. induction s as [|c s IH]; intros H; [reflexivity|].
  cbn [split]. destruct (Ascii.eqb c ",") eqn:Hc.
  - apply Ascii.eqb_eq in Hc. subst c. exfalso. apply H. left. reflexivity.
  - rewrite IH; [reflexivity|]. intros Hin. apply H. right. exact Hin.
Qed.

Lemma value_qmap_length {A B : Type} (f : A -> Q B) (d : Dev) (l : list A) :
  forall bs : list B,
  value (qmap f l) d = Ok bs -> List.length bs = List.length l.
Proof.
  induction l as [|a l IH]; intros bs H.
  - cbn in H. injection H as <-. reflexivity.
  - cbn [qmap] in H. rewrite value_bind in H.
    destruct (value (f a) d); [|discriminate H].
    rewrite value_bind in H.
    destruct (value (qmap f l) d) as [bs'|]; [|discriminate H].
    rewrite value_ret in H. injection H as <-.
    cbn [List.length]. f_equal. apply IH. reflexivity.
Qed.

Lemma value_qmap_ext {A B : Type} (f : A -> Q B) (g : A -> B) (d : Dev)
  (l : list A) :
  (forall a : A, In a l -> value (f a) d = Ok (g a)) ->
  value (qmap f l) d = Ok (map g l).
Proof.
  induction l as [|a l IH]; intros H; [reflexivity|].
  cbn [qmap map]. rewrite value_bind, (H a (or_introl eq_refl)).
  rewrite value_bind, IH by (intros; apply H; right; assumption).
  reflexivity.
Qed.

Lemma nth_error_skipn_hd {A : Type} (l : list A) (i : nat) (a : A)
  (rest : list A) :
  skipn i l = a :: rest -> nth_error l i = Some a /\ skipn (S i) l = rest.
Proof.
  revert l. induction i as [|i IH]; intros l H.
  - cbn in H. subst l. split; reflexivity.
  - destruct l as [|b l]; [discriminate H|]. cbn [skipn] in H.
    destruct (IH l H) as [Hn Hs]. split; assumption.
Qed.

(** *** What the queries return for a given inventory *)

Section Inventory.

Variable d : Dev.
Variable ids : list string.
Variables rs cs : list Z.
Hypothesis Hids : value _get_slot_ids d = Ok ids.
Hypothesis Hrows : value _get_number_of_rows d = Ok rs.
Hypothesis Hcols : value _get_number_of_columns d = Ok cs.

Lemma rows_length : List.length rs = List.length ids.
Proof.
  unfold _get_number_of_rows in Hrows. rewrite value_bind, Hids in Hrows.
  exact (value_qmap_length _ _ _ _ Hrows).
Qed.

Lemma columns_length : List.length cs = List.length ids.
Proof.
  unfold _get_number_of_columns in Hcols. rewrite value_bind, Hids in Hcols.
  exact (value_qmap_length _ _ _ _ Hcols).
Qed.

Lemma value_get_rows :
  value _get_rows d = Ok (map (fun item => map str (range1 item)) rs).
Proof. unfold _get_rows. rewrite value_bind, Hrows. reflexivity. Qed.

Lemma value_get_columns :
  value _get_columns d = Ok (map (fun item => map column_name (range1 item)) cs).
Proof. unfold _get_columns. rewrite value_bind, Hcols. reflexivity. Qed.

Lemma value_channels_from (slot_id : list string) :
  forall (i : nat) (row_list column_list : list (list string))
         (rows columns : list Z),
  List.length rows = List.length slot_id ->
  List.length columns = List.length slot_id ->
  skipn i row_list = map (fun item => map str (range1 item)) rows ->
  skipn i column_list = map (fun item => map column_name (range1 item)) columns ->
  value (channels_from i slot_id row_list column_list) d
  = Ok (channel_names slot_id rows columns).
Proof.
  induction slot_id as [|slot rest IH];
    intros i row_list column_list rows columns Hr Hc Hsr Hsc.
  - reflexivity.
  - destruct rows as [|r rows]; [discriminate Hr|].
    destruct columns as [|c columns]; [discriminate Hc|].
    cbn [map] in Hsr, Hsc.
    apply nth_error_skipn_hd in Hsr as [Hnr Hsr].
    apply nth_error_skipn_hd in Hsc as [Hnc Hsc].
    cbn [channels_from channel_names]. unfold list_item.
    rewrite Hnr, Hnc.
    rewrite value_bind, value_ret. cbv beta iota.
    rewrite value_bind, value_ret. cbv beta iota.
    rewrite value_bind.
    rewrite (IH (S i) row_list column_list rows columns); auto.
Qed.

Lemma value_get_channels : value get_channels d = Ok (channel_names ids rs cs).
Proof.
  unfold get_channels.
  rewrite value_bind, Hids, value_bind, value_get_rows, value_bind,
    value_get_columns.
  apply value_channels_from; auto using rows_length, columns_length.
Qed.

Lemma first_card (id : string) :
  In id ids ->
  exists (r c : Z) (rs' cs' : list Z), rs = r :: rs' /\ cs = c :: cs'.
Proof.
  intros Hin. pose proof rows_length as Hlr. pose proof columns_length as Hlc.
  clear Hids Hrows Hcols.
  destruct ids as [|id0 ids']; [destruct Hin|].
  destruct rs as [|r rs']; [discriminate Hlr|].
  destruct cs as [|c cs']; [discriminate Hlc|].
  exists r, c, rs', cs'. split; reflexivity.
Qed.

Lemma value_get_channels_by_slot (id : string) (n : Z) (r c : Z)
  (rs' cs' : list Z) :
  In id ids -> str n = id -> rs = r :: rs' -> cs = c :: cs' ->
  value (get_channels_by_slot n) d = Ok (slot_channels id r c).
Proof.
  intros Hin Hn Er Ec.
  unfold get_channels_by_slot. rewrite value_bind, Hids, Hn.
  apply mem_In in Hin. rewrite Hin. cbn [negb].
  rewrite value_bind, value_get_rows, value_bind, value_get_columns.
  rewrite Er, Ec. reflexivity.
Qed.

Lemma value_get_channel_ranges :
  value _get_channel_ranges d = Ok (range_names ids rs cs).
Proof.
  unfold _get_channel_ranges. rewrite value_bind, Hids.
  assert (Hcase : ids = [] \/ exists id, In id ids).
  { clear. destruct ids as [|id ?]; [left; reflexivity|].
    right. exists id. left. reflexivity. }
  destruct Hcase as [Hnil|[id0 Hid0]].
  - rewrite Hnil. cbn. unfold range_names.
    destruct rs; [reflexivity|]. destruct cs; reflexivity.
  - destruct (first_card id0 Hid0) as [r [c [rs' [cs' [Er Ec]]]]].
    rewrite value_bind.
    rewrite (value_qmap_ext _
               (fun slot => map (join ":") (combinations (slot_channels slot r c)))).
    + rewrite value_ret. unfold range_names. rewrite Er, Ec.
      rewrite flat_map_concat_map. reflexivity.
    + intros id Hid.
      destruct (slot_digit_facts id) as [_ [_ [n [Hint Hstr]]]].
      { apply (slot_ids_digits d _ Hids). exact Hid. }
      rewrite value_bind. unfold qlift, value at 1. cbn [fst]. rewrite Hint.
      rewrite value_bind,
        (value_get_channels_by_slot id n r c rs' cs' Hid Hstr Er Ec).
      reflexivity.
Qed.

Lemma value_get_slot_names :
  value _get_slot_names d = Ok (map (fun x => ("slot" ++ x)%string) ids).
Proof. unfold _get_slot_names. rewrite value_bind, Hids. reflexivity. Qed.

Lemma value_get_analog_backplane_specifiers :
  value get_analog_backplane_specifiers d = Ok (backplane_names ids).
Proof.
  unfold get_analog_backplane_specifiers. rewrite value_bind, Hids. reflexivity.
Qed.

Lemma value_validator (val : string) :
  value (_validator val) d
  = Ok (all_listed (legal_tokens ids rs cs) (split "," val)).
Proof.
  unfold _validator.
  rewrite value_bind, value_get_channels, value_bind, value_get_channel_ranges,
    value_bind, value_get_slot_names, value_bind,
    value_get_analog_backplane_specifiers.
  reflexivity.
Qed.

End Inventory.

(** *** Reasoning about operations *)

Lemma query_run {A : Type} (q : Q A) (w : World) :
  query q w = (value q (dev w), after_asks w (asked q (dev w))).
Proof. unfold query, value, asked, after_asks. destruct (q (dev w)). reflexivity. Qed.

Lemma no_write_refl (w : World) : no_write w w.
Proof. split; [reflexivity|]. exists []. cbn. rewrite app_nil_r. reflexivity. Qed.

Lemma no_write_trans (w1 w2 w3 : World) :
  no_write w1 w2 -> no_write w2 w3 -> no_write w1 w3.
Proof.
  intros [Hd1 [l1 Ht1]] [Hd2 [l2 Ht2]]. split; [congruence|].
  exists (l1 ++ l2). rewrite Ht2, Ht1, map_app, app_assoc. reflexivity.
Qed.

Lemma no_write_writes (w w' : World) :
  no_write w w' -> writes (trace w') = writes (trace w).
Proof.
  intros [_ [log Ht]]. rewrite Ht. unfold writes. rewrite filter_app.
  assert (Hnone : filter is_write (map ask_event log) = []).
  { clear Ht. induction log as [|cr log IH]; [reflexivity|exact IH]. }
  rewrite Hnone. apply app_nil_r.
Qed.

Lemma writes_nothing_ret {A : Type} (a : A) : writes_nothing (ret a).
Proof. intros w w' r H. inversion H; subst. apply no_write_refl. Qed.

Lemma writes_nothing_raise {A : Type} (e : exn) : writes_nothing (@raise A e).
Proof. intros w w' r H. inversion H; subst. apply no_write_refl. Qed.

Lemma writes_nothing_lift {A : Type} (o : outcome A) : writes_nothing (lift o).
Proof. intros w w' r H. inversion H; subst. apply no_write_refl. Qed.

Lemma writes_nothing_warn (msg : string) : writes_nothing (warn msg).
Proof.
  intros w w' r H. inversion H; subst. split; [reflexivity|].
  exists []. cbn. rewrite app_nil_r. reflexivity.
Qed.

Lemma writes_nothing_query {A : Type} (q : Q A) : writes_nothing (query q).
Proof.
  intros w w' r H. rewrite query_run in H. inversion H; subst.
  split; [reflexivity|]. exists (asked q (dev w)). reflexivity.
Qed.

Lemma writes_nothing_bind {A B : Type} (m : M A) (k : A -> M B) :
  writes_nothing m -> (forall a : A, writes_nothing (k a)) ->
  writes_nothing (bind m k).
Proof.
  intros Hm Hk w w' r H. unfold bind in H.
  destruct (m w) as [[a|e] w1] eqn:Hrun.
  - exact (no_write_trans _ _ _ (Hm _ _ _ Hrun) (Hk a _ _ _ H)).
  - inversion H; subst. exact (Hm _ _ _ Hrun).
Qed.

Lemma writes_nothing_for {A : Type} (l : list A) (body : A -> M unit) :
  (forall a : A, writes_nothing (body a)) -> writes_nothing (for_ l body).
Proof.
  intros Hbody. induction l as [|a l IH]; cbn [for_].
  - apply writes_nothing_ret.
  - apply writes_nothing_bind; [apply Hbody|intros _; exact IH].
Qed.

Lemma fails_before_writing_quiet {A : Type} (m : M A) :
  writes_nothing m -> fails_before_writing m.
Proof. intros Hm w w' e H. exact (Hm _ _ _ H). Qed.

Lemma fails_before_writing_write (cmd : string) :
  fails_before_writing (write cmd).
Proof. intros w w' e H. discriminate H. Qed.

Lemma fails_before_writing_bind {A B : Type} (m : M A) (k : A -> M B) :
  writes_nothing m -> (forall a : A, fails_before_writing (k a)) ->
  fails_before_writing (bind m k).
Proof.
  intros Hm Hk w w' e H. unfold bind in H.
  destruct (m w) as [[a|e0] w1] eqn:Hrun.
  - exact (no_write_trans _ _ _ (Hm _ _ _ Hrun) (Hk a _ _ _ H)).
  - inversion H; subst. exact (Hm _ _ _ Hrun).
Qed.

Ltac quiet :=
  repeat first
    [ apply writes_nothing_ret
    | apply writes_nothing_raise
    | apply writes_nothing_lift
    | apply writes_nothing_warn
    | apply writes_nothing_query
    | apply writes_nothing_for; intros ?
    | apply writes_nothing_bind; [|intros ?]
    | match goal with
      | |- writes_nothing (if ?b then _ else _) => destruct b
      end ].

Ltac guarded :=
  repeat first
    [ apply fails_before_writing_write
    | apply fails_before_writing_bind; [solve [quiet]|intros ?]
    | match goal with
      | |- fails_before_writing (if ?b then _ else _) => destruct b
      end
    | apply fails_before_writing_quiet; solve [quiet] ].

Lemma interlock_check_quiet (val : string) :
  writes_nothing (_warn_on_disengaged_interlocks val).
Proof. unfold _warn_on_disengaged_interlocks, check_interlock. quiet. Qed.

Lemma run_fails_before_writing (c : call) : fails_before_writing (run c).
Proof.
  destruct c; cbn [run];
    unfold reset_channel, open_channel, close_channel, exclusive_close,
      exclusive_slot_close, set_forbidden_channels, clear_forbidden_channels,
      set_delay, set_backplane, _warn_on_disengaged_interlocks, check_interlock;
    guarded.
Qed.

(** *** The shape of the legal tokens *)

Lemma str_nonempty (i : Z) : (1 <= String.length (str i))%nat.
Proof.
  unfold str. destruct (Z.to_int i) as [u|u]; cbn.
  - destruct u; cbn; lia.
  - lia.
Qed.

Lemma column_name_nonempty (i : Z) : (1 <= String.length (column_name i))%nat.
Proof.
  unfold column_name. destruct (i <? 10)%Z; [cbn; lia|apply str_nonempty].
Qed.

Lemma length_append (s t : string) :
  String.length (s ++ t) = (String.length s + String.length t)%nat.
Proof. induction s as [|c s IH]; cbn; [reflexivity|rewrite IH; reflexivity]. Qed.

Lemma in_product (e : string) (xs ys zs : list string) :
  In e (map (join EmptyString) (product xs ys zs)) <->
  exists x y z : string,
    In x xs /\ In y ys /\ In z zs /\ e = (x ++ y ++ z)%string.
Proof.
  unfold product. rewrite in_map_iff. split.
  - intros [p [<- Hp]]. apply in_flat_map in Hp as [x [Hx Hp]].
    apply in_flat_map in Hp as [y [Hy Hp]].
    apply in_map_iff in Hp as [z [<- Hz]].
    exists x, y, z. repeat split; assumption.
  - intros [x [y [z [Hx [Hy [Hz ->]]]]]]. exists [x; y; z].
    split; [reflexivity|].
    apply in_flat_map. exists x. split; [exact Hx|].
    apply in_flat_map. exists y. split; [exact Hy|].
    exact (in_map (fun z0 => [x; y; z0]) zs z Hz).
Qed.

Lemma in_slot_channels (e slot : string) (r c : Z) :
  In e (slot_channels slot r c) <->
  exists (x : string) (y z : Z),
    In x (chars slot) /\ In y (range1 r) /\ In z (range1 c) /\
    e = (x ++ str y ++ column_name z)%string.
Proof.
  unfold slot_channels. rewrite in_product. split.
  - intros [x [ys [zs [Hx [Hy [Hz ->]]]]]].
    apply in_map_iff in Hy as [y [<- Hy]].
    apply in_map_iff in Hz as [z [<- Hz]].
    exists x, y, z. repeat split; assumption.
  - intros [x [y [z [Hx [Hy [Hz ->]]]]]].
    exists x, (str y), (column_name z).
    repeat split; auto using in_map.
Qed.

Lemma in_channel_names (e : string) (slot_id : list string) :
  forall rows columns : list Z,
  In e (channel_names slot_id rows columns) ->
  exists (slot : string) (r c : Z),
    In slot slot_id /\ In e (slot_channels slot r c).
Proof.
  induction slot_id as [|slot rest IH]; intros rows columns H.
  - destruct H.
  - destruct rows as [|r rows]; [destruct H|].
    destruct columns as [|c columns]; [destruct H|].
    cbn [channel_names] in H. apply in_app_or in H as [H|H].
    + exists slot, r, c. split; [left; reflexivity|exact H].
    + destruct (IH _ _ H) as [slot' [r' [c' [Hs He]]]].
      exists slot', r', c'. split; [right; exact Hs|exact He].
Qed.

Lemma in_combinations (p : list string) (l : list string) :
  In p (combinations l) -> exists a b : string, p = [a; b] /\ In a l /\ In b l.
Proof.
  induction l as [|a l IH]; cbn [combinations]; intros H; [destruct H|].
  apply in_app_or in H as [H|H].
  - apply in_map_iff in H as [b [<- Hb]]. exists a, b.
    split; [reflexivity|]. split; [left; reflexivity|right; exact Hb].
  - destruct (IH H) as [x [y [-> [Hx Hy]]]]. exists x, y.
    split; [reflexivity|]. split; right; assumption.
Qed.

Lemma slot_of_digit (slot rest : string) :
  In slot slot_digits -> slot_of (slot ++ rest) = slot.
Proof.
  intros H. repeat destruct H as [<-|H]; try destruct H;
    unfold slot_of; cbn; destruct rest; reflexivity.
Qed.

Section Tokens.

Variable ids : list string.
Variables rs cs : list Z.
Hypothesis Hdigits : forall id : string, In id ids -> In id slot_digits.

Lemma channel_shape (e slot : string) (r c : Z) :
  In slot ids -> In e (slot_channels slot r c) ->
  slot_of e = slot /\ (3 <= String.length e)%nat.
Proof.
  intros Hs He. apply in_slot_channels in He as [x [y [z [Hx [_ [_ ->]]]]]].
  pose proof (Hdigits slot Hs) as Hd.
  destruct (slot_digit_facts slot Hd) as [Hchars [Hlen _]].
  rewrite Hchars in Hx. destruct Hx as [<-|[]].
  split; [apply slot_of_digit; exact Hd|].
  rewrite !length_append, Hlen.
  pose proof (str_nonempty y). pose proof (column_name_nonempty z). lia.
Qed.

Lemma range_length (e : string) :
  In e (range_names ids rs cs) -> (7 <= String.length e)%nat.
Proof.
  unfold range_names. destruct rs as [|r ?]; [intros []|].
  destruct cs as [|c ?]; [intros []|].
  intros H. apply in_flat_map in H as [slot [Hs H]].
  apply in_map_iff in H as [p [<- Hp]].
  apply in_combinations in Hp as [a [b [-> [Ha Hb]]]].
  destruct (channel_shape a slot r c Hs Ha) as [_ Hla].
  destruct (channel_shape b slot r c Hs Hb) as [_ Hlb].
  unfold join. cbn [String.concat]. rewrite !length_append. cbn. lia.
Qed.

(** A legal token of four characters is a matrix channel or a backplane
    relay; either way its first character is the id of an installed slot. *)
Lemma legal_four_slot (e : string) :
  In e (legal_tokens ids rs cs) -> String.length e = 4%nat ->
  In (slot_of e) ids.
Proof.
  unfold legal_tokens. intros H Hlen.
  apply in_app_or in H as [H|H]; [|apply in_app_or in H as [H|H];
                                   [|apply in_app_or in H as [H|H]]].
  - apply in_channel_names in H as [slot [r [c [Hs He]]]].
    destruct (channel_shape e slot r c Hs He) as [-> _]. exact Hs.
  - apply range_length in H. lia.
  - destruct H as [<-|H]; [discriminate Hlen|].
    apply in_map_iff in H as [id [<- Hid]].
    destruct (slot_digit_facts id (Hdigits id Hid)) as [_ [Hl _]].
    rewrite length_append, Hl in Hlen. discriminate Hlen.
  - unfold backplane_names in H. apply in_product in H
      as [id [y [z [Hid [_ [_ ->]]]]]].
    rewrite slot_of_digit by (apply Hdigits; exact Hid). exact Hid.
Qed.

End Tokens.

(** *** [close_channel], step by step *)

Lemma bind_ok {A B : Type} (m : M A) (k : A -> M B) (w w1 : World) (a : A) :
  m w = (Ok a, w1) -> bind m k w = k a w1.
Proof. intros H. unfold bind. rewrite H. reflexivity. Qed.

Lemma bind_raise {A B : Type} (m : M A) (k : A -> M B) (w w1 : World) (e : exn) :
  m w = (Raise e, w1) -> bind m k w = (Raise e, w1).
Proof. intros H. unfold bind. rewrite H. reflexivity. Qed.

Lemma next_state_found (slot : string) (states : list Interlock) :
  In slot (map interlock_slot_no states) ->
  exists st : Interlock,
    next_state slot states = Ok st /\ interlock_slot_no st = slot.
Proof.
  induction states as [|st rest IH]; cbn [map next_state]; intros H;
    [destruct H|].
  destruct (String.eqb_spec (interlock_slot_no st) slot) as [Heq|Hne].
  - exists st. split; [reflexivity|exact Heq].
  - destruct H as [H|H]; [contradiction|]. exact (IH H).
Qed.

Lemma is_backplane_four (channel : string) :
  String.length channel = 4%nat ->
  _is_backplane_channel channel = Ok (reads_as_backplane channel) /\
  item 0 channel = Ok (slot_of channel).
Proof.
  intros H. do 4 (destruct channel as [|? channel]; [discriminate H|]).
  destruct channel; [clear H|discriminate H].
  unfold _is_backplane_channel, reads_as_backplane, item, slot_of.
  cbn [String.length Nat.eqb negb String.get substring].
  split; [|reflexivity].
  cbn [String.eqb]. destruct (Ascii.eqb a0 "9"); reflexivity.
Qed.

Lemma is_backplane_other (channel : string) :
  String.length channel <> 4%nat ->
  _is_backplane_channel channel
  = Raise (Keithley3706AInvalidValue (channel ++ " is not a valid channel id")).
Proof.
  intros H. unfold _is_backplane_channel.
  apply Nat.eqb_neq in H. rewrite H. reflexivity.
Qed.

Lemma check_interlock_four (states : list Interlock) (channel : string)
  (w : World) :
  String.length channel = 4%nat ->
  In (slot_of channel) (map interlock_slot_no states) ->
  check_interlock states channel w
  = (Ok tt, add_warnings w (interlock_warnings states [channel])).
Proof.
  intros Hlen Hslot. destruct (is_backplane_four channel Hlen) as [Hb Hi].
  destruct (next_state_found _ _ Hslot) as [st [Hnext Hst]].
  unfold check_interlock, bind, lift, interlock_warnings, slot_disengaged.
  cbn [flat_map]. rewrite Hb, app_nil_r.
  destruct (reads_as_backplane channel); cbn [andb].
  - rewrite Hi, Hnext, Hst.
    destruct (String.eqb (state st) disengaged); [reflexivity|].
    unfold ret, add_warnings. rewrite app_nil_r. destruct w; reflexivity.
  - unfold ret, add_warnings. rewrite app_nil_r. destruct w; reflexivity.
Qed.

Lemma check_interlock_other (states : list Interlock) (channel : string)
  (w : World) :
  String.length channel <> 4%nat ->
  check_interlock states channel w
  = (Raise (Keithley3706AInvalidValue (channel ++ " is not a valid channel id")),
     w).
Proof.
  intros H. unfold check_interlock, bind, lift.
  rewrite (is_backplane_other channel H). reflexivity.
Qed.

Lemma interlock_warnings_app (states : list Interlock) (l1 l2 : list string) :
  interlock_warnings states (l1 ++ l2)
  = interlock_warnings states l1 ++ interlock_warnings states l2.
Proof. unfold interlock_warnings. apply flat_map_app. Qed.

Lemma add_warnings_add (w : World) (m1 m2 : list string) :
  add_warnings (add_warnings w m1) m2 = add_warnings w (m1 ++ m2).
Proof. unfold add_warnings. cbn. rewrite app_assoc. reflexivity. Qed.


Lemma interlock_loop_other (states : list Interlock)
  (good : list string) (bad : string) (rest : list string) (w : World) :
  Forall (four_installed states) good ->
  String.length bad <> 4%nat ->
  for_ (good ++ bad :: rest) (check_interlock states) w
  = (Raise (Keithley3706AInvalidValue (bad ++ " is not a valid channel id")),
     add_warnings w (interlock_warnings states good)).
Proof.
  revert w. induction good as [|channel good IH]; intros w Hgood Hbad.
  - cbn [app for_].
    rewrite (bind_raise _ _ _ _ _ (check_interlock_other _ _ w Hbad)).
    unfold add_warnings. cbn. rewrite app_nil_r. destruct w; reflexivity.
  - inversion Hgood as [|? ? [Hlen Hslot] Hrest]; subst. cbn [app for_].
    rewrite (bind_ok _ _ _ _ _ (check_interlock_four _ _ w Hlen Hslot)).
    rewrite (IH _ Hrest Hbad), add_warnings_add.
    change (channel :: good) with ([channel] ++ good).
    rewrite (interlock_warnings_app states [channel] good). reflexivity.
Qed.

Lemma first_other_length (l : list string) :
  Exists (fun e => String.length e <> 4%nat) l ->
  exists (good : list string) (bad : string) (rest : list string),
    l = good ++ bad :: rest /\
    Forall (fun e => String.length e = 4%nat) good /\
    String.length bad <> 4%nat.
Proof.
  induction l as [|e l IH]; intros H; [inversion H|].
  destruct (Nat.eq_dec (String.length e) 4) as [Heq|Hne].
  - inversion H as [? ? Hbad|? ? Hrest]; subst; [contradiction|].
    destruct (IH Hrest) as [good [bad [rest [-> [Hgood Hbad]]]]].
    exists (e :: good), bad, rest.
    split; [reflexivity|]. split; [constructor; assumption|exact Hbad].
  - exists [], e, l. split; [reflexivity|]. split; [constructor|exact Hne].
Qed.

Lemma value_qmap_forall2 {A B : Type} (f : A -> Q B) (P : A -> B -> Prop)
  (d : Dev) (l : list A) :
  (forall (a : A) (b : B), value (f a) d = Ok b -> P a b) ->
  forall bs : list B, value (qmap f l) d = Ok bs -> Forall2 P l bs.
Proof.
  intros HP. induction l as [|a l IH]; intros bs H.
  - cbn in H. injection H as <-. constructor.
  - cbn [qmap] in H. rewrite value_bind in H.
    destruct (value (f a) d) as [b|] eqn:Hb; [|discriminate H].
    rewrite value_bind in H.
    destruct (value (qmap f l) d) as [bs'|]; [|discriminate H].
    rewrite value_ret in H. injection H as <-.
    constructor; [apply HP; exact Hb|apply IH; reflexivity].
Qed.

Lemma interlock_state_slots (d : Dev) (ids : list string)
  (states : list Interlock) :
  value _get_slot_ids d = Ok ids ->
  value get_interlock_state d = Ok states ->
  map interlock_slot_no states = ids.
Proof.
  intros Hids H. unfold get_interlock_state in H.
  rewrite value_bind, Hids in H.
  apply (value_qmap_forall2 _ (fun i s => interlock_slot_no s = i)) in H.
  - clear Hids. induction H as [|i s l bs Hs _ IH]; [reflexivity|].
    cbn [map]. rewrite Hs, IH. reflexivity.
  - intros i s Hs. rewrite value_bind in Hs.
    destruct (value (get_interlock_state_by_slot i) d); [|discriminate Hs].
    rewrite value_bind in Hs. unfold qlift, value at 1 in Hs. cbn [fst] in Hs.
    destruct (interlock_status a); [|discriminate Hs].
    rewrite value_ret in Hs. injection Hs as <-. reflexivity.
Qed.

Section Closing.

Variable w : World.
Variable ids : list string.
Variables rs cs : list Z.
Variable states : list Interlock.
Hypothesis Hids : value _get_slot_ids (dev w) = Ok ids.
Hypothesis Hrows : value _get_number_of_rows (dev w) = Ok rs.
Hypothesis Hcols : value _get_number_of_columns (dev w) = Ok cs.
Hypothesis Hstates : value get_interlock_state (dev w) = Ok states.

Lemma value_get_forbidden_allslots :
  value (get_forbidden_channels "allslots") (dev w) = Ok (forbidden_list (dev w)).
Proof.
  unfold get_forbidden_channels.
  rewrite value_bind, (value_validator (dev w) ids rs cs Hids Hrows Hcols).
  assert (Hall : all_listed (legal_tokens ids rs cs) (split "," "allslots") = true).
  { apply all_listed_true. cbn [split Ascii.eqb Bool.eqb].
    constructor; [|constructor]. unfold legal_tokens, slot_names.
    apply in_or_app. right. apply in_or_app. right. apply in_or_app. left.
    left. reflexivity. }
  rewrite Hall. reflexivity.
Qed.

Lemma close_channel_run (val : string) :
  mem val (slot_names ids) = false ->
  all_listed (legal_tokens ids rs cs) (split "," val) = true ->
  close_channel val w =
  match for_ (split "," val) (check_interlock states) (at_interlock_loop w val) with
  | (Ok _, w') => write (close_command val) w'
  | (Raise e, w') => (Raise e, w')
  end.
Proof.
  intros Hslot Hvalid. unfold close_channel.
  rewrite (bind_ok _ _ w _ (map (fun x => ("slot" ++ x)%string) ids))
    by (rewrite query_run, (value_get_slot_names _ _ Hids); reflexivity).
  rewrite (bind_ok _ _ _ _ (forbidden_list (dev w)))
    by (rewrite query_run; cbn [dev after_asks];
        rewrite value_get_forbidden_allslots; reflexivity).
  fold (slot_names ids). rewrite Hslot.
  rewrite (bind_ok _ _ _ _ true)
    by (rewrite query_run; cbn [dev after_asks];
        rewrite (value_validator _ ids rs cs Hids Hrows Hcols), Hvalid;
        reflexivity).
  cbn [negb].
  assert (Hwarn :
    (if mem val (split "," (forbidden_list (dev w)))
     then warn forbidden_warning else ret tt)
      (after_asks
         (after_asks (after_asks w (asked _get_slot_names (dev w)))
                     (asked (get_forbidden_channels "allslots") (dev w)))
         (asked (_validator val) (dev w)))
    = (Ok tt,
       add_warnings
         (after_asks
            (after_asks (after_asks w (asked _get_slot_names (dev w)))
                        (asked (get_forbidden_channels "allslots") (dev w)))
            (asked (_validator val) (dev w)))
         (if mem val (split "," (forbidden_list (dev w)))
          then [forbidden_warning] else []))).
  { destruct (mem val (split "," (forbidden_list (dev w)))); [reflexivity|].
    unfold ret, add_warnings, after_asks. cbn. rewrite app_nil_r. reflexivity. }
  rewrite (bind_ok _ _ _ _ _ Hwarn).
  unfold _warn_on_disengaged_interlocks.
  unfold bind at 1.
  rewrite (bind_ok _ _ _ _ states)
    by (rewrite query_run; cbn [dev after_asks add_warnings];
        rewrite Hstates; reflexivity).
  fold (at_interlock_loop w val). fold (close_command val).
  destruct (for_ _ _ _) as [[[]|e] w']; reflexivity.
Qed.

Lemma legal_four_installed (l : list string) :
  Forall (fun e => In e (legal_tokens ids rs cs)) l ->
  Forall (fun e => String.length e = 4%nat) l ->
  Forall (four_installed states) l.
Proof.
  intros Hlegal Hfour. rewrite Forall_forall in *. intros e He.
  split; [apply Hfour; exact He|].
  rewrite (interlock_state_slots _ _ _ Hids Hstates).
  apply (legal_four_slot ids rs cs (slot_ids_digits _ _ Hids)).
  - apply Hlegal. exact He.
  - apply Hfour. exact He.
Qed.



Lemma close_channel_slot_name (val : string) :
  mem val (slot_names ids) = true ->
  exists w' : World,
    close_channel val w
    = (Raise (Keithley3706AInvalidValue "Slots cannot be closed all together."),
       w').
Proof.
  intros Hslot. unfold close_channel.
  rewrite (bind_ok _ _ w _ (map (fun x => ("slot" ++ x)%string) ids))
    by (rewrite query_run, (value_get_slot_names _ _ Hids); reflexivity).
  rewrite (bind_ok _ _ _ _ (forbidden_list (dev w)))
    by (rewrite query_run; cbn [dev after_asks];
        rewrite value_get_forbidden_allslots; reflexivity).
  fold (slot_names ids). rewrite Hslot. eexists. reflexivity.
Qed.

Lemma close_channel_invalid (val : string) :
  mem val (slot_names ids) = false ->
  all_listed (legal_tokens ids rs cs) (split "," val) = false ->
  exists w' : World,
    close_channel val w
    = (Raise (Keithley3706AInvalidValue (closable_specifier_msg val)), w').
Proof.
  intros Hslot Hvalid. unfold close_channel.
  rewrite (bind_ok _ _ w _ (map (fun x => ("slot" ++ x)%string) ids))
    by (rewrite query_run, (value_get_slot_names _ _ Hids); reflexivity).
  rewrite (bind_ok _ _ _ _ (forbidden_list (dev w)))
    by (rewrite query_run; cbn [dev after_asks];
        rewrite value_get_forbidden_allslots; reflexivity).
  fold (slot_names ids). rewrite Hslot.
  rewrite (bind_ok _ _ _ _ false)
    by (rewrite query_run; cbn [dev after_asks];
        rewrite (value_validator _ ids rs cs Hids Hrows Hcols), Hvalid;
        reflexivity).
  eexists. reflexivity.
Qed.

(** C7.  With an inventory and interlock states the driver can read,
    [close_channel] raises [Keithley3706AInvalidValue] for every specifier
    with an element that is not four characters long, and so for every
    specifier with a channel-range element; the close command is not sent.
    When the specifier is no slot name and passes the validator, the
    exception is the one of [_is_backplane_channel], raised in the interlock
    check for the first such element. *)
Theorem close_channel_rejects_other_lengths (val element : string) :
  In element (split "," val) ->
  String.length element <> 4%nat \/ In element (range_names ids rs cs) ->
  exists (msg : string) (w' : World),
    close_channel val w = (Raise (Keithley3706AInvalidValue msg), w') /\
    no_write w w' /\
    (mem val (slot_names ids) = false ->
     all_listed (legal_tokens ids rs cs) (split "," val) = true ->
     exists (good : list string) (bad : string) (rest : list string),
       split "," val = good ++ bad :: rest /\
       Forall (fun e => String.length e = 4%nat) good /\
       String.length bad <> 4%nat /\
       msg = (bad ++ " is not a valid channel id")%string).
Proof.
  intros Hin Hshape.
  assert (Hlen : String.length element <> 4%nat).
  { destruct Hshape as [H|H]; [exact H|].
    apply (range_length ids rs cs (slot_ids_digits _ _ Hids)) in H. lia. }
  assert (Hex : Exists (fun e => String.length e <> 4%nat) (split "," val)).
  { apply Exists_exists. exists element. split; assumption. }
  assert (Hquiet : forall (msg : string) (w' : World),
            close_channel val w = (Raise (Keithley3706AInvalidValue msg), w') ->
            no_write w w').
  { intros msg w' H.
    exact (run_fails_before_writing (Call_close_channel val) w w' _ H). }
  destruct (mem val (slot_names ids)) eqn:Hslot.
  { destruct (close_channel_slot_name val Hslot) as [w' Hrun].
    eexists. exists w'. split; [exact Hrun|]. split; [eapply Hquiet; exact Hrun|].
    intros Hf; discriminate Hf. }
  destruct (all_listed (legal_tokens ids rs cs) (split "," val)) eqn:Hvalid.
  2: { destruct (close_channel_invalid val Hslot Hvalid) as [w' Hrun].
       eexists. exists w'. split; [exact Hrun|].
       split; [eapply Hquiet; exact Hrun|]. intros _ Hf; discriminate Hf. }
  destruct (first_other_length _ Hex) as [good [bad [rest [Hsplit [Hgood Hbad]]]]].
  assert (Hinst : Forall (four_installed states) good).
  { apply legal_four_installed; [|exact Hgood].
    apply all_listed_true in Hvalid. rewrite Hsplit in Hvalid.
    apply Forall_app in Hvalid as [Hvalid _]. exact Hvalid. }
  pose proof (close_channel_run val Hslot Hvalid) as Hrun.
  rewrite Hsplit, (interlock_loop_other states good bad rest _ Hinst Hbad) in Hrun.
  eexists. eexists. split; [exact Hrun|]. split; [eapply Hquiet; exact Hrun|].
  intros _ _. exists good, bad, rest. repeat split; assumption.
Qed.


End Closing.

(** *** The claims about the validator *)

Lemma in_range1 (y n : Z) : In y (range1 n) <-> (1 <= y <= n)%Z.
Proof.
  unfold range1. rewrite in_map_iff. split.
  - intros [k [<- Hk]]. apply in_seq in Hk. lia.
  - intros H. exists (Z.to_nat y). split; [lia|]. apply in_seq. lia.
Qed.

Lemma in_channel_names_iff (e : string) (slot_id : list string) :
  forall rows columns : list Z,
  In e (channel_names slot_id rows columns) <->
  exists (i : nat) (slot : string) (r c : Z),
    nth_error slot_id i = Some slot /\ nth_error rows i = Some r /\
    nth_error columns i = Some c /\ In e (slot_channels slot r c).
Proof.
  induction slot_id as [|slot rest IH]; intros rows columns.
  - split; [intros []|]. intros [i [s [r [c [H _]]]]]. destruct i; discriminate H.
  - destruct rows as [|r rows].
    { split; [intros []|]. intros [i [s [r [c [_ [H _]]]]]].
      destruct i; discriminate H. }
    destruct columns as [|c columns].
    { split; [intros []|]. intros [i [s [r' [c [_ [_ [H _]]]]]]].
      destruct i; discriminate H. }
    cbn [channel_names]. rewrite in_app_iff, IH. split.
    + intros [H|[i [s [r' [c' [Hs [Hr [Hc He]]]]]]]].
      * exists 0%nat, slot, r, c. repeat split; assumption.
      * exists (S i), s, r', c'. repeat split; assumption.
    + intros [i [s [r' [c' [Hs [Hr [Hc He]]]]]]]. destruct i as [|i].
      * cbn in Hs, Hr, Hc. injection Hs as <-. injection Hr as <-.
        injection Hc as <-. left. exact He.
      * right. exists i, s, r', c'. repeat split; assumption.
Qed.

(** C5.  For an inventory the driver can read -- slot ids [ids] with row
    counts [rs] and column counts [cs] -- the four enumerations return the
    legal tokens: matrix channels (slot id, row number, column number padded
    to two digits, for the rows and columns of the card in that slot),
    channel ranges, ["allslots"] and the slot names, and the six backplane
    relays of every slot.  [_validator] returns [True] when every
    comma-separated element of the specifier is among them and [False] when
    some element is not. *)
Theorem validator_checks_every_element (d : Dev) (ids : list string)
  (rs cs : list Z) (val : string) :
  value _get_slot_ids d = Ok ids ->
  value _get_number_of_rows d = Ok rs ->
  value _get_number_of_columns d = Ok cs ->
  (value get_channels d = Ok (channel_names ids rs cs) /\
   value _get_channel_ranges d = Ok (range_names ids rs cs) /\
   value _get_slot_names d = Ok (map (fun x => ("slot" ++ x)%string) ids) /\
   value get_analog_backplane_specifiers d = Ok (backplane_names ids)) /\
  (forall e : string,
     In e (channel_names ids rs cs) <->
     exists (i : nat) (slot : string) (r c y z : Z),
       nth_error ids i = Some slot /\ nth_error rs i = Some r /\
       nth_error cs i = Some c /\ (1 <= y <= r)%Z /\ (1 <= z <= c)%Z /\
       e = (slot ++ str y
            ++ (if (z <? 10)%Z then ("0" ++ str z)%string else str z))%string) /\
  (forall e : string,
     In e (backplane_names ids) <->
     exists id relay : string,
       In id ids /\ In relay ["11"; "12"; "13"; "14"; "15"; "16"] /\
       e = (id ++ "9" ++ relay)%string) /\
  (Forall (fun e => In e (legal_tokens ids rs cs)) (split "," val) ->
   value (_validator val) d = Ok true) /\
  (Exists (fun e => ~ In e (legal_tokens ids rs cs)) (split "," val) ->
   value (_validator val) d = Ok false).
Proof.
  intros Hids Hrows Hcols.
  split; [|split; [|split; [|split]]].
  - split; [exact (value_get_channels d ids rs cs Hids Hrows Hcols)|].
    split; [exact (value_get_channel_ranges d ids rs cs Hids Hrows Hcols)|].
    split; [exact (value_get_slot_names d ids Hids)|].
    exact (value_get_analog_backplane_specifiers d ids Hids).
  - intros e. rewrite in_channel_names_iff. split.
    + intros [i [slot [r [c [Hs [Hr [Hc He]]]]]]].
      apply in_slot_channels in He as [x [y [z [Hx [Hy [Hz ->]]]]]].
      assert (Hd : In slot slot_digits).
      { apply (slot_ids_digits d ids Hids). eapply nth_error_In. exact Hs. }
      destruct (slot_digit_facts slot Hd) as [Hchars _].
      rewrite Hchars in Hx. destruct Hx as [<-|[]].
      exists i, slot, r, c, y, z. apply in_range1 in Hy, Hz.
      repeat split; try assumption; lia.
    + intros [i [slot [r [c [y [z [Hs [Hr [Hc [Hy [Hz ->]]]]]]]]]]].
      exists i, slot, r, c. repeat split; try assumption.
      apply in_slot_channels. exists slot, y, z.
      assert (Hd : In slot slot_digits).
      { apply (slot_ids_digits d ids Hids). eapply nth_error_In. exact Hs. }
      destruct (slot_digit_facts slot Hd) as [Hchars _]. rewrite Hchars.
      repeat split; try (apply in_range1; assumption). left. reflexivity.
  - intros e. unfold backplane_names. rewrite in_product. split.
    + intros [id [nine [relay [Hid [Hnine [Hrelay ->]]]]]].
      destruct Hnine as [<-|[]]. exists id, relay. repeat split; assumption.
    + intros [id [relay [Hid [Hrelay ->]]]]. exists id, "9", relay.
      repeat split; try assumption. left. reflexivity.
  - intros H. rewrite (value_validator d ids rs cs Hids Hrows Hcols).
    apply all_listed_true in H. rewrite H. reflexivity.
  - intros H. rewrite (value_validator d ids rs cs Hids Hrows Hcols).
    apply all_listed_false in H. rewrite H. reflexivity.
Qed.

(** *** One card in slot 1 *)

Lemma append_eq_971_head (s t : string) :
  (s ++ t)%string = "971" -> s <> EmptyString ->
  exists rest : string, s = String "9" rest.
Proof.
  intros H Hne. destruct s as [|a s]; [contradiction|].
  cbn in H. injection H as -> _. exists s. reflexivity.
Qed.

Lemma append_eq_971_tail (s t : string) :
  (s ++ t)%string = "971" -> String.length t = 2%nat -> t = "71".
Proof.
  intros H Hlen.
  destruct s as [|a s]; cbn in H; [subst t; discriminate Hlen|].
  injection H as _ H.
  destruct s as [|b s]; cbn in H; [exact H|].
  injection H as _ H.
  destruct s as [|c s]; cbn in H; [subst t; discriminate Hlen|].
  injection H as _ H.
  destruct s; cbn in H; [subst t; discriminate Hlen|discriminate H].
Qed.

Lemma not_1971_by_row (y z : Z) :
  (1 <= y <= 8)%Z -> ("1" ++ str y ++ column_name z)%string <> "1971".
Proof.
  intros Hy H. cbn in H. injection H as H.
  assert (Hin : In y (range1 8)) by (apply in_range1; lia).
  assert (Hall : forallb row_not_9 (range1 8) = true) by reflexivity.
  rewrite forallb_forall in Hall. specialize (Hall y Hin).
  unfold row_not_9 in Hall.
  destruct (str y) as [|a s] eqn:Hs; [discriminate Hall|].
  destruct (append_eq_971_head _ _ H) as [rest Hrest]; [discriminate|].
  injection Hrest as -> _. discriminate Hall.
Qed.

Lemma not_1971_by_column (y z : Z) :
  (1 <= z <= 70)%Z -> ("1" ++ str y ++ column_name z)%string <> "1971".
Proof.
  intros Hz H. cbn in H. injection H as H.
  assert (Hin : In z (range1 70)) by (apply in_range1; lia).
  assert (Hall : forallb column_not_71 (range1 70) = true)
    by (vm_compute; reflexivity).
  rewrite forallb_forall in Hall. specialize (Hall z Hin).
  unfold column_not_71 in Hall. apply andb_true_iff in Hall as [Hlen Hne].
  apply Nat.eqb_eq in Hlen.
  rewrite (append_eq_971_tail _ _ H Hlen) in Hne. discriminate Hne.
Qed.

(** What [int] reads back from the text of an integer. *)
Lemma str_read_back (d : Decimal.signed_int) :
  d = Decimal.Pos Decimal.Nil \/ d = Decimal.Neg Decimal.Nil \/
  NilZero.int_of_string (NilZero.string_of_int d) = Some d.
Proof.
  destruct d as [[]|[]];
    first [ left; reflexivity
          | right; left; reflexivity
          | right; right; apply NilZero.isi; discriminate ].
Qed.

(** A number that prints as one character is one of 0 to 9. *)
Lemma str_one_character (z : Z) (a : ascii) :
  str z = String a EmptyString -> (0 <= z <= 9)%Z.
Proof.
  unfold str. intros H. rewrite <- (DecimalZ.of_to z).
  generalize dependent (Z.to_int z). intros d H.
  destruct (str_read_back d) as [->|[->|Hi]];
    [vm_compute; split; discriminate|vm_compute; split; discriminate|].
  rewrite H in Hi.
  destruct a as [[] [] [] [] [] [] [] []]; vm_compute in Hi;
    try discriminate Hi; injection Hi as <-; vm_compute; split; discriminate.
Qed.

Lemma str_nine (y : Z) : str y = "9" -> y = 9%Z.
Proof.
  unfold str. intros H. rewrite <- (DecimalZ.of_to y).
  generalize dependent (Z.to_int y). intros d H.
  destruct (str_read_back d) as [->|[->|Hi]];
    [vm_compute in H; discriminate H|vm_compute in H; discriminate H|].
  rewrite H in Hi. vm_compute in Hi. injection Hi as <-. reflexivity.
Qed.

Lemma column_name_two (z : Z) : (2 <= String.length (column_name z))%nat.
Proof.
  unfold column_name. destruct (z <? 10)%Z eqn:Hz.
  - cbn [append String.length]. pose proof (str_nonempty z). lia.
  - apply Z.ltb_ge in Hz. pose proof (str_nonempty z) as Hn.
    destruct (str z) as [|a [|b s]] eqn:Hs; cbn [String.length] in *; try lia.
    pose proof (str_one_character z a Hs) as Hsmall. lia.
Qed.

(** The four-character names of slot 1 that read as backplane relays:
    after ["19"], two characters that are a relay number or, on a card with
    at least nine rows, the name of one of its columns. *)
Lemma relay_id_legal (r c : Z) (k : string) :
  String.length k = 2%nat ->
  In ("19" ++ k)%string (legal_tokens ["1"] [r] [c]) <->
  In k ["11"; "12"; "13"; "14"; "15"; "16"] \/
  ((9 <= r)%Z /\ exists z : Z, (1 <= z <= c)%Z /\ k = column_name z).
Proof.
  intros Hk. unfold legal_tokens. rewrite !in_app_iff. split.
  - intros [H|[H|[H|H]]].
    + right. cbn [channel_names] in H. rewrite app_nil_r in H.
      apply in_slot_channels in H as [x [y [z [Hx [Hy [Hz H]]]]]].
      destruct Hx as [<-|[]]. apply in_range1 in Hy, Hz.
      cbn [append] in H. injection H as H.
      pose proof (str_nonempty y) as Hy1.
      pose proof (column_name_two z) as Hz2.
      assert (Hlen : (String.length (str y) + String.length (column_name z)
                      = 3)%nat).
      { rewrite <- length_append, <- H. cbn [String.length]. rewrite Hk.
        reflexivity. }
      destruct (str y) as [|a [|b s]] eqn:Hs; cbn [String.length] in *;
        try lia.
      cbn [append] in H. injection H as <- Hcol.
      apply str_nine in Hs. subst y.
      split; [lia|]. exists z. split; [exact Hz|exact Hcol].
    + apply (range_length ["1"] [r] [c]) in H.
      * rewrite length_append, Hk in H. cbn in H. lia.
      * intros id [<-|[]]. left. reflexivity.
    + cbn in H. destruct H as [H|[H|[]]]; discriminate H.
    + left. cbn in H.
      destruct H as [H|[H|[H|[H|[H|[H|[]]]]]]]; injection H as <-;
        cbn; auto 10.
  - intros [H|[Hr [z [Hz ->]]]].
    + right. right. right. cbn.
      repeat destruct H as [<-|H]; try destruct H; auto 10.
    + left. cbn [channel_names]. rewrite app_nil_r.
      apply in_slot_channels. exists "1", 9%Z, z.
      split; [left; reflexivity|]. rewrite !in_range1.
      split; [lia|]. split; [exact Hz|reflexivity].
Qed.

(** C10, as amended.  With a single card installed, in slot 1, the backplane
    specifiers are the six tokens 1911 to 1916 whatever the rows and columns
    of the card.  A specifier ["19"] followed by a two-character relay id
    passes validation exactly when the id is one of 11 to 16 or when the
    card has at least nine rows and the id is the name of one of its
    columns, so that the specifier names a matrix channel of row 9.  On a
    card with fewer than nine rows, the 6 by 8 card among them, every relay
    id other than 11 to 16 fails validation; ["1971"] fails on every card
    with fewer than 9 rows or fewer than 71 columns. *)
Theorem single_card_backplane_relays (d : Dev) :
  value _get_slot_ids d = Ok ["1"] ->
  value get_analog_backplane_specifiers d
  = Ok ["1911"; "1912"; "1913"; "1914"; "1915"; "1916"] /\
  (forall (r c : Z) (k : string),
     value _get_number_of_rows d = Ok [r] ->
     value _get_number_of_columns d = Ok [c] ->
     String.length k = 2%nat -> ~ has_comma k ->
     exists valid_id : bool,
       value (_validator ("19" ++ k)) d = Ok valid_id /\
       (valid_id = true <->
        In k ["11"; "12"; "13"; "14"; "15"; "16"] \/
        ((9 <= r)%Z /\ exists z : Z, (1 <= z <= c)%Z /\ k = column_name z)) /\
       ((r < 9)%Z -> ~ In k ["11"; "12"; "13"; "14"; "15"; "16"] ->
        valid_id = false)) /\
  (forall r c : Z,
     value _get_number_of_rows d = Ok [r] ->
     value _get_number_of_columns d = Ok [c] ->
     (r < 9 \/ c < 71)%Z ->
     value (_validator "1971") d = Ok false).
Proof.
  intros Hids. split; [|split].
  - rewrite (value_get_analog_backplane_specifiers d _ Hids). reflexivity.
  - intros r c k Hrows Hcols Hk Hcomma.
    rewrite (value_validator d _ _ _ Hids Hrows Hcols).
    assert (Hsplit : split "," ("19" ++ k) = [("19" ++ k)%string]).
    { apply split_whole. unfold has_comma in *. cbn.
      intros [H|[H|H]]; [discriminate H|discriminate H|exact (Hcomma H)]. }
    rewrite Hsplit. eexists. split; [reflexivity|].
    assert (Hiff : all_listed (legal_tokens ["1"] [r] [c]) [("19" ++ k)%string]
                   = true <->
                   In k ["11"; "12"; "13"; "14"; "15"; "16"] \/
                   ((9 <= r)%Z /\
                    exists z : Z, (1 <= z <= c)%Z /\ k = column_name z)).
    { rewrite all_listed_true, <- (relay_id_legal r c k Hk). split.
      - intros H. inversion H; assumption.
      - intros H. constructor; [exact H|constructor]. }
    split; [exact Hiff|].
    intros Hr Hnot.
    destruct (all_listed _ _) eqn:Hall; [|reflexivity].
    destruct (proj1 Hiff eq_refl) as [H|[H _]]; [contradiction|lia].
  - intros r c Hrows Hcols Hsmall.
    rewrite (value_validator d _ _ _ Hids Hrows Hcols).
    f_equal. apply all_listed_false. cbn [split Ascii.eqb Bool.eqb].
    apply Exists_cons_hd. unfold legal_tokens. rewrite !in_app_iff.
    intros [H|[H|[H|H]]].
    + cbn [channel_names] in H. rewrite app_nil_r in H.
      apply in_slot_channels in H as [x [y [z [Hx [Hy [Hz H]]]]]].
      destruct Hx as [<-|[]]. apply in_range1 in Hy, Hz. symmetry in H.
      destruct Hsmall as [Hr|Hc].
      * exact (not_1971_by_row y z ltac:(lia) H).
      * exact (not_1971_by_column y z ltac:(lia) H).
    + apply (range_length ["1"] [r] [c]) in H; [cbn in H; lia|].
      intros id [<-|[]]. left. reflexivity.
    + cbn in H. repeat destruct H as [H|H]; try discriminate H. exact H.
    + cbn in H. repeat destruct H as [H|H]; try discriminate H. exact H.
Qed.
(** *** Every violation is rejected *)

Lemma for_guard {A : Type} (p : A -> bool) (e : exn) (l : list A) (w : World) :
  for_ l (fun a => if p a then raise e else ret tt) w
  = (if existsb p l then Raise e else Ok tt, w).
Proof.
  induction l as [|a l IH]; [reflexivity|].
  cbn [for_ existsb]. unfold bind at 1.
  destruct (p a); [reflexivity|]. cbn [orb ret]. exact IH.
Qed.

Lemma for_advise {A : Type} (p : A -> bool) (msg : A -> string) (l : list A) :
  forall w : World,
  for_ l (fun a => if p a then warn (msg a) else ret tt) w
  = (Ok tt, add_warnings w (map msg (filter p l))).
Proof.
  induction l as [|a l IH]; intros w.
  - cbn. unfold ret, add_warnings. rewrite app_nil_r. destruct w; reflexivity.
  - cbn [for_ filter]. unfold bind at 1. destruct (p a).
    + cbn [warn]. rewrite IH. unfold add_warnings. cbn.
      rewrite <- app_assoc. reflexivity.
    + cbn [ret]. apply IH.
Qed.

Lemma value_qfor_guard {A : Type} (p : A -> bool) (e : exn) (l : list A)
  (d : Dev) :
  value (qfor l (fun a => if p a then qraise e else qret tt)) d
  = if existsb p l then Raise e else Ok tt.
Proof.
  induction l as [|a l IH]; [reflexivity|].
  cbn [qfor existsb]. rewrite value_bind.
  destruct (p a); [reflexivity|]. exact IH.
Qed.

Section Rejections.

Variable w : World.
Variable ids : list string.
Variables rs cs : list Z.
Variable states : list Interlock.
Hypothesis Hids : value _get_slot_ids (dev w) = Ok ids.
Hypothesis Hrows : value _get_number_of_rows (dev w) = Ok rs.
Hypothesis Hcols : value _get_number_of_columns (dev w) = Ok cs.
Hypothesis Hstates : value get_interlock_state (dev w) = Ok states.

Lemma value_validator_here (val : string) (w0 : World) :
  dev w0 = dev w ->
  query (_validator val) w0
  = (Ok (valid ids rs cs val), after_asks w0 (asked (_validator val) (dev w0))).
Proof.
  intros Hd. rewrite query_run, Hd.
  rewrite (value_validator _ ids rs cs Hids Hrows Hcols). reflexivity.
Qed.

Lemma query_rejected {A : Type} (q : Q A) (e : exn) :
  value q (dev w) = Raise e -> is_rejection e = true ->
  rejected w (query q ;; ret tt).
Proof.
  intros Hv He. exists e. eexists. split; [|exact He].
  unfold bind. rewrite query_run, Hv. reflexivity.
Qed.

Lemma query_invalid {A : Type} (q : Q A) (msg : string) :
  value q (dev w) = Raise (Keithley3706AInvalidValue msg) ->
  rejected w (query q ;; ret tt).
Proof. intros Hv. exact (query_rejected q _ Hv eq_refl). Qed.

Lemma query_unknown_slot {A : Type} (q : Q A) (msg : string) :
  value q (dev w) = Raise (Keithley3706AUnknownOrEmptySlot msg) ->
  rejected w (query q ;; ret tt).
Proof. intros Hv. exact (query_rejected q _ Hv eq_refl). Qed.

Lemma guarded_write_rejected (val msg cmd : string) :
  valid ids rs cs val = false ->
  rejected w (ok <- query (_validator val) ;;
            if negb ok then raise (Keithley3706AInvalidValue msg)
            else write cmd).
Proof.
  intros Hv. unfold rejected.
  rewrite (bind_ok _ _ _ _ _ (value_validator_here val w eq_refl)), Hv.
  eexists. eexists. split; reflexivity.
Qed.

Lemma exclusive_rejected (val m1 m2 cmd : string) :
  mem val (slot_names ids) || String.eqb val EmptyString
  || negb (valid ids rs cs val) = true ->
  rejected w
    (names <- query _get_slot_names ;;
     let slots := "allslots" :: names in
     if mem val slots then raise (Keithley3706AInvalidValue m1)
     else if String.eqb val EmptyString then
       raise (Keithley3706AInvalidValue m2)
     else
       ok <- query (_validator val) ;;
       if negb ok then
         raise (Keithley3706AInvalidValue (closable_specifier_msg val))
       else write cmd).
Proof.
  intros Hv. unfold rejected.
  rewrite (bind_ok _ _ w _ (map (fun x => ("slot" ++ x)%string) ids))
    by (rewrite query_run, (value_get_slot_names _ _ Hids); reflexivity).
  cbv zeta. fold (slot_names ids).
  destruct (mem val (slot_names ids)).
  { eexists. eexists. split; reflexivity. }
  destruct (String.eqb val EmptyString).
  { eexists. eexists. split; reflexivity. }
  cbn [orb] in Hv. apply negb_true_iff in Hv.
  erewrite bind_ok by (apply value_validator_here; reflexivity). rewrite Hv.
  eexists. eexists. split; reflexivity.
Qed.

Lemma violation_rejected (c : call) :
  violates ids rs cs c = true -> rejected w (run c).
Proof.
  destruct c as [val|val|val|val|val|val|val|val|val|val delay|val
                 |val backplane|val|slot]; cbn [violates run]; intros Hv.
  - apply negb_true_iff in Hv. apply guarded_write_rejected. exact Hv.
  - apply negb_true_iff in Hv. apply guarded_write_rejected. exact Hv.
  - destruct (mem val (slot_names ids)) eqn:Hslot.
    + destruct (close_channel_slot_name w ids rs cs Hids Hrows Hcols val Hslot)
        as [w' Hrun].
      eexists. exists w'. split; [exact Hrun|reflexivity].
    + cbn [orb] in Hv. apply negb_true_iff in Hv.
      destruct (close_channel_invalid w ids rs cs Hids Hrows Hcols val Hslot Hv)
        as [w' Hrun].
      eexists. exists w'. split; [exact Hrun|reflexivity].
  - apply exclusive_rejected. exact Hv.
  - apply exclusive_rejected. exact Hv.
  - unfold get_closed_channels. destruct (String.eqb val EmptyString).
    + eapply query_invalid. reflexivity.
    + cbn [orb] in Hv. apply negb_true_iff in Hv. eapply query_invalid.
      rewrite value_bind, (value_validator _ ids rs cs Hids Hrows Hcols).
      fold (valid ids rs cs val). rewrite Hv. reflexivity.
  - apply negb_true_iff in Hv. apply guarded_write_rejected. exact Hv.
  - apply negb_true_iff in Hv. eapply query_invalid.
    unfold get_forbidden_channels.
    rewrite value_bind, (value_validator _ ids rs cs Hids Hrows Hcols).
    fold (valid ids rs cs val). rewrite Hv. reflexivity.
  - apply negb_true_iff in Hv. apply guarded_write_rejected. exact Hv.
  - unfold set_delay, rejected.
    rewrite (bind_ok _ _ w _ (backplane_names ids))
      by (rewrite query_run, (value_get_analog_backplane_specifiers _ _ Hids);
          reflexivity).
    cbv zeta. unfold bind at 1. rewrite for_guard.
    fold (names_backplane ids val).
    destruct (names_backplane ids val).
    { eexists. eexists. split; reflexivity. }
    cbn [orb] in Hv. apply negb_true_iff in Hv.
    erewrite bind_ok by (apply value_validator_here; reflexivity). rewrite Hv.
    eexists. eexists. split; reflexivity.
  - unfold get_delay.
    destruct (names_backplane ids val) eqn:Hb.
    + eapply query_invalid.
      rewrite value_bind, (value_get_analog_backplane_specifiers _ _ Hids).
      cbv zeta. rewrite value_bind, value_qfor_guard.
      fold (names_backplane ids val). rewrite Hb. reflexivity.
    + cbn [orb] in Hv. apply negb_true_iff in Hv.
      eapply query_invalid.
      rewrite value_bind, (value_get_analog_backplane_specifiers _ _ Hids).
      cbv zeta. rewrite value_bind, value_qfor_guard.
      fold (names_backplane ids val). rewrite Hb.
      rewrite value_bind, (value_validator _ ids rs cs Hids Hrows Hcols).
      fold (valid ids rs cs val). rewrite Hv. reflexivity.
  - unfold set_backplane, rejected.
    rewrite (bind_ok _ _ w _ states)
      by (rewrite query_run, Hstates; reflexivity).
    rewrite (bind_ok _ _ _ _ (backplane_names ids))
      by (rewrite query_run; cbn [dev after_asks];
          rewrite (value_get_analog_backplane_specifiers _ _ Hids);
          reflexivity).
    cbv zeta. unfold bind at 1. rewrite for_advise.
    unfold bind at 1. rewrite for_guard.
    fold (names_backplane ids val).
    destruct (names_backplane ids val).
    { eexists. eexists. split; reflexivity. }
    cbn [orb] in Hv.
    erewrite bind_ok by (apply value_validator_here; reflexivity).
    destruct (valid ids rs cs val).
    2: { eexists. eexists. split; reflexivity. }
    cbn [negb orb] in *. unfold bind at 1. rewrite for_guard, Hv.
    eexists. eexists. split; reflexivity.
  - unfold get_backplane.
    destruct (names_backplane ids val) eqn:Hb.
    + eapply query_invalid.
      rewrite value_bind, (value_get_analog_backplane_specifiers _ _ Hids).
      cbv zeta. rewrite value_bind, value_qfor_guard.
      fold (names_backplane ids val). rewrite Hb. reflexivity.
    + cbn [orb] in Hv. apply negb_true_iff in Hv.
      eapply query_invalid.
      rewrite value_bind, (value_get_analog_backplane_specifiers _ _ Hids).
      cbv zeta. rewrite value_bind, value_qfor_guard.
      fold (names_backplane ids val). rewrite Hb.
      rewrite value_bind, (value_validator _ ids rs cs Hids Hrows Hcols).
      fold (valid ids rs cs val). rewrite Hv. reflexivity.
  - eapply query_unknown_slot.
    unfold get_channels_by_slot. rewrite value_bind, Hids, Hv. reflexivity.
Qed.

Lemma batch_unknown_slot (b : batch) :
  mem (batch_slot b) ids = false ->
  exists w' : World,
    run_batch b w
    = (Raise (Keithley3706AUnknownOrEmptySlot (unknown_slot_msg ids)), w') /\
    no_write w w'.
Proof.
  intros Hslot.
  exists (after_asks w (asked _get_slot_ids (dev w))).
  split.
  - destruct b; cbn [run_batch batch_slot] in *;
      unfold connect_row_to_columns, disconnect_row_from_columns,
        connect_column_to_rows, disconnect_column_from_rows,
        _connect_or_disconnect_row_to_columns,
        _connect_or_disconnect_column_to_rows;
      cbn [mem existsb String.eqb Ascii.eqb Bool.eqb orb negb];
      (rewrite (bind_ok _ _ w _ ids) by (rewrite query_run, Hids; reflexivity));
      cbv zeta; rewrite Hslot; reflexivity.
  - split; [reflexivity|]. eexists. reflexivity.
Qed.

End Rejections.

(** *** The row and column helpers *)

Lemma sends_write (cmd : string) : sends cmd (write cmd).
Proof.
  intros w w' H. inversion H; subst. cbn [trace]. unfold writes.
  rewrite filter_app. reflexivity.
Qed.

Lemma sends_raise (cmd : string) (e : exn) : sends cmd (raise e).
Proof. intros w w' H. discriminate H. Qed.

Lemma sends_bind {A : Type} (cmd : string) (m : M A) (k : A -> M unit) :
  writes_nothing m -> (forall a : A, sends cmd (k a)) -> sends cmd (bind m k).
Proof.
  intros Hm Hk w w' H. unfold bind in H.
  destruct (m w) as [[a|e] w1] eqn:Hrun; [|discriminate H].
  rewrite (Hk a _ _ H), (no_write_writes _ _ (Hm _ _ _ Hrun)). reflexivity.
Qed.

Ltac sending :=
  repeat first
    [ apply sends_write
    | apply sends_raise
    | apply sends_bind; [solve [quiet]|intros ?]
    | match goal with
      | |- sends _ (if ?b then _ else _) => destruct b
      end ].

Lemma open_channel_sends (val : string) :
  sends (open_command val) (open_channel val).
Proof. unfold open_channel, open_command. sending. Qed.

Lemma close_channel_sends (val : string) :
  sends (close_command val) (close_channel val).
Proof.
  unfold close_channel, close_command, _warn_on_disengaged_interlocks,
    check_interlock.
  sending.
Qed.

(** A loop of commands, one per channel: when it stops, the commands of the
    channels before the one that failed have been sent, and no other. *)
Lemma command_loop (cmd : string -> string) (op : string -> M unit) :
  (forall channel : string, sends (cmd channel) (op channel)) ->
  (forall channel : string, fails_before_writing (op channel)) ->
  forall (l : list string) (w w' : World) (r : outcome unit),
  for_ l op w = (r, w') ->
  exists k : nat,
    (k <= List.length l)%nat /\
    writes (trace w')
    = writes (trace w) ++ map (fun channel => EvWrite (cmd channel)) (firstn k l)
    /\ match r with
       | Ok _ => k = List.length l
       | Raise _ => (k < List.length l)%nat
       end.
Proof.
  intros Hsend Hfail. induction l as [|channel l IH]; intros w w' r H.
  - inversion H; subst. exists 0%nat. cbn. rewrite app_nil_r. auto.
  - cbn [for_] in H. unfold bind in H.
    destruct (op channel w) as [[[]|e] w1] eqn:Hop.
    + destruct (IH _ _ _ H) as [k [Hk [Hw Hr]]]. exists (S k).
      split; [cbn; lia|]. split.
      * rewrite Hw, (Hsend channel _ _ Hop). cbn [firstn map].
        rewrite <- app_assoc. reflexivity.
      * destruct r; cbn [List.length]; lia.
    + inversion H; subst. exists 0%nat. split; [lia|]. split.
      * cbn. rewrite app_nil_r.
        apply no_write_writes. exact (Hfail channel _ _ _ Hop).
      * cbn. lia.
Qed.

Lemma run_batch_prefix (b : batch) (w w' : World) (r : outcome (list string)) :
  run_batch b w = (r, w') ->
  exists k : nat,
    (k <= List.length (batch_channels b))%nat /\
    writes (trace w')
    = writes (trace w)
      ++ map (fun channel => EvWrite (batch_command b channel))
             (firstn k (batch_channels b)) /\
    (forall channels : list string,
       r = Ok channels ->
       channels = batch_channels b /\ k = List.length (batch_channels b)).
Proof.
  assert (Hnone : forall (e : exn) (w1 : World),
            no_write w w1 -> (Raise e, w1) = (r, w') ->
            exists k : nat,
              (k <= List.length (batch_channels b))%nat /\
              writes (trace w')
              = writes (trace w)
                ++ map (fun channel => EvWrite (batch_command b channel))
                       (firstn k (batch_channels b)) /\
              (forall channels : list string,
                 r = Ok channels ->
                 channels = batch_channels b /\
                 k = List.length (batch_channels b))).
  { intros e w1 Hq Heq. injection Heq as <- <-. exists 0%nat.
    split; [lia|]. split.
    - cbn. rewrite app_nil_r. apply no_write_writes. exact Hq.
    - intros channels Hf. discriminate Hf. }
  assert (Hloop : forall (op : string -> M unit) (w1 : World),
            no_write w w1 ->
            (forall channel, sends (batch_command b channel) (op channel)) ->
            (forall channel, fails_before_writing (op channel)) ->
            (for_ (batch_channels b) op ;; ret (batch_channels b)) w1 = (r, w') ->
            exists k : nat,
              (k <= List.length (batch_channels b))%nat /\
              writes (trace w')
              = writes (trace w)
                ++ map (fun channel => EvWrite (batch_command b channel))
                       (firstn k (batch_channels b)) /\
              (forall channels : list string,
                 r = Ok channels ->
                 channels = batch_channels b /\
                 k = List.length (batch_channels b))).
  { intros op w1 Hq Hsend Hfail H. unfold bind in H.
    destruct (for_ (batch_channels b) op w1) as [[[]|e] w2] eqn:Hfor;
      destruct (command_loop _ op Hsend Hfail _ _ _ _ Hfor) as [k [Hk [Hw Hr]]];
      cbn [ret] in H; injection H as <- <-; exists k;
      (split; [exact Hk|]);
      (split; [rewrite Hw, (no_write_writes _ _ Hq); reflexivity|]).
    - intros channels [= <-]. split; [reflexivity|exact Hr].
    - intros channels Hf. discriminate Hf. }
  assert (Hq : no_write w (after_asks w (asked _get_slot_ids (dev w)))).
  { split; [reflexivity|]. eexists. reflexivity. }
  destruct b; cbn [run_batch];
    unfold connect_row_to_columns, disconnect_row_from_columns,
      connect_column_to_rows, disconnect_column_from_rows,
      _connect_or_disconnect_row_to_columns,
      _connect_or_disconnect_column_to_rows;
    cbn [mem existsb String.eqb Ascii.eqb Bool.eqb orb negb];
    unfold bind at 1; rewrite query_run;
    (destruct (value _get_slot_ids (dev w)) as [slots|e];
     [|intros H; exact (Hnone _ _ Hq H)]);
    cbv zeta;
    (destruct (negb (mem _ slots)); [intros H; exact (Hnone _ _ Hq H)|]);
    intros H; refine (Hloop _ _ Hq _ _ H); intros channel;
    first [ exact (open_channel_sends channel)
          | exact (close_channel_sends channel)
          | exact (run_fails_before_writing (Call_open_channel channel))
          | exact (run_fails_before_writing (Call_close_channel channel)) ].
Qed.


(** C6, as amended.  With an inventory and interlock states the driver can
    read, every precondition violation of a specifier-taking call ends the
    call in [Keithley3706AInvalidValue] or [Keithley3706AUnknownOrEmptySlot].
    Whenever such a call raises, the instrument is in the state it was in
    and the driver has sent it no command: the log has grown by queries only,
    those with which the driver reads the inventory, the forbidden list and
    the interlock states.  The exception ends the call; nothing is sent
    again.  The empty specifier of [get_closed_channels] is rejected before
    anything crosses the session.  A row or column helper rejects a slot
    that is not installed before it sends a command; past that check it
    sends one command per channel, and when it stops the commands of the
    channels before the rejected one have been sent. *)
Theorem rejections_precede_the_command (w : World) (ids : list string)
  (rs cs : list Z) (states : list Interlock) :
  value _get_slot_ids (dev w) = Ok ids ->
  value _get_number_of_rows (dev w) = Ok rs ->
  value _get_number_of_columns (dev w) = Ok cs ->
  value get_interlock_state (dev w) = Ok states ->
  (forall c : call,
     violates ids rs cs c = true ->
     exists (e : exn) (w' : World),
       run c w = (Raise e, w') /\ is_rejection e = true /\
       no_write w w' /\ writes (trace w') = writes (trace w)) /\
  (forall (c : call) (e : exn) (w' : World),
     run c w = (Raise e, w') ->
     no_write w w' /\ writes (trace w') = writes (trace w)) /\
  run (Call_get_closed_channels EmptyString) w
  = (Raise (Keithley3706AInvalidValue "Argument cannot be an empty string."), w)
  /\
  (forall b : batch,
     mem (batch_slot b) ids = false ->
     exists w' : World,
       run_batch b w
       = (Raise (Keithley3706AUnknownOrEmptySlot (unknown_slot_msg ids)), w') /\
       no_write w w') /\
  (forall (b : batch) (r : outcome (list string)) (w' : World),
     run_batch b w = (r, w') ->
     exists k : nat,
       (k <= List.length (batch_channels b))%nat /\
       writes (trace w')
       = writes (trace w)
         ++ map (fun channel => EvWrite (batch_command b channel))
                (firstn k (batch_channels b)) /\
       (forall channels : list string,
          r = Ok channels ->
          channels = batch_channels b /\ k = List.length (batch_channels b))).
Proof.
  intros Hids Hrows Hcols Hstates.
  assert (Hquiet : forall (c : call) (e : exn) (w' : World),
            run c w = (Raise e, w') ->
            no_write w w' /\ writes (trace w') = writes (trace w)).
  { intros c e w' H. pose proof (run_fails_before_writing c w w' e H) as Hn.
    split; [exact Hn|apply no_write_writes; exact Hn]. }
  split; [|split; [exact Hquiet|split; [|split]]].
  - intros c Hv.
    destruct (violation_rejected w ids rs cs states Hids Hrows Hcols Hstates c Hv)
      as [e [w' [Hrun He]]].
    exists e, w'. destruct (Hquiet c e w' Hrun) as [Hn Hw].
    split; [exact Hrun|]. split; [exact He|]. split; [exact Hn|exact Hw].
  - cbn [run]. unfold bind. rewrite query_run. cbn.
    unfold after_asks. cbn. rewrite app_nil_r. destruct w; reflexivity.
  - intros b Hslot. exact (batch_unknown_slot w ids Hids b Hslot).
  - intros b r w' H. exact (run_batch_prefix b w w' r H).
Qed.

(** *** Further properties of the inventory *)

Lemma asked_bind {A B : Type} (q : Q A) (k : A -> Q B) (d : Dev) :
  asked (qbind q k) d =
  asked q d ++ match value q d with
               | Ok a => asked (k a) d
               | Raise _ => []
               end.
Proof.
  unfold asked, value, qbind. destruct (q d) as [[a|e] log1]; cbn [fst snd].
  - destruct (k a d). reflexivity.
  - rewrite app_nil_r. reflexivity.
Qed.

Lemma value_qlift {A : Type} (o : outcome A) (d : Dev) : value (qlift o) d = o.
Proof. reflexivity. Qed.

Lemma asked_qlift {A : Type} (o : outcome A) (d : Dev) : asked (qlift o) d = [].
Proof. reflexivity. Qed.

Lemma asked_ret {A : Type} (a : A) (d : Dev) : asked (qret a) d = [].
Proof. reflexivity. Qed.

Lemma asked_ask (cmd : string) (d : Dev) :
  asked (ask cmd) d
  = [(("print(" ++ cmd ++ ")")%string, dev_ask ("print(" ++ cmd ++ ")") d)].
Proof. reflexivity. Qed.

Lemma scan_slots_cards (d : Dev) (slots : list Z) :
  match value (scan_slots slots) d with
  | Ok cards =>
      map (card_of d) (filter (filled d) slots) = map Ok cards /\
      asked (scan_slots slots) d
      = map (fun i => (idn_query i, idn_reply d i)) slots
  | Raise e =>
      exists i : Z,
        In i (filter (filled d) slots) /\ card_of d i = Raise e /\
        e = ValueError "wrong number of values to unpack (expected 4)"
  end.
Proof.
  induction slots as [|i rest IH]; [split; reflexivity|].
  cbn [scan_slots filter map].
  rewrite value_bind, asked_bind, value_ask, asked_ask.
  change (dev_ask ("print(" ++ ("slot[" ++ str i ++ "].idn") ++ ")") d)
    with (idn_reply d i).
  change ("print(" ++ ("slot[" ++ str i ++ "].idn") ++ ")")%string
    with (idn_query i).
  change (negb (String.eqb (idn_reply d i) "Empty Slot")) with (filled d i).
  destruct (filled d i) eqn:Hf.
  - rewrite value_bind, asked_bind, value_qlift, asked_qlift. cbn [app].
    assert (Hcard : card_of d i
                    = match unpack4 (map str_strip (split "," (idn_reply d i)))
                      with
                      | Ok (a, b, c, e) =>
                          Ok {| slot_no := str i; model := a; mtype := b;
                                firmware := c; serial := e |}
                      | Raise e => Raise e
                      end).
    { unfold card_of, unpack4.
      destruct (map str_strip (split "," (idn_reply d i)))
        as [|a [|b [|c [|e [|? ?]]]]]; reflexivity. }
    destruct (unpack4 (map str_strip (split "," (idn_reply d i))))
      as [[[[a b] c] e]|e] eqn:Hfields.
    + rewrite value_bind, asked_bind.
      destruct (value (scan_slots rest) d) as [cards|e0].
      * destruct IH as [Hcards Hasked]. rewrite value_ret. split.
        -- cbn [map]. rewrite Hcard, Hcards. reflexivity.
        -- rewrite asked_ret, app_nil_r, Hasked. reflexivity.
      * destruct IH as [j [Hj Hj']]. exists j.
        split; [right; exact Hj|exact Hj'].
    + exists i. split; [left; reflexivity|]. split; [exact Hcard|].
      unfold unpack4 in Hfields.
      destruct (map str_strip (split "," (idn_reply d i)))
        as [|a [|b [|c [|e1 [|? ?]]]]]; try discriminate Hfields;
        injection Hfields as <-; reflexivity.
  - destruct (value (scan_slots rest) d) as [cards|e0].
    + destruct IH as [Hcards Hasked]. split; [exact Hcards|].
      cbn [app]. rewrite Hasked. reflexivity.
    + exact IH.
Qed.

(** X8.  [get_switch_cards] asks each of the six slots for its
    identification, in order.  When it returns, its entries are those of the
    slots that did not answer [Empty Slot], in slot order, each with the four
    stripped fields of the reply; it raises [ValueError] when the reply of
    such a slot does not have exactly four comma-separated fields. *)
Theorem get_switch_cards_lists_filled_slots (d : Dev) :
  match value get_switch_cards d with
  | Ok cards =>
      map (card_of d) (filter (filled d) [1; 2; 3; 4; 5; 6]%Z) = map Ok cards /\
      map slot_no cards = map str (filter (filled d) [1; 2; 3; 4; 5; 6]%Z) /\
      asked get_switch_cards d
      = map (fun i => (idn_query i, idn_reply d i)) [1; 2; 3; 4; 5; 6]%Z
  | Raise e =>
      exists i : Z,
        (1 <= i <= 6)%Z /\ filled d i = true /\ card_of d i = Raise e /\
        e = ValueError "wrong number of values to unpack (expected 4)"
  end.
Proof.
  unfold get_switch_cards.
  pose proof (scan_slots_cards d [1; 2; 3; 4; 5; 6]%Z) as H.
  destruct (value (scan_slots [1; 2; 3; 4; 5; 6]%Z) d) as [cards|e].
  - destruct H as [Hcards Hasked]. split; [exact Hcards|]. split; [|exact Hasked].
    clear Hasked. revert cards Hcards.
    induction (filter (filled d) [1; 2; 3; 4; 5; 6]%Z) as [|i l IH];
      intros cards H; destruct cards as [|c cards]; try discriminate H;
      [reflexivity|].
    cbn [map] in *. injection H as Hc Hrest. rewrite (IH cards Hrest).
    f_equal. unfold card_of in Hc.
    destruct (map str_strip (split "," (idn_reply d i)))
      as [|a [|b [|c0 [|e [|? ?]]]]]; try discriminate Hc.
    injection Hc as <-. reflexivity.
  - destruct H as [i [Hi [Hcard He]]]. exists i.
    apply filter_In in Hi as [Hin Hf].
    split; [|split; [exact Hf|split; [exact Hcard|exact He]]].
    cbn in Hin. lia.
Qed.

Lemma length_product (xs ys zs : list string) :
  List.length (product xs ys zs)
  = (List.length xs * (List.length ys * List.length zs))%nat.
Proof.
  unfold product. induction xs as [|x xs IH]; [reflexivity|].
  cbn [flat_map List.length]. rewrite length_app, IH.
  assert (Hrow : List.length
                   (flat_map (fun y => map (fun z => [x; y; z]) zs) ys)
                 = (List.length ys * List.length zs)%nat).
  { clear IH. induction ys as [|y ys IHy]; [reflexivity|].
    cbn [flat_map List.length]. rewrite length_app, length_map, IHy.
    reflexivity. }
  rewrite Hrow. lia.
Qed.

Lemma length_range1 (n : Z) : List.length (range1 n) = Z.to_nat n.
Proof. unfold range1. rewrite length_map, length_seq. reflexivity. Qed.

Lemma length_slot_channels (slot : string) (r c : Z) :
  In slot slot_digits ->
  List.length (slot_channels slot r c) = card_size (r, c).
Proof.
  intros Hd. destruct (slot_digit_facts slot Hd) as [Hchars _].
  unfold slot_channels, card_size.
  rewrite length_map, length_product, Hchars, !length_map, !length_range1.
  cbn [List.length fst snd]. lia.
Qed.

Lemma length_channel_names (slot_id : list string) :
  (forall id : string, In id slot_id -> In id slot_digits) ->
  forall rows columns : list Z,
  List.length rows = List.length slot_id ->
  List.length columns = List.length slot_id ->
  List.length (channel_names slot_id rows columns)
  = list_sum (map card_size (combine rows columns)).
Proof.
  induction slot_id as [|slot rest IH]; intros Hd rows columns Hr Hc.
  - destruct rows; [reflexivity|discriminate Hr].
  - destruct rows as [|r rows]; [discriminate Hr|].
    destruct columns as [|c columns]; [discriminate Hc|].
    cbn [channel_names combine map list_sum]. rewrite length_app.
    rewrite length_slot_channels by (apply Hd; left; reflexivity).
    rewrite IH; [reflexivity| |injection Hr; auto|injection Hc; auto].
    intros id Hid. apply Hd. right. exact Hid.
Qed.

(** X9.  With an inventory the driver can read, [get_channels] returns as
    many names as the installed cards have matrix channels: rows times
    columns for each card, added up over the slots. *)
Theorem get_channels_counts_every_card (d : Dev) (ids : list string)
  (rs cs : list Z) :
  value _get_slot_ids d = Ok ids ->
  value _get_number_of_rows d = Ok rs ->
  value _get_number_of_columns d = Ok cs ->
  exists channels : list string,
    value get_channels d = Ok channels /\
    List.length channels = list_sum (map card_size (combine rs cs)) /\
    List.length rs = List.length ids /\ List.length cs = List.length ids.
Proof.
  intros Hids Hrows Hcols. exists (channel_names ids rs cs).
  pose proof (rows_length d ids rs Hids Hrows) as Hr.
  pose proof (columns_length d ids cs Hids Hcols) as Hc.
  split; [exact (value_get_channels d ids rs cs Hids Hrows Hcols)|].
  split; [|split; assumption].
  apply length_channel_names; [|exact Hr|exact Hc].
  exact (slot_ids_digits d ids Hids).
Qed.

(** X10.  [get_channels_by_slot] builds the names of an installed slot from
    the rows and columns of the first installed card, whichever slot is
    asked for: the result is the slot number followed by every row from 1
    to the rows of that first card and every column from 1 to its columns,
    padded to two digits. *)
Theorem get_channels_by_slot_reads_first_card (d : Dev) (ids : list string)
  (rs cs : list Z) (slot_no : Z) :
  value _get_slot_ids d = Ok ids ->
  value _get_number_of_rows d = Ok rs ->
  value _get_number_of_columns d = Ok cs ->
  In (str slot_no) ids ->
  exists (r c : Z) (rs' cs' : list Z) (channels : list string),
    rs = r :: rs' /\ cs = c :: cs' /\
    value (get_channels_by_slot slot_no) d = Ok channels /\
    List.length channels = (Z.to_nat r * Z.to_nat c)%nat /\
    (forall e : string,
       In e channels <->
       exists y z : Z,
         (1 <= y <= r)%Z /\ (1 <= z <= c)%Z /\
         e = (str slot_no ++ str y ++ column_name z)%string).
Proof.
  intros Hids Hrows Hcols Hin.
  destruct (first_card d ids rs cs Hids Hrows Hcols _ Hin)
    as [r [c [rs' [cs' [Er Ec]]]]].
  exists r, c, rs', cs', (slot_channels (str slot_no) r c).
  pose proof (slot_ids_digits d ids Hids _ Hin) as Hd.
  destruct (slot_digit_facts _ Hd) as [Hchars _].
  split; [exact Er|]. split; [exact Ec|]. split.
  { exact (value_get_channels_by_slot d ids rs cs Hids Hrows Hcols
             (str slot_no) slot_no r c rs' cs' Hin eq_refl Er Ec). }
  split; [exact (length_slot_channels _ r c Hd)|].
  intros e. rewrite in_slot_channels, Hchars. split.
  - intros [x [y [z [Hx [Hy [Hz ->]]]]]]. destruct Hx as [<-|[]].
    exists y, z. rewrite <- !in_range1. auto.
  - intros [y [z [Hy [Hz ->]]]]. exists (str slot_no), y, z.
    rewrite !in_range1. split; [left; reflexivity|auto].
Qed.

(** X11.  The analog backplane specifiers are six per installed slot.
    Each has four characters, is told apart as a backplane relay by
    [_is_backplane_channel] and passes [_validator] on its own.  The test of
    [_is_backplane_channel] is the second character alone: it also answers
    [True] for a matrix channel of row 9, and raises on anything that does
    not have four characters. *)
Theorem backplane_specifiers_read_as_backplane (d : Dev) (ids : list string)
  (rs cs : list Z) :
  value _get_slot_ids d = Ok ids ->
  value _get_number_of_rows d = Ok rs ->
  value _get_number_of_columns d = Ok cs ->
  exists backplanes : list string,
    value get_analog_backplane_specifiers d = Ok backplanes /\
    List.length backplanes = (6 * List.length ids)%nat /\
    (forall b : string,
       In b backplanes ->
       String.length b = 4%nat /\
       _is_backplane_channel b = Ok true /\
       value (_validator b) d = Ok true) /\
    (forall slot column : string,
       In slot ids -> String.length column = 2%nat ->
       _is_backplane_channel (slot ++ "9" ++ column) = Ok true) /\
    (forall channel : string,
       String.length channel <> 4%nat ->
       exists msg : string,
         _is_backplane_channel channel = Raise (Keithley3706AInvalidValue msg)).
Proof.
  intros Hids Hrows Hcols. exists (backplane_names ids).
  pose proof (slot_ids_digits d ids Hids) as Hd.
  assert (Hshape : forall slot rest : string,
            In slot ids -> String.length rest = 2%nat ->
            String.length (slot ++ "9" ++ rest) = 4%nat /\
            _is_backplane_channel (slot ++ "9" ++ rest) = Ok true).
  { intros slot rest Hs Hl.
    destruct (slot_digit_facts slot (Hd slot Hs)) as [_ [Hlen _]].
    destruct slot as [|a [|? ?]]; try discriminate Hlen.
    destruct rest as [|x [|y [|? ?]]]; try discriminate Hl.
    split; reflexivity. }
  split; [exact (value_get_analog_backplane_specifiers d ids Hids)|].
  split.
  { unfold backplane_names. rewrite length_map, length_product.
    cbn [List.length]. lia. }
  split; [|split].
  - intros b Hb. pose proof Hb as Hb'.
    unfold backplane_names in Hb. apply in_product in Hb
      as [slot [y [z [Hs [Hy [Hz ->]]]]]].
    destruct Hy as [<-|[]].
    assert (Hz2 : String.length z = 2%nat).
    { repeat destruct Hz as [<-|Hz]; try destruct Hz; reflexivity. }
    destruct (Hshape slot z Hs Hz2) as [Hl Hb].
    split; [exact Hl|]. split; [exact Hb|].
    rewrite (value_validator d ids rs cs Hids Hrows Hcols). f_equal.
    apply all_listed_true.
    assert (Hsplit : split "," (slot ++ "9" ++ z) = [(slot ++ "9" ++ z)%string]).
    { destruct (slot_digit_facts slot (Hd slot Hs)) as [_ [Hlen _]].
      clear - Hlen Hz Hd Hs. pose proof (Hd slot Hs) as Hdig.
      repeat destruct Hdig as [<-|Hdig]; try destruct Hdig;
        repeat destruct Hz as [<-|Hz]; try destruct Hz; reflexivity. }
    rewrite Hsplit. constructor; [|constructor].
    unfold legal_tokens. rewrite !in_app_iff. right. right. right. exact Hb'.
  - intros slot column Hs Hl. exact (proj2 (Hshape slot column Hs Hl)).
  - intros channel Hl. eexists. exact (is_backplane_other channel Hl).
Qed.

Lemma value_qmap_cases {A B : Type} (f : A -> Q B) (d : Dev) (l : list A) :
  match value (qmap f l) d with
  | Ok bs => Forall2 (fun a b => value (f a) d = Ok b) l bs
  | Raise e => exists a : A, In a l /\ value (f a) d = Raise e
  end.
Proof.
  induction l as [|a l IH]; [constructor|].
  cbn [qmap]. rewrite value_bind.
  destruct (value (f a) d) as [b|e] eqn:Ha.
  - rewrite value_bind. destruct (value (qmap f l) d) as [bs|e].
    + rewrite value_ret. constructor; assumption.
    + destruct IH as [a' [Hin Hr]]. exists a'. split; [right; exact Hin|exact Hr].
  - exists a. split; [left; reflexivity|exact Ha].
Qed.

Lemma interlock_status_known (key : option Z) :
  match interlock_status key with
  | Ok _ => match key with
            | Some z => (0 <= z <= 3)%Z
            | None => True
            end
  | Raise e => e = KeyError /\ exists z : Z, key = Some z /\ ~ (0 <= z <= 3)%Z
  end.
Proof.
  destruct key as [z|]; [|exact I].
  destruct z as [|p|p]; cbn; try lia.
  - do 2 (destruct p as [p|p|]; cbn; try lia;
          try (split; [reflexivity|eexists; split; [reflexivity|lia]])).
  - split; [reflexivity|eexists; split; [reflexivity|lia]].
Qed.

(** X12.  [get_interlock_state] has one entry per installed slot, in slot
    order.  The state of a slot that answers [nil] is the text for a missing
    interlock; otherwise the answer is read as a number, which must be 0,
    1, 2 or 3, and the state is the text of that number.  Any other number
    ends the call in [KeyError] and an answer that is no number in a
    conversion error. *)
Theorem get_interlock_state_reports_each_slot (d : Dev) (ids : list string) :
  value _get_slot_ids d = Ok ids ->
  match value get_interlock_state d with
  | Ok states =>
      Forall2
        (fun slot st =>
           interlock_slot_no st = slot /\
           (interlock_reply d slot = "nil" /\
            interlock_status None = Ok (state st) \/
            interlock_reply d slot <> "nil" /\
            exists z : Z,
              int_of_float_str (interlock_reply d slot) = Some z /\
              (0 <= z <= 3)%Z /\ interlock_status (Some z) = Ok (state st)))
        ids states
  | Raise e =>
      exists slot : string,
        In slot ids /\ interlock_reply d slot <> "nil" /\
        match int_of_float_str (interlock_reply d slot) with
        | Some z => ~ (0 <= z <= 3)%Z /\ e = KeyError
        | None => exists msg : string, e = ConversionError msg
        end
  end.
Proof.
  intros Hids. pose proof (slot_ids_digits d ids Hids) as Hd.
  unfold get_interlock_state. rewrite value_bind, Hids.
  set (body := fun i : string =>
                 (state <- get_interlock_state_by_slot i ;;
                  text <- qlift (interlock_status state) ;;
                  qret {| interlock_slot_no := i; state := text |})%query).
  assert (Hslot : forall slot : string,
            In slot ids ->
            value (get_interlock_state_by_slot slot) d
            = if String.eqb (interlock_reply d slot) "nil" then Ok None
              else match int_of_float_str (interlock_reply d slot) with
                   | Some z => Ok (Some z)
                   | None =>
                       Raise (ConversionError "could not convert string to float")
                   end).
  { intros slot Hs.
    destruct (slot_digit_facts slot (Hd slot Hs)) as [_ [_ [n [Hint Hstr]]]].
    unfold get_interlock_state_by_slot.
    rewrite value_bind, value_qlift, Hint, value_bind, value_ask, Hstr.
    fold (interlock_reply d slot).
    destruct (String.eqb (interlock_reply d slot) "nil"); [reflexivity|].
    rewrite value_bind. unfold int_float.
    destruct (int_of_float_str (interlock_reply d slot)); reflexivity. }
  pose proof (value_qmap_cases body d ids) as H.
  destruct (value (qmap body ids) d) as [states|e].
  - clear Hids. induction H as [|slot st ids' states' Hst _ IH];
      constructor.
    + unfold body in Hst. rewrite value_bind in Hst.
      rewrite (Hslot slot (or_introl eq_refl)) in Hst.
      destruct (String.eqb (interlock_reply d slot) "nil") eqn:Hnil.
      * rewrite value_bind, value_qlift in Hst. cbn [interlock_status] in Hst.
        rewrite value_ret in Hst. injection Hst as <-.
        split; [reflexivity|]. left. apply String.eqb_eq in Hnil.
        split; [exact Hnil|reflexivity].
      * apply String.eqb_neq in Hnil.
        destruct (int_of_float_str (interlock_reply d slot)) as [z|] eqn:Hz;
          [|discriminate Hst].
        rewrite value_bind, value_qlift in Hst.
        pose proof (interlock_status_known (Some z)) as Hk.
        destruct (interlock_status (Some z)) as [text|] eqn:Htext;
          [|discriminate Hst].
        rewrite value_ret in Hst. injection Hst as <-.
        split; [reflexivity|]. right. split; [exact Hnil|].
        exists z. split; [reflexivity|]. split; [exact Hk|exact Htext].
    + apply IH.
      * intros id Hid. apply Hd. right. exact Hid.
      * intros id Hid. apply Hslot. right. exact Hid.
  - destruct H as [slot [Hs Hr]]. exists slot. split; [exact Hs|].
    unfold body in Hr. rewrite value_bind, (Hslot slot Hs) in Hr.
    destruct (String.eqb (interlock_reply d slot) "nil") eqn:Hnil.
    { rewrite value_bind, value_qlift in Hr. discriminate Hr. }
    apply String.eqb_neq in Hnil. split; [exact Hnil|].
    destruct (int_of_float_str (interlock_reply d slot)) as [z|].
    + rewrite value_bind, value_qlift in Hr.
      pose proof (interlock_status_known (Some z)) as Hk.
      destruct (interlock_status (Some z)) as [text|e0].
      * rewrite value_ret in Hr. discriminate Hr.
      * injection Hr as <-. destruct Hk as [-> [z' [[= <-] Hz]]].
        split; [exact Hz|reflexivity].
    + injection Hr as <-. eexists. reflexivity.
Qed.

(** *** Further properties of the calls *)

Lemma ends_with_write (cmd : string) : ends_with cmd (write cmd).
Proof.
  intros w w' H. inversion H; subst. cbn [dev trace].
  split; [reflexivity|]. exists []. reflexivity.
Qed.

Lemma ends_with_raise (cmd : string) (e : exn) : ends_with cmd (raise e).
Proof. intros w w' H. discriminate H. Qed.

Lemma ends_with_bind {A : Type} (cmd : string) (m : M A) (k : A -> M unit) :
  writes_nothing m -> (forall a : A, ends_with cmd (k a)) ->
  ends_with cmd (bind m k).
Proof.
  intros Hm Hk w w' H. unfold bind in H.
  destruct (m w) as [[a|e] w1] eqn:Hrun; [|discriminate H].
  destruct (Hm _ _ _ Hrun) as [Hd [log1 Ht]].
  destruct (Hk a _ _ H) as [Hd' [log2 Ht']].
  split; [rewrite Hd', Hd; reflexivity|].
  exists (log1 ++ log2). rewrite Ht', Ht, map_app, <- !app_assoc. reflexivity.
Qed.

Ltac ending :=
  repeat first
    [ apply ends_with_write
    | apply ends_with_raise
    | apply ends_with_bind; [solve [quiet]|intros ?]
    | match goal with
      | |- ends_with _ (if ?b then _ else _) => destruct b
      end ].

Lemma run_ends_with (c : call) :
  match command c with
  | Some cmd => ends_with cmd (run c)
  | None => writes_nothing (run c)
  end.
Proof.
  destruct c; cbn [command run];
    unfold reset_channel, open_channel, close_channel, exclusive_close,
      exclusive_slot_close, set_forbidden_channels, clear_forbidden_channels,
      set_delay, set_backplane, _warn_on_disengaged_interlocks, check_interlock;
    first [solve [ending] | solve [quiet]].
Qed.

(** X13.  A call that returns has sent exactly one command, the one of its
    name with the specifier quoted inside, and has sent it last: everything
    before it is a query, and the instrument is changed by this command
    alone.  The calls that read ([get_closed_channels],
    [get_forbidden_channels], [get_delay], [get_backplane],
    [get_channels_by_slot]) send no command at all. *)
Theorem a_call_that_returns_has_sent_its_command (c : call) (w w' : World) :
  run c w = (Ok tt, w') ->
  match command c with
  | Some cmd =>
      dev w' = dev_write cmd (dev w) /\
      exists log : list (string * string),
        trace w' = trace w ++ map ask_event log ++ [EvWrite cmd]
  | None =>
      dev w' = dev w /\
      exists log : list (string * string),
        trace w' = trace w ++ map ask_event log
  end.
Proof.
  intros H. pose proof (run_ends_with c) as Hc.
  destruct (command c) as [cmd|].
  - exact (Hc w w' H).
  - exact (Hc w w' _ H).
Qed.

Lemma warns_only_ret (P : string -> Prop) {A : Type} (a : A) :
  warns_only P (ret a).
Proof.
  intros w w' r H. inversion H; subst. exists []. rewrite app_nil_r.
  split; [reflexivity|constructor].
Qed.

Lemma warns_only_raise (P : string -> Prop) {A : Type} (e : exn) :
  warns_only P (@raise A e).
Proof.
  intros w w' r H. inversion H; subst. exists []. rewrite app_nil_r.
  split; [reflexivity|constructor].
Qed.

Lemma warns_only_lift (P : string -> Prop) {A : Type} (o : outcome A) :
  warns_only P (lift o).
Proof.
  intros w w' r H. inversion H; subst. exists []. rewrite app_nil_r.
  split; [reflexivity|constructor].
Qed.

Lemma warns_only_query (P : string -> Prop) {A : Type} (q : Q A) :
  warns_only P (query q).
Proof.
  intros w w' r H. rewrite query_run in H. inversion H; subst.
  exists []. cbn [warned after_asks]. rewrite app_nil_r.
  split; [reflexivity|constructor].
Qed.

Lemma warns_only_write (P : string -> Prop) (cmd : string) :
  warns_only P (write cmd).
Proof.
  intros w w' r H. inversion H; subst. exists []. cbn [warned].
  rewrite app_nil_r. split; [reflexivity|constructor].
Qed.

Lemma warns_only_warn (P : string -> Prop) (msg : string) :
  P msg -> warns_only P (warn msg).
Proof.
  intros Hp w w' r H. inversion H; subst. exists [msg]. cbn [warned].
  split; [reflexivity|constructor; [exact Hp|constructor]].
Qed.

Lemma warns_only_bind (P : string -> Prop) {A B : Type} (m : M A)
  (k : A -> M B) :
  warns_only P m -> (forall a : A, warns_only P (k a)) ->
  warns_only P (bind m k).
Proof.
  intros Hm Hk w w' r H. unfold bind in H.
  destruct (m w) as [[a|e] w1] eqn:Hrun.
  - destruct (Hm _ _ _ Hrun) as [m1 [H1 P1]].
    destruct (Hk a _ _ _ H) as [m2 [H2 P2]].
    exists (m1 ++ m2). rewrite H2, H1, app_assoc.
    split; [reflexivity|apply Forall_app; split; assumption].
  - inversion H; subst. exact (Hm _ _ _ Hrun).
Qed.

Lemma warns_only_for (P : string -> Prop) {A : Type} (l : list A)
  (body : A -> M unit) :
  (forall a : A, warns_only P (body a)) -> warns_only P (for_ l body).
Proof.
  intros Hbody. induction l as [|a l IH]; cbn [for_].
  - apply warns_only_ret.
  - apply warns_only_bind; [apply Hbody|intros _; exact IH].
Qed.

(** X14.  [close_channel] looks the whole specifier up in the forbidden
    list, not its elements: for a specifier of several elements it never
    warns that channels are forbidden to close, whatever the forbidden list
    holds and however the call ends.  The only warnings of such a call are
    those of the interlocks. *)
Theorem close_channel_never_warns_on_lists (val : string) (w w' : World)
  (r : outcome unit) :
  has_comma val ->
  close_channel val w = (r, w') ->
  exists msgs : list string,
    warned w' = warned w ++ msgs /\
    ~ In forbidden_warning msgs /\
    Forall (fun msg =>
              exists slot channel : string,
                In channel (split "," val) /\
                msg = interlock_warning slot channel) msgs.
Proof.
  intros Hc H.
  assert (Hw : warns_only
                 (fun msg =>
                    exists slot channel : string,
                      In channel (split "," val) /\
                      msg = interlock_warning slot channel)
                 (close_channel val)).
  { unfold close_channel, _warn_on_disengaged_interlocks.
    apply warns_only_bind; [apply warns_only_query|intros names].
    apply warns_only_bind; [apply warns_only_query|intros forbidden].
    cbv zeta. destruct (mem val ("allslots" :: names));
      [apply warns_only_raise|].
    apply warns_only_bind; [apply warns_only_query|intros ok].
    destruct (negb ok); [apply warns_only_raise|].
    rewrite (comma_not_listed val forbidden Hc).
    apply warns_only_bind; [apply warns_only_ret|intros _].
    apply warns_only_bind; [|intros _; apply warns_only_write].
    apply warns_only_bind; [apply warns_only_query|intros states].
    cbv zeta.
    assert (Hloop : forall l : list string,
              (forall channel, In channel l -> In channel (split "," val)) ->
              warns_only
                (fun msg =>
                   exists slot channel : string,
                     In channel (split "," val) /\
                     msg = interlock_warning slot channel)
                (for_ l (check_interlock states))).
    { induction l as [|channel l IH]; intros Hl; cbn [for_].
      - apply warns_only_ret.
      - apply warns_only_bind;
          [|intros _; apply IH; intros ch Hch; apply Hl; right; exact Hch].
        unfold check_interlock.
        apply warns_only_bind; [apply warns_only_lift|intros b].
        destruct b; [|apply warns_only_ret].
        apply warns_only_bind; [apply warns_only_lift|intros slot].
        apply warns_only_bind; [apply warns_only_lift|intros st].
        destruct (String.eqb (state st) disengaged); [|apply warns_only_ret].
        apply warns_only_warn. exists (interlock_slot_no st), channel.
        split; [apply Hl; left; reflexivity|reflexivity]. }
    apply Hloop. auto. }
  destruct (Hw w w' r H) as [msgs [Hmsgs Hall]].
  exists msgs. split; [exact Hmsgs|]. split; [|exact Hall].
  intros Hin. rewrite Forall_forall in Hall.
  destruct (Hall _ Hin) as [slot [channel [_ Heq]]]. discriminate Heq.
Qed.

Section Acceptance.

Variable w : World.
Variable ids : list string.
Variables rs cs : list Z.
Variable states : list Interlock.
Hypothesis Hids : value _get_slot_ids (dev w) = Ok ids.
Hypothesis Hrows : value _get_number_of_rows (dev w) = Ok rs.
Hypothesis Hcols : value _get_number_of_columns (dev w) = Ok cs.
Hypothesis Hstates : value get_interlock_state (dev w) = Ok states.

Lemma guarded_write_accepted (val msg cmd : string) :
  valid ids rs cs val = true ->
  exists w' : World,
    (ok <- query (_validator val) ;;
     if negb ok then raise (Keithley3706AInvalidValue msg)
     else write cmd) w = (Ok tt, w').
Proof.
  intros Hv.
  rewrite (bind_ok _ _ _ _ _
             (value_validator_here w ids rs cs Hids Hrows Hcols val w eq_refl)),
    Hv.
  eexists. reflexivity.
Qed.

Lemma exclusive_accepted (val m1 m2 cmd : string) :
  mem val (slot_names ids) || String.eqb val EmptyString
  || negb (valid ids rs cs val) = false ->
  exists w' : World,
    (names <- query _get_slot_names ;;
     let slots := "allslots" :: names in
     if mem val slots then raise (Keithley3706AInvalidValue m1)
     else if String.eqb val EmptyString then
       raise (Keithley3706AInvalidValue m2)
     else
       ok <- query (_validator val) ;;
       if negb ok then
         raise (Keithley3706AInvalidValue (closable_specifier_msg val))
       else write cmd) w = (Ok tt, w').
Proof.
  intros Hv. apply orb_false_iff in Hv as [Hv Hvalid].
  apply orb_false_iff in Hv as [Hslot Hempty].
  apply negb_false_iff in Hvalid.
  rewrite (bind_ok _ _ w _ (map (fun x => ("slot" ++ x)%string) ids))
    by (rewrite query_run, (value_get_slot_names _ _ Hids); reflexivity).
  cbv zeta. fold (slot_names ids). rewrite Hslot, Hempty.
  erewrite bind_ok
    by (apply (value_validator_here w ids rs cs Hids Hrows Hcols); reflexivity).
  rewrite Hvalid. eexists. reflexivity.
Qed.

Lemma query_accepted {A : Type} (q : Q A) (a : A) :
  value q (dev w) = Ok a -> exists w' : World, (query q ;; ret tt) w = (Ok tt, w').
Proof.
  intros Hv. unfold bind. rewrite query_run, Hv. eexists. reflexivity.
Qed.

(** X15.  The rejections are the only way these calls fail.  With an
    inventory and interlock states the driver can read, a call that violates
    none of the preconditions returns normally -- for every call except
    [close_channel], whose interlock check can still raise, and
    [get_delay], which must still parse the reply. *)
Theorem calls_without_violation_return (c : call) :
  violates ids rs cs c = false ->
  (forall val : string, c <> Call_close_channel val) ->
  (forall val : string, c <> Call_get_delay val) ->
  exists w' : World, run c w = (Ok tt, w').
Proof.
  destruct c as [val|val|val|val|val|val|val|val|val|val delay|val
                 |val backplane|val|slot]; cbn [violates run];
    intros Hv Hclose Hdelay.
  - apply negb_false_iff in Hv. apply guarded_write_accepted. exact Hv.
  - apply negb_false_iff in Hv. apply guarded_write_accepted. exact Hv.
  - exfalso. exact (Hclose val eq_refl).
  - apply exclusive_accepted. exact Hv.
  - apply exclusive_accepted. exact Hv.
  - apply orb_false_iff in Hv as [Hempty Hvalid].
    apply negb_false_iff in Hvalid.
    assert (Hq : exists a, value (get_closed_channels val) (dev w) = Ok a).
    { unfold get_closed_channels. rewrite Hempty, value_bind.
      rewrite (value_validator _ ids rs cs Hids Hrows Hcols).
      fold (valid ids rs cs val). rewrite Hvalid. cbn [negb].
      rewrite value_bind, value_ask.
      destruct (String.eqb _ "nil"); eexists; reflexivity. }
    destruct Hq as [a Ha]. exact (query_accepted _ a Ha).
  - apply negb_false_iff in Hv. apply guarded_write_accepted. exact Hv.
  - apply negb_false_iff in Hv.
    apply (query_accepted _ (dev_ask ("print(" ++ ("channel.getforbidden('"
                                       ++ val ++ "')") ++ ")") (dev w))).
    unfold get_forbidden_channels. rewrite value_bind.
    rewrite (value_validator _ ids rs cs Hids Hrows Hcols).
    fold (valid ids rs cs val). rewrite Hv. reflexivity.
  - apply negb_false_iff in Hv. apply guarded_write_accepted. exact Hv.
  - apply orb_false_iff in Hv as [Hback Hvalid].
    apply negb_false_iff in Hvalid. unfold set_delay.
    rewrite (bind_ok _ _ w _ (backplane_names ids))
      by (rewrite query_run,
            (value_get_analog_backplane_specifiers _ _ Hids); reflexivity).
    cbv zeta.
    unfold bind at 1.
    rewrite (for_guard (fun element => mem element (backplane_names ids))).
    fold (names_backplane ids val). rewrite Hback.
    erewrite bind_ok
      by (apply (value_validator_here w ids rs cs Hids Hrows Hcols); reflexivity).
    rewrite Hvalid. eexists. reflexivity.
  - exfalso. exact (Hdelay val eq_refl).
  - apply orb_false_iff in Hv as [Hv Hplanes].
    apply orb_false_iff in Hv as [Hback Hvalid].
    apply negb_false_iff in Hvalid. unfold set_backplane.
    rewrite (bind_ok _ _ w _ states)
      by (rewrite query_run, Hstates; reflexivity).
    rewrite (bind_ok _ _ _ _ (backplane_names ids))
      by (rewrite query_run; cbn [dev after_asks];
          rewrite (value_get_analog_backplane_specifiers _ _ Hids);
          reflexivity).
    cbv zeta.
    unfold bind at 1.
    rewrite (for_advise (fun element => String.eqb (state element) disengaged)
               (fun element => slot_interlock_warning (interlock_slot_no element))).
    unfold bind at 1.
    rewrite (for_guard (fun elem => mem elem (backplane_names ids))).
    fold (names_backplane ids val). rewrite Hback.
    erewrite bind_ok
      by (apply (value_validator_here w ids rs cs Hids Hrows Hcols); reflexivity).
    rewrite Hvalid. cbn [negb].
    unfold bind at 1.
    rewrite (for_guard (fun plane => negb (mem plane (backplane_names ids)))).
    rewrite Hplanes. eexists. reflexivity.
  - apply orb_false_iff in Hv as [Hback Hvalid].
    apply negb_false_iff in Hvalid.
    apply (query_accepted _ (dev_ask ("print(" ++ ("channel.getbackplane('"
                                       ++ val ++ "')") ++ ")") (dev w))).
    unfold get_backplane.
    rewrite value_bind, (value_get_analog_backplane_specifiers _ _ Hids).
    rewrite value_bind.
    rewrite (value_qfor_guard (fun element => mem element (backplane_names ids))).
    fold (names_backplane ids val). rewrite Hback.
    rewrite value_bind, (value_validator _ ids rs cs Hids Hrows Hcols).
    fold (valid ids rs cs val). rewrite Hvalid. reflexivity.
  - apply negb_false_iff in Hv. apply mem_In in Hv.
    destruct (first_card (dev w) ids rs cs Hids Hrows Hcols _ Hv)
      as [r [c [rs' [cs' [Er Ec]]]]].
    apply (query_accepted _ (slot_channels (str slot) r c)).
    exact (value_get_channels_by_slot (dev w) ids rs cs Hids Hrows Hcols
             (str slot) slot r c rs' cs' Hv eq_refl Er Ec).
Qed.

(** X16.  [set_backplane] warns before it checks anything: once the
    interlock states are read, every slot whose interlocks are both
    disengaged gets its warning, whether or not the specifier names that
    slot and whether the call then returns or is rejected.  It emits no
    other warning. *)
Theorem set_backplane_warns_first (val backplane : string) (r : outcome unit)
  (w' : World) :
  set_backplane val backplane w = (r, w') ->
  warned w'
  = warned w
    ++ map (fun st => slot_interlock_warning (interlock_slot_no st))
           (filter is_disengaged states).
Proof.
  unfold set_backplane.
  rewrite (bind_ok _ _ w _ states)
    by (rewrite query_run, Hstates; reflexivity).
  rewrite (bind_ok _ _ _ _ (backplane_names ids))
    by (rewrite query_run; cbn [dev after_asks];
        rewrite (value_get_analog_backplane_specifiers _ _ Hids);
        reflexivity).
  cbv zeta. unfold bind at 1.
  rewrite (for_advise (fun element => String.eqb (state element) disengaged)
             (fun element => slot_interlock_warning (interlock_slot_no element))).
  fold is_disengaged.
  unfold bind at 1.
  rewrite (for_guard (fun elem => mem elem (backplane_names ids))).
  destruct (existsb _ (split "," val)); [intros [= <- <-]; reflexivity|].
  unfold bind at 1. rewrite query_run.
  destruct (value (_validator val) _) as [ok|e];
    [|intros [= <- <-]; reflexivity].
  destruct ok; cbn [negb]; [|intros [= <- <-]; reflexivity].
  unfold bind at 1.
  rewrite (for_guard (fun plane => negb (mem plane (backplane_names ids)))).
  destruct (existsb _ (split "," backplane)); intros [= <- <-]; reflexivity.
Qed.

Lemma empty_not_legal : ~ In EmptyString (legal_tokens ids rs cs).
Proof.
  pose proof (slot_ids_digits _ _ Hids) as Hd.
  unfold legal_tokens. rewrite !in_app_iff. intros [H|[H|[H|H]]].
  - apply in_channel_names in H as [slot [r [c [Hs He]]]].
    destruct (channel_shape ids Hd _ slot r c Hs He) as [_ Hl].
    cbn in Hl. lia.
  - apply (range_length ids rs cs Hd) in H. cbn in H. lia.
  - destruct H as [H|H]; [discriminate H|].
    apply in_map_iff in H as [x [H _]]. discriminate H.
  - unfold backplane_names in H.
    apply in_product in H as [x [y [z [Hx [_ [_ H]]]]]].
    destruct (slot_digit_facts x (Hd x Hx)) as [_ [Hl _]].
    destruct x; [discriminate Hl|discriminate H].
Qed.

(** X17.  An empty element makes a specifier invalid: [_validator] answers
    [False] for the empty string and for every specifier with a leading, a
    trailing or a doubled comma, so that [open_channel], [reset_channel] and
    the forbidden-channel calls reject it with
    [Keithley3706AInvalidValue]. *)
Theorem validator_rejects_empty_elements (val : string) :
  In EmptyString (split "," val) ->
  value (_validator val) (dev w) = Ok false /\
  exists w' : World,
    open_channel val w
    = (Raise (Keithley3706AInvalidValue (any_specifier_msg val)), w') /\
    no_write w w'.
Proof.
  intros Hin.
  assert (Hv : valid ids rs cs val = false).
  { apply all_listed_false. apply Exists_exists.
    exists EmptyString. split; [exact Hin|exact empty_not_legal]. }
  split.
  - rewrite (value_validator _ ids rs cs Hids Hrows Hcols). f_equal. exact Hv.
  - unfold open_channel.
    rewrite (bind_ok _ _ _ _ _
               (value_validator_here w ids rs cs Hids Hrows Hcols val w eq_refl)),
      Hv.
    eexists. split; [reflexivity|].
    split; [reflexivity|]. eexists. reflexivity.
Qed.

Lemma slot_name_valid (name : string) :
  In name (slot_names ids) -> valid ids rs cs name = true.
Proof.
  intros Hin. pose proof (slot_ids_digits _ _ Hids) as Hd.
  assert (Hsplit : split "," name = [name]).
  { destruct Hin as [<-|Hin]; [reflexivity|].
    apply in_map_iff in Hin as [id [<- Hid]].
    pose proof (Hd id Hid) as Hdig.
    repeat destruct Hdig as [<-|Hdig]; try destruct Hdig; reflexivity. }
  unfold valid. rewrite Hsplit. apply all_listed_true.
  constructor; [|constructor].
  unfold legal_tokens. rewrite !in_app_iff. right. right. left. exact Hin.
Qed.

(** X19.  A slot name or ["allslots"] can be opened and reset but not
    closed: with an inventory the driver can read, [open_channel] and
    [reset_channel] send their command for it, while [close_channel],
    [exclusive_close] and [exclusive_slot_close] reject it as a slot before
    they validate anything else, and send nothing. *)
Theorem slots_open_but_do_not_close (name : string) :
  In name (slot_names ids) ->
  (exists w' : World,
     open_channel name w = (Ok tt, w') /\
     writes (trace w')
     = writes (trace w) ++ [EvWrite ("channel.open('" ++ name ++ "')")]) /\
  (exists w' : World,
     reset_channel name w = (Ok tt, w') /\
     writes (trace w')
     = writes (trace w) ++ [EvWrite ("channel.reset('" ++ name ++ "')")]) /\
  (exists w' : World,
     close_channel name w
     = (Raise (Keithley3706AInvalidValue "Slots cannot be closed all together."),
        w') /\
     writes (trace w') = writes (trace w)) /\
  (exists w' : World,
     exclusive_close name w
     = (Raise (Keithley3706AInvalidValue "Slots cannot be exclusively closed."),
        w') /\
     writes (trace w') = writes (trace w)) /\
  (exists w' : World,
     exclusive_slot_close name w
     = (Raise (Keithley3706AInvalidValue "Slots cannot be exclusively closed."),
        w') /\
     writes (trace w') = writes (trace w)).
Proof.
  intros Hin. pose proof (slot_name_valid name Hin) as Hv.
  apply mem_In in Hin.
  assert (Hnames : query _get_slot_names w
                   = (Ok (map (fun x => ("slot" ++ x)%string) ids),
                      after_asks w (asked _get_slot_names (dev w)))).
  { rewrite query_run, (value_get_slot_names _ _ Hids). reflexivity. }
  split; [|split; [|split; [|split]]].
  - destruct (guarded_write_accepted name (any_specifier_msg name)
                ("channel.open('" ++ name ++ "')") Hv) as [w' Hrun].
    exists w'. split; [exact Hrun|].
    exact (open_channel_sends name w w' Hrun).
  - destruct (guarded_write_accepted name (any_specifier_msg name)
                ("channel.reset('" ++ name ++ "')") Hv) as [w' Hrun].
    exists w'. split; [exact Hrun|].
    assert (Hs : sends ("channel.reset('" ++ name ++ "')") (reset_channel name))
      by (unfold reset_channel; sending).
    exact (Hs w w' Hrun).
  - destruct (close_channel_slot_name w ids rs cs Hids Hrows Hcols name Hin)
      as [w' Hrun].
    exists w'. split; [exact Hrun|]. apply no_write_writes.
    exact (run_fails_before_writing (Call_close_channel name) _ _ _ Hrun).
  - unfold exclusive_close. rewrite (bind_ok _ _ _ _ _ Hnames).
    cbv zeta. fold (slot_names ids). rewrite Hin.
    eexists. split; [reflexivity|].
    apply (no_write_writes w (after_asks w (asked _get_slot_names (dev w)))).
    split; [reflexivity|]. eexists. reflexivity.
  - unfold exclusive_slot_close. rewrite (bind_ok _ _ _ _ _ Hnames).
    cbv zeta. fold (slot_names ids). rewrite Hin.
    eexists. split; [reflexivity|].
    apply (no_write_writes w (after_asks w (asked _get_slot_names (dev w)))).
    split; [reflexivity|]. eexists. reflexivity.
Qed.

(** X20.  [get_delay] on a specifier that violates nothing returns the
    delay times of the reply, one number for each comma-separated field and
    in the order of the reply; it raises [ValueError] when a field is not a
    number, and only then. *)
Theorem get_delay_parses_every_field (val : string) :
  violates ids rs cs (Call_get_delay val) = false ->
  let reply :=
    dev_ask ("print(" ++ ("channel.getdelay('" ++ val ++ "')") ++ ")") (dev w) in
  match value (get_delay val) (dev w) with
  | Ok delays =>
      Forall2 (fun field delay => float_of_str field = Some delay)
              (split "," reply) delays
  | Raise e =>
      e = ValueError "could not convert string to float" /\
      exists field : string,
        In field (split "," reply) /\ float_of_str field = None
  end.
Proof.
  cbn [violates]. intros Hv. apply orb_false_iff in Hv as [Hback Hvalid].
  apply negb_false_iff in Hvalid. cbv zeta.
  unfold get_delay.
  rewrite value_bind, (value_get_analog_backplane_specifiers _ _ Hids).
  rewrite value_bind.
  rewrite (value_qfor_guard (fun element => mem element (backplane_names ids))).
  fold (names_backplane ids val). rewrite Hback.
  rewrite value_bind, (value_validator _ ids rs cs Hids Hrows Hcols).
  fold (valid ids rs cs val). rewrite Hvalid. cbn [negb].
  rewrite value_bind, value_ask.
  set (reply := dev_ask _ (dev w)).
  set (parse := fun x : string =>
                  match float_of_str x with
                  | Some f => qret f
                  | None => qraise (ValueError "could not convert string to float")
                  end).
  pose proof (value_qmap_cases parse (dev w) (split "," reply)) as H.
  destruct (value (qmap parse (split "," reply)) (dev w)) as [delays|e].
  - induction H as [|x f l fs Hx _ IH]; constructor; [|exact IH].
    unfold parse in Hx. destruct (float_of_str x); [|discriminate Hx].
    injection Hx as <-. reflexivity.
  - destruct H as [x [Hin Hx]]. unfold parse in Hx.
    destruct (float_of_str x) eqn:Hf; [discriminate Hx|].
    injection Hx as <-. split; [reflexivity|]. exists x. split; assumption.
Qed.

Lemma split_nonempty (sep : ascii) (s : string) : split sep s <> [].
Proof.
  destruct s as [|c s]; cbn [split]; [discriminate|].
  destruct (Ascii.eqb c sep); [discriminate|].
  destruct (split sep s); discriminate.
Qed.

Lemma join_split (sep : ascii) (s : string) :
  join (String sep EmptyString) (split sep s) = s.
Proof.
  unfold join. induction s as [|c s IH]; [reflexivity|].
  cbn [split]. pose proof (split_nonempty sep s) as Hne.
  destruct (Ascii.eqb c sep) eqn:Hc.
  - apply Ascii.eqb_eq in Hc. subst c.
    destruct (split sep s) as [|f fs]; [contradiction|].
    cbn [String.concat append] in *. rewrite IH. reflexivity.
  - destruct (split sep s) as [|f fs]; [contradiction|].
    destruct fs as [|g fs]; cbn [String.concat append] in *;
      rewrite IH; reflexivity.
Qed.

(** X22.  [get_closed_channels] on a specifier that violates nothing
    returns [None] exactly when the instrument answers [nil].  Any other
    reply is cut at its semicolons: the list returned is never empty, none
    of its entries holds a semicolon, and joining the entries with
    semicolons gives the reply back. *)
Theorem get_closed_channels_splits_the_reply (val : string) :
  violates ids rs cs (Call_get_closed_channels val) = false ->
  let reply :=
    dev_ask ("print(" ++ ("channel.getclose('" ++ val ++ "')") ++ ")") (dev w) in
  (reply = "nil" -> value (get_closed_channels val) (dev w) = Ok None) /\
  (reply <> "nil" ->
   exists closed : list string,
     value (get_closed_channels val) (dev w) = Ok (Some closed) /\
     closed <> [] /\
     join ";" closed = reply /\
     forall channel : string,
       In channel closed -> ~ In ";"%char (list_ascii_of_string channel)).
Proof.
  cbn [violates]. intros Hv. apply orb_false_iff in Hv as [Hempty Hvalid].
  apply negb_false_iff in Hvalid. cbv zeta.
  assert (Hrun : value (get_closed_channels val) (dev w)
                 = if String.eqb
                        (dev_ask ("print(" ++ ("channel.getclose('" ++ val
                                               ++ "')") ++ ")") (dev w)) "nil"
                   then Ok None
                   else Ok (Some (split ";"
                                    (dev_ask ("print(" ++ ("channel.getclose('"
                                               ++ val ++ "')") ++ ")") (dev w))))).
  { unfold get_closed_channels. rewrite Hempty, value_bind.
    rewrite (value_validator _ ids rs cs Hids Hrows Hcols).
    fold (valid ids rs cs val). rewrite Hvalid. cbn [negb].
    rewrite value_bind, value_ask.
    destruct (String.eqb _ "nil"); reflexivity. }
  rewrite Hrun. split; intros Hreply.
  - rewrite Hreply. reflexivity.
  - apply String.eqb_neq in Hreply. rewrite Hreply.
    eexists. split; [reflexivity|]. split; [apply split_nonempty|].
    split; [apply join_split|]. intros channel Hin.
    exact (split_no_separator _ _ _ Hin).
Qed.

End Acceptance.

(** *** Everything sent is a wrapped query or a channel command *)

Lemma asks_wrapped_ret {A : Type} (a : A) : asks_wrapped (qret a).
Proof. intros d. constructor. Qed.

Lemma asks_wrapped_raise {A : Type} (e : exn) : asks_wrapped (@qraise A e).
Proof. intros d. constructor. Qed.

Lemma asks_wrapped_lift {A : Type} (o : outcome A) : asks_wrapped (qlift o).
Proof. intros d. constructor. Qed.

Lemma asks_wrapped_ask (cmd : string) : asks_wrapped (ask cmd).
Proof.
  intros d. rewrite asked_ask. constructor; [|constructor].
  exists cmd. reflexivity.
Qed.

Lemma asks_wrapped_bind {A B : Type} (q : Q A) (k : A -> Q B) :
  asks_wrapped q -> (forall a : A, asks_wrapped (k a)) ->
  asks_wrapped (qbind q k).
Proof.
  intros Hq Hk d. rewrite asked_bind. apply Forall_app. split; [apply Hq|].
  destruct (value q d); [apply Hk|constructor].
Qed.

Lemma asks_wrapped_qmap {A B : Type} (f : A -> Q B) (l : list A) :
  (forall a : A, asks_wrapped (f a)) -> asks_wrapped (qmap f l).
Proof.
  intros Hf. induction l as [|a l IH]; cbn [qmap].
  - apply asks_wrapped_ret.
  - apply asks_wrapped_bind; [apply Hf|intros b].
    apply asks_wrapped_bind; [exact IH|intros bs]. apply asks_wrapped_ret.
Qed.

Lemma asks_wrapped_qfor {A : Type} (l : list A) (body : A -> Q unit) :
  (forall a : A, asks_wrapped (body a)) -> asks_wrapped (qfor l body).
Proof.
  intros Hb. induction l as [|a l IH]; cbn [qfor].
  - apply asks_wrapped_ret.
  - apply asks_wrapped_bind; [apply Hb|intros _; exact IH].
Qed.

Lemma asks_wrapped_list_item {A : Type} (l : list A) (i : nat) :
  asks_wrapped (list_item l i).
Proof.
  unfold list_item. destruct (nth_error l i);
    [apply asks_wrapped_ret|apply asks_wrapped_raise].
Qed.

Lemma asks_wrapped_int_float (s : string) : asks_wrapped (int_float s).
Proof.
  unfold int_float. destruct (int_of_float_str s);
    [apply asks_wrapped_ret|apply asks_wrapped_raise].
Qed.

Ltac wrapping :=
  repeat first
    [ apply asks_wrapped_ret
    | apply asks_wrapped_raise
    | apply asks_wrapped_lift
    | apply asks_wrapped_ask
    | apply asks_wrapped_list_item
    | apply asks_wrapped_int_float
    | assumption
    | apply asks_wrapped_qmap; intros ?
    | apply asks_wrapped_qfor; intros ?
    | apply asks_wrapped_bind; [|intros ?]
    | match goal with
      | |- asks_wrapped (if ?b then _ else _) => destruct b
      | |- asks_wrapped (match ?x with _ => _ end) => destruct x
      end ].

Lemma asks_wrapped_scan_slots (slots : list Z) : asks_wrapped (scan_slots slots).
Proof. induction slots as [|i rest IH]; cbn [scan_slots]; wrapping. Qed.

Lemma asks_wrapped_slot_ids : asks_wrapped _get_slot_ids.
Proof.
  pose proof (asks_wrapped_scan_slots [1; 2; 3; 4; 5; 6]%Z).
  unfold _get_slot_ids, get_switch_cards. wrapping.
Qed.

Lemma asks_wrapped_channels_from (slot_id : list string) :
  forall (i : nat) (row_list column_list : list (list string)),
  asks_wrapped (channels_from i slot_id row_list column_list).
Proof.
  induction slot_id as [|slot rest IH]; intros i row_list column_list;
    cbn [channels_from]; [wrapping|].
  pose proof (IH (S i) row_list column_list). wrapping.
Qed.

Lemma asks_wrapped_channels_by_slot (slot_no : Z) :
  asks_wrapped (get_channels_by_slot slot_no).
Proof.
  pose proof asks_wrapped_slot_ids.
  unfold get_channels_by_slot, _get_rows, _get_columns, _get_number_of_rows,
    _get_number_of_columns.
  wrapping.
Qed.

Lemma asks_wrapped_backplanes : asks_wrapped get_analog_backplane_specifiers.
Proof.
  pose proof asks_wrapped_slot_ids.
  unfold get_analog_backplane_specifiers. wrapping.
Qed.

Lemma asks_wrapped_validator (val : string) : asks_wrapped (_validator val).
Proof.
  pose proof asks_wrapped_slot_ids. pose proof asks_wrapped_backplanes.
  pose proof asks_wrapped_channels_by_slot.
  unfold _validator, get_channels, _get_channel_ranges, _get_slot_names,
    _get_rows, _get_columns, _get_number_of_rows, _get_number_of_columns.
  repeat first
    [ apply asks_wrapped_channels_from
    | match goal with
      | H : forall n : Z, asks_wrapped _ |- asks_wrapped (get_channels_by_slot _) =>
          apply H
      end
    | progress wrapping ].
Qed.

Lemma asks_wrapped_interlock_state : asks_wrapped get_interlock_state.
Proof.
  pose proof asks_wrapped_slot_ids.
  unfold get_interlock_state, get_interlock_state_by_slot. wrapping.
Qed.

Lemma polite_ret {A : Type} (a : A) : polite (ret a).
Proof.
  intros w w' r H. inversion H; subst. exists []. rewrite app_nil_r.
  split; [reflexivity|constructor].
Qed.

Lemma polite_raise {A : Type} (e : exn) : polite (@raise A e).
Proof.
  intros w w' r H. inversion H; subst. exists []. rewrite app_nil_r.
  split; [reflexivity|constructor].
Qed.

Lemma polite_lift {A : Type} (o : outcome A) : polite (lift o).
Proof.
  intros w w' r H. inversion H; subst. exists []. rewrite app_nil_r.
  split; [reflexivity|constructor].
Qed.

Lemma polite_warn (msg : string) : polite (warn msg).
Proof.
  intros w w' r H. inversion H; subst. exists []. cbn [trace].
  rewrite app_nil_r. split; [reflexivity|constructor].
Qed.

Lemma polite_write (cmd : string) :
  prefix "channel." cmd = true -> polite (write cmd).
Proof.
  intros Hp w w' r H. inversion H; subst. exists [EvWrite cmd]. cbn [trace].
  split; [reflexivity|constructor; [exact Hp|constructor]].
Qed.

Lemma polite_query {A : Type} (q : Q A) : asks_wrapped q -> polite (query q).
Proof.
  intros Hq w w' r H. rewrite query_run in H. inversion H; subst.
  exists (map ask_event (asked q (dev w))). cbn [trace after_asks].
  split; [reflexivity|]. apply Forall_map.
  exact (Hq (dev w)).
Qed.

Lemma polite_bind {A B : Type} (m : M A) (k : A -> M B) :
  polite m -> (forall a : A, polite (k a)) -> polite (bind m k).
Proof.
  intros Hm Hk w w' r H. unfold bind in H.
  destruct (m w) as [[a|e] w1] eqn:Hrun.
  - destruct (Hm _ _ _ Hrun) as [s1 [H1 P1]].
    destruct (Hk a _ _ _ H) as [s2 [H2 P2]].
    exists (s1 ++ s2). rewrite H2, H1, app_assoc.
    split; [reflexivity|apply Forall_app; split; assumption].
  - inversion H; subst. exact (Hm _ _ _ Hrun).
Qed.

Lemma polite_for {A : Type} (l : list A) (body : A -> M unit) :
  (forall a : A, polite (body a)) -> polite (for_ l body).
Proof.
  intros Hbody. induction l as [|a l IH]; cbn [for_].
  - apply polite_ret.
  - apply polite_bind; [apply Hbody|intros _; exact IH].
Qed.

Ltac known_query :=
  match goal with
  | |- asks_wrapped (_validator _) => apply asks_wrapped_validator
  | |- asks_wrapped get_interlock_state => apply asks_wrapped_interlock_state
  | |- asks_wrapped get_analog_backplane_specifiers =>
      apply asks_wrapped_backplanes
  | |- asks_wrapped _get_slot_ids => apply asks_wrapped_slot_ids
  | |- asks_wrapped (get_channels_by_slot _) =>
      apply asks_wrapped_channels_by_slot
  | |- asks_wrapped (ask _) => apply asks_wrapped_ask
  | |- asks_wrapped (qret _) => apply asks_wrapped_ret
  | |- asks_wrapped (qraise _) => apply asks_wrapped_raise
  | |- asks_wrapped (qmap _ _) => apply asks_wrapped_qmap; intros ?
  | |- asks_wrapped (qfor _ _) => apply asks_wrapped_qfor; intros ?
  | |- asks_wrapped (qbind _ _) => apply asks_wrapped_bind; [|intros ?]
  | |- asks_wrapped (if ?b then _ else _) => destruct b
  | |- asks_wrapped (match ?x with _ => _ end) => destruct x
  end.

Ltac politely :=
  repeat first
    [ apply polite_ret
    | apply polite_raise
    | apply polite_lift
    | apply polite_warn
    | apply polite_write; reflexivity
    | apply polite_query
    | apply polite_for; intros ?
    | apply polite_bind; [|intros ?]
    | match goal with
      | |- polite (if ?b then _ else _) => destruct b
      end
    | known_query ].

(** X21.  Whatever a specifier-taking call sends, and however it ends,
    every query goes out wrapped in [print()], as the override of [ask]
    requires, and every command is a [channel.] command sent as it is. *)
Theorem queries_are_wrapped_in_print (c : call) (w w' : World)
  (r : outcome unit) :
  run c w = (r, w') ->
  exists sent : list event,
    trace w' = trace w ++ sent /\
    Forall (fun e =>
              match e with
              | EvAsk cmd _ =>
                  exists inner : string, cmd = ("print(" ++ inner ++ ")")%string
              | EvWrite cmd => prefix "channel." cmd = true
              end) sent.
Proof.
  assert (Hc : polite (run c)).
  { destruct c; cbn [run];
      unfold reset_channel, open_channel, close_channel, exclusive_close,
        exclusive_slot_close, set_forbidden_channels, clear_forbidden_channels,
        set_delay, set_backplane, _warn_on_disengaged_interlocks,
        check_interlock, get_closed_channels, get_forbidden_channels,
        get_delay, get_backplane, _get_slot_names;
      politely. }
  intros H. exact (Hc w w' r H).
Qed.

(** *** Further properties of the row and column helpers *)

Lemma chars_one_digit (n : Z) : (0 <= n <= 9)%Z -> chars (str n) = [str n].
Proof.
  intros H. rewrite <- (Z2Nat.id n) by lia.
  assert (Hn : (Z.to_nat n < 10)%nat) by lia.
  destruct (Z.to_nat n) as [|k]; [reflexivity|].
  do 9 (destruct k as [|k]; [reflexivity|]). lia.
Qed.

Lemma chars_two_digits (n : Z) :
  (10 <= n <= 99)%Z -> chars (str n) = [str (n / 10); str (n mod 10)].
Proof.
  intros H. rewrite <- (Z2Nat.id n) by lia.
  assert (Hn : (10 <= Z.to_nat n < 100)%nat) by lia.
  destruct (Z.to_nat n) as [|k]; [lia|].
  do 9 (destruct k as [|k]; [lia|]).
  do 90 (destruct k as [|k]; [vm_compute; reflexivity|]). lia.
Qed.

Lemma product_one_slot (x : string) (ys zs : list string) :
  map (join EmptyString) (product [x] ys zs)
  = flat_map (fun y => map (fun z => (x ++ y ++ z)%string) zs) ys.
Proof.
  unfold product. cbn [flat_map]. rewrite app_nil_r.
  induction ys as [|y ys IH]; [reflexivity|].
  cbn [flat_map]. rewrite map_app, IH, map_map. reflexivity.
Qed.

Lemma helper_returns {A : Type} (m : M unit) (a b : A) (w w' : World) :
  (m ;; ret a) w = (Ok b, w') -> b = a.
Proof.
  unfold bind. destruct (m w) as [[[]|e] w1]; [|discriminate].
  intros [= <- _]. reflexivity.
Qed.

(** X18.  The row helpers read the row number digit by digit.  When
    [connect_row_to_columns] or [disconnect_row_from_columns] returns, the
    channels it acted on are, for a row of one digit, that row with the
    given columns in the given order; for a row of two digits they are the
    row of the first digit and then the row of the second digit, not the
    row asked for.  The column helpers take each row number whole. *)
Theorem row_helper_reads_the_row_digit_by_digit (action : string)
  (slot_id : Z) (w w' : World) (channels : list string) :
  (forall (row_id : Z) (columns : list Z),
     _connect_or_disconnect_row_to_columns action slot_id row_id columns w
     = (Ok channels, w') ->
     ((0 <= row_id <= 9)%Z ->
      channels
      = map (fun c => (str slot_id ++ str row_id ++ column_name c)%string)
            columns) /\
     ((10 <= row_id <= 99)%Z ->
      channels
      = map (fun c => (str slot_id ++ str (row_id / 10) ++ column_name c)%string)
            columns
        ++ map (fun c =>
                  (str slot_id ++ str (row_id mod 10) ++ column_name c)%string)
               columns)) /\
  (forall (column_id : Z) (rows : list Z),
     _connect_or_disconnect_column_to_rows action slot_id column_id rows w
     = (Ok channels, w') ->
     channels
     = map (fun r => (str slot_id ++ str r ++ column_name column_id)%string)
           rows).
Proof.
  split.
  - intros row_id columns H.
    unfold _connect_or_disconnect_row_to_columns in H.
    destruct (negb (mem action ["connect"; "disconnect"])); [discriminate H|].
    unfold bind at 1 in H. rewrite query_run in H.
    destruct (value _get_slot_ids (dev w)) as [slots|e] eqn:Hslots;
      [|discriminate H].
    cbv zeta in H.
    destruct (negb (mem (str slot_id) slots)) eqn:Hmem; [discriminate H|].
    apply negb_false_iff, mem_In in Hmem.
    destruct (slot_digit_facts _ (slot_ids_digits _ _ Hslots _ Hmem))
      as [Hchars _].
    apply helper_returns in H. subst channels.
    rewrite Hchars, product_one_slot. split; intros Hrow.
    + rewrite (chars_one_digit row_id Hrow). cbn [flat_map].
      rewrite app_nil_r, map_map. reflexivity.
    + rewrite (chars_two_digits row_id Hrow). cbn [flat_map].
      rewrite app_nil_r, !map_map. reflexivity.
  - intros column_id rows H.
    unfold _connect_or_disconnect_column_to_rows in H.
    destruct (negb (mem action ["connect"; "disconnect"])); [discriminate H|].
    unfold bind at 1 in H. rewrite query_run in H.
    destruct (value _get_slot_ids (dev w)) as [slots|e] eqn:Hslots;
      [|discriminate H].
    cbv zeta in H.
    destruct (negb (mem (str slot_id) slots)) eqn:Hmem; [discriminate H|].
    apply negb_false_iff, mem_In in Hmem.
    destruct (slot_digit_facts _ (slot_ids_digits _ _ Hslots _ Hmem))
      as [Hchars _].
    apply helper_returns in H. subst channels.
    rewrite Hchars, product_one_slot. clear.
    induction rows as [|r rows IH]; [reflexivity|].
    cbn [map flat_map app]. f_equal. exact IH.
Qed.

End Driver.

(** *** A simulated switch

    The instrument of the examples: one kind of matrix card with [rows] by
    [columns] channels in the slots listed in [installed], the same interlock
    reply for every slot, and a fixed forbidden list.  Numbers are sent as
    plain decimals. *)

Module Sim.

Record Switch : Type := {
  installed : list Z;
  rows : Z;
  columns : Z;
  interlock_reply : string;
  forbidden_reply : string
}.

Definition asks_slot (cmd suffix : string) (i : Z) : bool :=
  String.eqb cmd ("print(slot[" ++ str i ++ "]." ++ suffix ++ ")").

Definition dev_write (cmd : string) (d : Switch) : Switch := d.

Definition dev_ask (cmd : string) (d : Switch) : string :=
  let slots := [1; 2; 3; 4; 5; 6]%Z in
  match find (asks_slot cmd "idn") slots with
  | Some i =>
      if existsb (Z.eqb i) (installed d)
      then "3730,6x16 High Density Matrix,01.40h,0123456"
      else "Empty Slot"
  | None =>
      if existsb (asks_slot cmd "rows.matrix") slots then str (rows d)
      else if existsb (asks_slot cmd "columns.matrix") slots then str (columns d)
      else if existsb (asks_slot cmd "interlock.state") slots
           then interlock_reply d
      else if prefix "print(channel.getforbidden(" cmd then forbidden_reply d
      else "nil"
  end.

Definition int_of_float_str (s : string) : option Z :=
  if isdigit s && string_forallb is_ascii_digit s
  then Some (int_of_digits s)
  else None.

Definition float_of_str (s : string) : option Z := int_of_float_str s.

Definition value {A : Type} (q : Q Switch A) (d : Switch) : outcome A :=
  Keithley.value Switch q d.

Definition validator (val : string) : Q Switch bool :=
  _validator Switch dev_ask int_of_float_str val.

Definition World : Type := Keithley.World Switch.

Definition run (c : call) : World -> outcome unit * World :=
  Keithley.run Switch dev_write dev_ask int_of_float_str Z float_of_str c.

(** One 6 by 8 card in slot 1, interlocks disengaged, channel 1101
    forbidden. *)
Definition bench : Switch :=
  {| installed := [1%Z]; rows := 6; columns := 8; interlock_reply := "0";
     forbidden_reply := "1101" |}.

(** One 16 by 28 card in slot 1, interlocks engaged, channel 11001 (row 10,
    column 1) forbidden. *)
Definition large : Switch :=
  {| installed := [1%Z]; rows := 16; columns := 28; interlock_reply := "3";
     forbidden_reply := "11001" |}.

(** The bench with two channels forbidden. *)
Definition guarded_bench : Switch :=
  {| installed := [1%Z]; rows := 6; columns := 8; interlock_reply := "0";
     forbidden_reply := "1101,1102" |}.

Definition start (d : Switch) : World := {| dev := d; trace := []; warned := [] |}.

Definition bench_states : list Interlock :=
  [{| interlock_slot_no := "1"; state := disengaged |}].

Definition close_channel (val : string) : World -> outcome unit * World :=
  Keithley.close_channel Switch dev_write dev_ask int_of_float_str val.

Example bench_inventory :
  value (_get_slot_ids Switch dev_ask) bench = Ok ["1"] /\
  value (_get_number_of_rows Switch dev_ask int_of_float_str) bench = Ok [6%Z] /\
  value (_get_number_of_columns Switch dev_ask int_of_float_str) bench
  = Ok [8%Z] /\
  value (get_interlock_state Switch dev_ask int_of_float_str) bench
  = Ok bench_states.
Proof. repeat split; vm_compute; reflexivity. Qed.

Example close_forbidden_relay :
  let r := close_channel "1911,1101" (start bench) in
  fst r = Ok tt /\
  warned _ (snd r) = [interlock_warning "1" "1911"] /\
  writes (trace _ (snd r)) = [EvWrite "channel.close('1911,1101')"].
Proof. vm_compute. repeat split; reflexivity. Qed.

(** The claims at the simulated instrument. *)

Lemma validator_checks_every_element_witness :
  value (validator "1101,1911,slot1,1101:1102") bench = Ok true /\
  value (validator "1101,1917") bench = Ok false.
Proof.
  destruct bench_inventory as [Hids [Hrows [Hcols _]]].
  split.
  - apply (validator_checks_every_element Switch dev_ask int_of_float_str
             bench ["1"] [6%Z] [8%Z] "1101,1911,slot1,1101:1102"
             Hids Hrows Hcols).
    apply all_listed_true. vm_compute. reflexivity.
  - apply (validator_checks_every_element Switch dev_ask int_of_float_str
             bench ["1"] [6%Z] [8%Z] "1101,1917" Hids Hrows Hcols).
    apply all_listed_false. vm_compute. reflexivity.
Defined.

Lemma rejections_precede_the_command_witness :
  exists (e : exn) (w' : World),
    run (Call_open_channel "bogus") (start bench) = (Raise e, w') /\
    is_rejection e = true /\
    no_write _ (start bench) w' /\
    writes (trace _ w') = writes (trace _ (start bench)).
Proof.
  destruct bench_inventory as [Hids [Hrows [Hcols Hstates]]].
  apply (rejections_precede_the_command Switch dev_write dev_ask
           int_of_float_str Z float_of_str (start bench) ["1"] [6%Z] [8%Z]
           bench_states Hids Hrows Hcols Hstates).
  vm_compute. reflexivity.
Defined.

Definition run_batch (b : batch) : World -> outcome (list string) * World :=
  Keithley.run_batch Switch dev_write dev_ask int_of_float_str b.

(** C6 as stated fails.  The rejection of an invalid specifier comes after
    the 58 queries with which the validator reads the inventory; and a row
    helper rejects its second channel after the command for the first has
    gone to the instrument. *)
Lemma rejection_follows_queries :
  (fst (run (Call_open_channel "bogus") (start bench))
   = Raise (Keithley3706AInvalidValue (any_specifier_msg "bogus")) /\
   List.length (trace _ (snd (run (Call_open_channel "bogus") (start bench))))
   = 58%nat /\
   hd_error (trace _ (snd (run (Call_open_channel "bogus") (start bench))))
   = Some (EvAsk "print(slot[1].idn)"
                 "3730,6x16 High Density Matrix,01.40h,0123456")) /\
  (fst (run_batch (Batch_connect_row_to_columns 1 1 [1; 99]%Z) (start bench))
   = Raise (Keithley3706AInvalidValue (any_specifier_msg "1199")) /\
   writes (trace _ (snd (run_batch (Batch_connect_row_to_columns 1 1 [1; 99]%Z)
                           (start bench))))
   = [EvWrite "channel.open('1101')"]).
Proof. vm_compute. repeat split; reflexivity. Qed.

Lemma close_channel_rejects_other_lengths_witness :
  exists (msg : string) (w' : World),
    close_channel "1101:1102" (start bench)
    = (Raise (Keithley3706AInvalidValue msg), w') /\
    no_write _ (start bench) w'.
Proof.
  destruct bench_inventory as [Hids [Hrows [Hcols Hstates]]].
  destruct (close_channel_rejects_other_lengths Switch dev_write dev_ask
              int_of_float_str Z float_of_str (start bench) ["1"] [6%Z] [8%Z]
              bench_states Hids Hrows Hcols Hstates "1101:1102" "1101:1102")
    as [msg [w' [Hrun [Hquiet _]]]].
  - left. reflexivity.
  - left. vm_compute. discriminate.
  - exists msg, w'. split; [exact Hrun|exact Hquiet].
Defined.



Lemma single_card_backplane_relays_witness :
  value (get_analog_backplane_specifiers Switch dev_ask) bench
  = Ok ["1911"; "1912"; "1913"; "1914"; "1915"; "1916"] /\
  value (validator "1971") bench = Ok false /\
  value (validator "1917") bench = Ok false.
Proof.
  destruct bench_inventory as [Hids [Hrows [Hcols _]]].
  destruct (single_card_backplane_relays Switch dev_ask int_of_float_str bench
              Hids)
    as [Hsix [Hid Hfail]].
  split; [exact Hsix|]. split.
  - apply (Hfail 6%Z 8%Z Hrows Hcols). left. reflexivity.
  - destruct (Hid 6%Z 8%Z "17" Hrows Hcols eq_refl) as [b [Hv [_ Hsmall]]].
    + unfold has_comma. cbn. intros [H|[H|[]]]; discriminate H.
    + unfold value, validator. cbn [append] in Hv. rewrite Hv. f_equal.
      apply Hsmall; [reflexivity|].
      cbn. intros [H|[H|[H|[H|[H|[H|[]]]]]]]; discriminate H.
Defined.

(** C10 as stated fails: on a single 16 by 28 card in slot 1, the relay id
    17 is no backplane relay, and yet ["1917"] passes validation, as the
    matrix channel of row 9 and column 17. *)
Lemma large_card_has_channel_1917 :
  value (_get_slot_ids Switch dev_ask) large = Ok ["1"] /\
  value (_get_number_of_rows Switch dev_ask int_of_float_str) large
  = Ok [16%Z] /\
  value (_get_number_of_columns Switch dev_ask int_of_float_str) large
  = Ok [28%Z] /\
  value (get_analog_backplane_specifiers Switch dev_ask) large
  = Ok ["1911"; "1912"; "1913"; "1914"; "1915"; "1916"] /\
  value (validator "1917") large = Ok true /\
  In "1917" (slot_channels "1" 16 28).
Proof.
  split; [vm_compute; reflexivity|].
  split; [vm_compute; reflexivity|].
  split; [vm_compute; reflexivity|].
  split; [vm_compute; reflexivity|].
  split; [vm_compute; reflexivity|].
  vm_compute. auto 300.
Qed.

(** The further properties at the simulated instrument. *)

(** An instrument with delay times and closed channels to report. *)
Definition dev_ask_delays (cmd : string) (d : Switch) : string :=
  if prefix "print(channel.getdelay(" cmd then "0,25"
  else if prefix "print(channel.getclose(" cmd then "1101;1102"
  else dev_ask cmd d.

Lemma get_switch_cards_lists_filled_slots_witness :
  exists cards : list Card,
    value (get_switch_cards Switch dev_ask) bench = Ok cards /\
    map slot_no cards = ["1"] /\
    List.length (asked Switch (get_switch_cards Switch dev_ask) bench) = 6%nat.
Proof.
  pose proof (get_switch_cards_lists_filled_slots Switch dev_ask bench) as H.
  unfold value.
  destruct (Keithley.value Switch (get_switch_cards Switch dev_ask) bench)
    as [cards|e] eqn:Hc.
  - exists cards. destruct H as [_ [Hs Ha]]. split; [reflexivity|].
    split; [rewrite Hs; vm_compute; reflexivity|rewrite Ha; reflexivity].
  - vm_compute in Hc. discriminate Hc.
Defined.

Lemma get_channels_counts_every_card_witness :
  exists channels : list string,
    value (get_channels Switch dev_ask int_of_float_str) bench = Ok channels /\
    List.length channels = 48%nat.
Proof.
  destruct bench_inventory as [Hids [Hrows [Hcols _]]].
  destruct (get_channels_counts_every_card Switch dev_ask int_of_float_str
              bench ["1"] [6%Z] [8%Z] Hids Hrows Hcols)
    as [channels [Hv [Hl _]]].
  exists channels. split; [exact Hv|exact Hl].
Defined.

Lemma get_channels_by_slot_reads_first_card_witness :
  exists channels : list string,
    value (get_channels_by_slot Switch dev_ask int_of_float_str 1) bench
    = Ok channels /\
    List.length channels = 48%nat /\ In "1608" channels.
Proof.
  destruct bench_inventory as [Hids [Hrows [Hcols _]]].
  destruct (get_channels_by_slot_reads_first_card Switch dev_ask
              int_of_float_str bench ["1"] [6%Z] [8%Z] 1 Hids Hrows Hcols)
    as [r [c [rs' [cs' [channels [Er [Ec [Hv [Hl Hin]]]]]]]]].
  - left. reflexivity.
  - injection Er as <- <-. injection Ec as <- <-.
    exists channels. split; [exact Hv|]. split; [exact Hl|].
    apply Hin. exists 6%Z, 8%Z. split; [lia|]. split; [lia|reflexivity].
Defined.

Lemma backplane_specifiers_read_as_backplane_witness :
  exists backplanes : list string,
    value (get_analog_backplane_specifiers Switch dev_ask) bench = Ok backplanes /\
    List.length backplanes = 6%nat /\
    _is_backplane_channel "1901" = Ok true.
Proof.
  destruct bench_inventory as [Hids [Hrows [Hcols _]]].
  destruct (backplane_specifiers_read_as_backplane Switch dev_ask
              int_of_float_str bench ["1"] [6%Z] [8%Z] Hids Hrows Hcols)
    as [backplanes [Hv [Hl [_ [Hrow _]]]]].
  exists backplanes. split; [exact Hv|]. split; [exact Hl|].
  apply (Hrow "1" "01"); [left; reflexivity|reflexivity].
Defined.

Lemma get_interlock_state_reports_each_slot_witness :
  Forall2 (fun slot st => interlock_slot_no st = slot) ["1"] bench_states.
Proof.
  destruct bench_inventory as [Hids [_ [_ Hstates]]].
  pose proof (get_interlock_state_reports_each_slot Switch dev_ask
                int_of_float_str bench ["1"] Hids) as H.
  unfold value in Hstates. rewrite Hstates in H.
  inversion H as [|slot st l l' [Hslot _] Hrest]; subst.
  constructor; [exact Hslot|]. inversion Hrest. constructor.
Defined.

Lemma a_call_that_returns_has_sent_its_command_witness :
  exists log : list (string * string),
    trace _ (snd (run (Call_open_channel "1101") (start bench)))
    = map ask_event log ++ [EvWrite "channel.open('1101')"].
Proof.
  destruct (a_call_that_returns_has_sent_its_command Switch dev_write dev_ask
              int_of_float_str Z float_of_str (Call_open_channel "1101")
              (start bench)
              (snd (run (Call_open_channel "1101") (start bench))))
    as [_ [log Hlog]].
  - vm_compute. reflexivity.
  - exists log. exact Hlog.
Defined.

Lemma close_channel_never_warns_on_lists_witness :
  exists msgs : list string,
    warned _ (snd (Keithley.close_channel Switch dev_write dev_ask
                     int_of_float_str "1101,1102"
                     (start guarded_bench)))
    = msgs /\
    ~ In forbidden_warning msgs.
Proof.
  destruct (close_channel_never_warns_on_lists Switch dev_write dev_ask
              int_of_float_str "1101,1102" (start guarded_bench)
              (snd (Keithley.close_channel Switch dev_write dev_ask
                      int_of_float_str "1101,1102" (start guarded_bench)))
              (fst (Keithley.close_channel Switch dev_write dev_ask
                      int_of_float_str "1101,1102" (start guarded_bench))))
    as [msgs [Hw [Hnot _]]].
  - unfold has_comma. cbn. auto 10.
  - vm_compute. reflexivity.
  - exists msgs. split; [exact Hw|exact Hnot].
Defined.

Lemma calls_without_violation_return_witness :
  exists w' : World,
    run (Call_set_backplane "1101" "1911") (start bench) = (Ok tt, w').
Proof.
  destruct bench_inventory as [Hids [Hrows [Hcols Hstates]]].
  apply (calls_without_violation_return Switch dev_write dev_ask
           int_of_float_str Z float_of_str (start bench) ["1"] [6%Z] [8%Z]
           bench_states Hids Hrows Hcols Hstates
           (Call_set_backplane "1101" "1911")).
  - vm_compute. reflexivity.
  - intros val. discriminate.
  - intros val. discriminate.
Defined.

Lemma set_backplane_warns_first_witness :
  warned _ (snd (run (Call_set_backplane "bogus" "1911") (start bench)))
  = [slot_interlock_warning "1"].
Proof.
  destruct bench_inventory as [Hids [_ [_ Hstates]]].
  apply (set_backplane_warns_first Switch dev_write dev_ask int_of_float_str
           (start bench) ["1"] bench_states Hids Hstates "bogus" "1911"
           (fst (run (Call_set_backplane "bogus" "1911") (start bench)))).
  vm_compute. reflexivity.
Defined.

Lemma validator_rejects_empty_elements_witness :
  value (validator "1101,") bench = Ok false /\
  value (validator EmptyString) bench = Ok false.
Proof.
  destruct bench_inventory as [Hids [Hrows [Hcols _]]].
  split.
  - apply (validator_rejects_empty_elements Switch dev_write dev_ask
             int_of_float_str (start bench) ["1"] [6%Z] [8%Z] Hids Hrows Hcols
             "1101,").
    right. left. reflexivity.
  - apply (validator_rejects_empty_elements Switch dev_write dev_ask
             int_of_float_str (start bench) ["1"] [6%Z] [8%Z] Hids Hrows Hcols
             EmptyString).
    left. reflexivity.
Defined.

Lemma queries_are_wrapped_in_print_witness :
  exists sent : list event,
    trace _ (snd (run (Call_close_channel "1101") (start bench))) = sent /\
    Forall (fun e =>
              match e with
              | EvAsk cmd _ =>
                  exists inner : string, cmd = ("print(" ++ inner ++ ")")%string
              | EvWrite cmd => prefix "channel." cmd = true
              end) sent.
Proof.
  destruct (queries_are_wrapped_in_print Switch dev_write dev_ask
              int_of_float_str Z float_of_str (Call_close_channel "1101")
              (start bench)
              (snd (run (Call_close_channel "1101") (start bench)))
              (fst (run (Call_close_channel "1101") (start bench))))
    as [sent [Hsent Hall]].
  - vm_compute. reflexivity.
  - exists sent. split; [exact Hsent|exact Hall].
Defined.

Lemma row_helper_reads_the_row_digit_by_digit_witness :
  fst (run_batch (Batch_connect_row_to_columns 1 12 [1%Z]) (start bench))
  = Ok ["1101"; "1201"].
Proof.
  destruct (fst (run_batch (Batch_connect_row_to_columns 1 12 [1%Z])
                   (start bench))) as [channels|e] eqn:Hrun.
  - f_equal.
    apply (proj1 (row_helper_reads_the_row_digit_by_digit Switch dev_write
                    dev_ask int_of_float_str "connect" 1 (start bench)
                    (snd (run_batch (Batch_connect_row_to_columns 1 12 [1%Z])
                            (start bench)))
                    channels)
             12%Z [1%Z]).
    + rewrite <- Hrun. vm_compute. reflexivity.
    + lia.
  - vm_compute in Hrun. discriminate Hrun.
Defined.

Lemma slots_open_but_do_not_close_witness :
  (exists w' : World,
     run (Call_open_channel "slot1") (start bench) = (Ok tt, w') /\
     writes (trace _ w') = [EvWrite "channel.open('slot1')"]) /\
  (exists w' : World,
     close_channel "slot1" (start bench)
     = (Raise (Keithley3706AInvalidValue "Slots cannot be closed all together."),
        w') /\
     writes (trace _ w') = []).
Proof.
  destruct bench_inventory as [Hids [Hrows [Hcols _]]].
  destruct (slots_open_but_do_not_close Switch dev_write dev_ask
              int_of_float_str Z float_of_str (start bench) ["1"] [6%Z] [8%Z]
              Hids Hrows Hcols "slot1")
    as [Hopen [_ [Hclose _]]].
  - right. left. reflexivity.
  - split; [exact Hopen|exact Hclose].
Defined.

Lemma get_delay_parses_every_field_witness :
  exists delays : list Z,
    Keithley.value Switch
      (get_delay Switch dev_ask_delays int_of_float_str Z float_of_str "1101")
      bench
    = Ok delays /\
    Forall2 (fun field delay => float_of_str field = Some delay)
            ["0"; "25"] delays.
Proof.
  assert (Hids : Keithley.value Switch (_get_slot_ids Switch dev_ask_delays)
                   bench = Ok ["1"]) by (vm_compute; reflexivity).
  assert (Hrows : Keithley.value Switch
                    (_get_number_of_rows Switch dev_ask_delays int_of_float_str)
                    bench = Ok [6%Z]) by (vm_compute; reflexivity).
  assert (Hcols : Keithley.value Switch
                    (_get_number_of_columns Switch dev_ask_delays
                       int_of_float_str)
                    bench = Ok [8%Z]) by (vm_compute; reflexivity).
  pose proof (get_delay_parses_every_field Switch dev_ask_delays
                int_of_float_str Z float_of_str (start bench) ["1"] [6%Z] [8%Z]
                Hids Hrows Hcols "1101") as H.
  cbv zeta in H. cbn [dev start] in H.
  destruct (Keithley.value Switch
              (get_delay Switch dev_ask_delays int_of_float_str Z float_of_str
                 "1101") bench) as [delays|e] eqn:Hrun.
  - exists delays. split; [reflexivity|]. apply H. vm_compute. reflexivity.
  - vm_compute in Hrun. discriminate Hrun.
Defined.

Lemma get_closed_channels_splits_the_reply_witness :
  value (get_closed_channels Switch dev_ask int_of_float_str "1101") bench
  = Ok None /\
  exists closed : list string,
    value (get_closed_channels Switch dev_ask_delays int_of_float_str "slot1")
      bench
    = Ok (Some closed) /\
    join ";" closed = "1101;1102".
Proof.
  destruct bench_inventory as [Hids [Hrows [Hcols _]]].
  split.
  - apply (get_closed_channels_splits_the_reply Switch dev_ask int_of_float_str
             (start bench) ["1"] [6%Z] [8%Z] Hids Hrows Hcols "1101").
    + vm_compute. reflexivity.
    + vm_compute. reflexivity.
  - assert (Hids' : Keithley.value Switch (_get_slot_ids Switch dev_ask_delays)
                      bench = Ok ["1"]) by (vm_compute; reflexivity).
    assert (Hrows' : Keithley.value Switch
                       (_get_number_of_rows Switch dev_ask_delays
                          int_of_float_str)
                       bench = Ok [6%Z]) by (vm_compute; reflexivity).
    assert (Hcols' : Keithley.value Switch
                       (_get_number_of_columns Switch dev_ask_delays
                          int_of_float_str)
                       bench = Ok [8%Z]) by (vm_compute; reflexivity).
    destruct (proj2 (get_closed_channels_splits_the_reply Switch dev_ask_delays
                       int_of_float_str (start bench) ["1"] [6%Z] [8%Z]
                       Hids' Hrows' Hcols' "slot1" eq_refl))
      as [closed [Hv [_ [Hjoin _]]]].
    + vm_compute. discriminate.
    + exists closed. split; [exact Hv|exact Hjoin].
Defined.

End Sim.

End Keithley.
